(** * MaxScale core: sessions and descriptor control blocks

    A shallow embedding of the session bookkeeping of
    [server/core/session.cc] and of the read-queue accessors of
    [include/maxscale/dcb.hh], together with the properties of these
    functions that the specification of the connection-and-session
    substrate relies on.

    Conventions of the embedding.
    - A nullable pointer [T*] is an [option T]; [NULL] is [None].
    - A [GWBUF] is represented by the bytes it carries.
    - [int] is a 32-bit two's complement integer kept as a [Z] and
      re-normalised by [wrap_int] after arithmetic; [uint32_t] likewise
      with [wrap_u32].
    - Calls that leave the session (the client protocol's [write],
      [DCB::close], an upstream [clientReply], the logging macros) are
      appended, in program order, to the [trace] of the session.
    - [mxb_assert] is a debug-build assertion: with [SS_DEBUG] it aborts the
      process when its condition is false, without it the macro expands
      to nothing.  Every function that asserts takes the build flavour
      as its first argument. *)

From Stdlib Require Import ZArith Ascii String.
From stdpp Require Import gmap strings list fin_maps.

Local Open Scope Z_scope.

(** ** Outcomes and the state monad of the embedding *)

Inductive Outcome (A : Type) : Type :=
| Done (a : A)          (* the call returned *)
| AssertFailed          (* an [mxb_assert] aborted the process *)
| Undefined.            (* null dereference or out-of-range iterator *)

Arguments Done {A} a.
Arguments AssertFailed {A}.
Arguments Undefined {A}.

Definition Prog (St A : Type) : Type := St -> Outcome (A * St).

#[global] Instance Prog_ret {St : Type} : MRet (Prog St) :=
  fun A a s => Done (a, s).

#[global] Instance Prog_bind {St : Type} : MBind (Prog St) :=
  fun A B k m s =>
    match m s with
    | Done (a, s') => k a s'
    | AssertFailed => AssertFailed
    | Undefined => Undefined
    end.

Definition gets {St A : Type} (f : St -> A) : Prog St A :=
  fun s => Done (f s, s).

Definition modify {St : Type} (f : St -> St) : Prog St unit :=
  fun s => Done (tt, f s).

Definition undefined {St A : Type} : Prog St A :=
  fun _ => Undefined.

Definition mxb_assert {St : Type} (SS_DEBUG : bool) (cond : bool) : Prog St unit :=
  fun s => if SS_DEBUG && negb cond then AssertFailed else Done (tt, s).

Definition when {St : Type} (c : bool) (m : Prog St unit) : Prog St unit :=
  if c then m else mret tt.

(** ** Machine integers *)

Definition INT_MIN : Z := - 2 ^ 31.
Definition INT_MAX : Z := 2 ^ 31 - 1.

Definition wrap_int (z : Z) : Z := (z + 2 ^ 31) mod 2 ^ 32 - 2 ^ 31.
Definition wrap_u32 (z : Z) : Z := z mod 2 ^ 32.

Definition int_range (z : Z) : Prop := INT_MIN <= z <= INT_MAX.

(** ** Buffers and opaque handles *)

Definition GWBUF : Type := list Byte.byte.

(** [!p] for a pointer [p]. *)
Definition is_null {A : Type} (p : option A) : bool :=
  match p with
  | Some _ => false
  | None => true
  end.

(** Modelled from the spec: [gwbuf_append] lives in buffer.cc; the
    buffer chain offers "append (by ownership transfer)": the bytes of
    the tail follow those of the head, and a null side leaves the
    other. *)
Definition gwbuf_append (head tail : option GWBUF) : option GWBUF :=
  match head, tail with
  | Some h, Some t => Some (h ++ t)
  | Some h, None => Some h
  | None, _ => tail
  end.

(** Modelled from the spec: [gwbuf_clone] lives in buffer.cc; the buffer
    chain offers "clone (deep)", a copy carrying the same bytes, and the
    clone of no buffer is no buffer. *)
Definition gwbuf_clone (b : option GWBUF) : option GWBUF := b.

Definition SERVER : Type := positive.
Definition SERVICE : Type := positive.
Definition MXS_FILTER : Type := positive.
Definition MXS_FILTER_SESSION : Type := positive.
(** The address of an upstream [clientReply] function. *)
Definition ClientReplyFn : Type := positive.
Definition Worker : Type := positive.

(** [struct timespec] as (tv_sec, tv_nsec). *)
Definition timespec : Type := (Z * Z)%type.

(** ** Effects that leave the session *)

Inductive Event : Type :=
| EvWrite (buf : option GWBUF)
    (* client_connection()->write(buf) *)
| EvDcbClose
    (* DCB::close(client_dcb) *)
| EvClientReply (fn : ClientReplyFn) (inst : MXS_FILTER)
                (fsession : option MXS_FILTER_SESSION)
                (buf : option GWBUF) (svc : option SERVICE)
    (* response.up.clientReply(instance, session, buffer, route, reply(service)) *)
| EvError (msg : string)
    (* MXS_ERROR *)
| EvWarning (msg : string)
    (* MXS_WARNING *)
| EvSessionFree.
    (* session_free: delete static_cast<Session*>(session) *)

(** ** DCB: the read queue (include/maxscale/dcb.hh) *)

Module DCB.

Inductive Role : Type := CLIENT | BACKEND | INTERNAL.

Record t : Type := mk {
  role : Role;
  owner : Worker;              (* the worker the DCB is pinned to *)
  m_readq : option GWBUF;      (* GWBUF* m_readq = nullptr *)
  m_nClose : Z;                (* uint32_t m_nClose = 0 *)
  log : list Event             (* what the logging macros emitted *)
}.

Definition set_readq (q : option GWBUF) (d : t) : t :=
  mk (role d) (owner d) q (m_nClose d) (log d).

Definition add_log (e : Event) (d : t) : t :=
  mk (role d) (owner d) (m_readq d) (m_nClose d) (log d ++ [e]).

Definition role_eqb (a b : Role) : bool :=
  match a, b with
  | CLIENT, CLIENT | BACKEND, BACKEND | INTERNAL, INTERNAL => true
  | _, _ => false
  end.

Definition is_closed (d : t) : bool :=
  negb (m_nClose d =? 0).

Definition readq : Prog t (option GWBUF) :=
  gets m_readq.

Definition readq_release : Prog t (option GWBUF) :=
  readq ← gets m_readq;
  modify (set_readq None);;
  mret readq.

Definition readq_append (buffer : option GWBUF) : Prog t unit :=
  modify (fun d => set_readq (gwbuf_append (m_readq d) buffer) d).

Definition readq_prepend (buffer : option GWBUF) : Prog t unit :=
  modify (fun d =>
    set_readq (if is_null (m_readq d) then buffer
               else gwbuf_append buffer (m_readq d)) d).

Definition readq_set (SS_DEBUG : bool) (buffer : option GWBUF) : Prog t unit :=
  q ← gets m_readq;
  mxb_assert SS_DEBUG (is_null q);;
  match q with
  | Some _ =>
      (* the old queue is not freed here: "currently the code just
         assigns without checking, so we do the same for now" *)
      modify (add_log
        (EvError "Read-queue set when there already is a read-queue."))
  | None => mret tt
  end;;
  modify (set_readq buffer).

(** Modelled from the spec: [DCB::close] is defined in dcb.cc;
    "close_count: number of close requests".  Only the request counter,
    which [is_closed] reads, is kept. *)
Definition close (d : t) : t :=
  mk (role d) (owner d) (m_readq d) (wrap_u32 (m_nClose d + 1)) (log d).

End DCB.

(** ** C strings and character case (the "C" locale) *)

Definition tolower (c : ascii) : ascii :=
  let n := N_of_ascii c in
  if ((65 <=? n) && (n <=? 90))%N then ascii_of_N (n + 32) else c.

Definition toupper (c : ascii) : ascii :=
  let n := N_of_ascii c in
  if ((97 <=? n) && (n <=? 122))%N then ascii_of_N (n - 32) else c.

(** [std::transform(key.begin(), key.end(), key.begin(), f)] *)
Fixpoint transform (f : ascii -> ascii) (key : string) : string :=
  match key with
  | EmptyString => EmptyString
  | String c rest => String (f c) (transform f rest)
  end.

Definition char_code (c : ascii) : Z := Z.of_N (N_of_ascii c).

(** POSIX [strncasecmp]: compare at most [n] characters, ignoring case;
    the end of a string is its terminating NUL. *)
Fixpoint strncasecmp (s1 s2 : string) (n : nat) : Z :=
  match n with
  | O => 0
  | S n' =>
      match s1, s2 with
      | EmptyString, EmptyString => 0
      | EmptyString, String c2 _ => 0 - char_code (tolower c2)
      | String c1 _, EmptyString => char_code (tolower c1)
      | String c1 r1, String c2 r2 =>
          let d := char_code (tolower c1) - char_code (tolower c2) in
          if d =? 0 then strncasecmp r1 r2 n' else d
      end
  end.

(** ** The data of a session *)

Inductive State : Type := CREATED | STARTED | STOPPING | FAILED | FREE.

Definition State_eqb (a b : State) : bool :=
  match a, b with
  | CREATED, CREATED | STARTED, STARTED | STOPPING, STOPPING
  | FAILED, FAILED | FREE, FREE => true
  | _, _ => false
  end.

Inductive session_dump_statements_t : Type :=
| SESSION_DUMP_STATEMENTS_NEVER
| SESSION_DUMP_STATEMENTS_ON_CLOSE
| SESSION_DUMP_STATEMENTS_ON_ERROR.

(** The file-local [this_unit]. *)
Record this_unit_t : Type := mk_this_unit {
  next_session_id : Z;                          (* uint64_t *)
  retain_last_statements : Z;                   (* uint32_t *)
  dump_statements : session_dump_statements_t;
  session_trace : Z                             (* uint32_t *)
}.

Definition this_unit_init : this_unit_t :=
  mk_this_unit 1 0 SESSION_DUMP_STATEMENTS_NEVER 0.

Module Upstream.
Record t : Type := mk {
  instance : option MXS_FILTER;
  session : option MXS_FILTER_SESSION;
  clientReply : option ClientReplyFn
}.
End Upstream.

Module Response.
Record t : Type := mk {
  up : Upstream.t;
  buffer : option GWBUF;
  service : option SERVICE
}.

(** [response{}] *)
Definition empty : t := mk (Upstream.mk None None None) None None.
End Response.

(** [void*] *)
Definition Context : Type := option positive.

(** [session_variable_handler_t]: called with the context, the key and
    the value slice; returns an error message or [NULL]. *)
Definition session_variable_handler_t : Type :=
  Context -> string -> string -> option string.

Record SESSION_VARIABLE : Type := mk_variable {
  handler : session_variable_handler_t;
  context : Context
}.

Module QueryInfo.

Record ServerInfo : Type := mk_info {
  pServer : option SERVER;
  processed : timespec
}.

Record t : Type := mk {
  m_sQuery : option GWBUF;
  m_received : timespec;
  m_completed : timespec;
  m_server_infos : list ServerInfo;
  m_complete : bool
}.

(** The constructor; [now] is what [clock_gettime] reports. *)
Definition make (now : timespec) (sQuery : option GWBUF) : t :=
  mk sQuery now (0, 0) [] false.

Definition reports (p : option SERVER) (info : ServerInfo) : bool :=
  bool_decide (pServer info = p).

Definition book_server_response (SS_DEBUG : bool) (now : timespec)
    (p : option SERVER) (final_response : bool) : Prog t unit :=
  c ← gets m_complete;
  mxb_assert SS_DEBUG (negb c);;
  infos ← gets m_server_infos;
  mxb_assert SS_DEBUG (negb (existsb (reports p) infos));;
  modify (fun q =>
    mk (m_sQuery q) (m_received q)
       (if final_response then now else m_completed q)
       (m_server_infos q ++ [mk_info p now])
       final_response).

Definition book_as_complete (now : timespec) : Prog t unit :=
  modify (fun q => mk (m_sQuery q) (m_received q) now (m_server_infos q) true).

Definition reset_server_bookkeeping : Prog t unit :=
  modify (fun q => mk (m_sQuery q) (m_received q) (0, 0) [] false).

End QueryInfo.

(** What the session reads from its client protocol object: the value
    the virtual [write] returns.  The write itself is an [EvWrite]. *)
Record ClientProtocol : Type := mk_protocol {
  write : option GWBUF -> Z
}.

Record Session : Type := mkSession {
  m_state : State;
  refcount : Z;                                     (* int32_t, atomic *)
  client_dcb : option DCB.t;                        (* ClientDCB* *)
  m_client_conn : option ClientProtocol;            (* mxs::ClientProtocol* *)
  m_down_open : bool;                               (* m_down->is_open() *)
  response : Response.t;
  m_dcb_set : gset positive;                        (* attached backend DCBs, by uid *)
  m_variables : gmap string SESSION_VARIABLE;
  m_retain_last_statements : Z;                     (* uint32_t *)
  m_last_queries : list QueryInfo.t;                (* std::deque, front first *)
  m_current_query : Z;                              (* int *)
  m_log : list string;                              (* std::deque, front first *)
  trace : list Event
}.

Definition set_state (v : State) (s : Session) : Session :=
  mkSession v (refcount s) (client_dcb s) (m_client_conn s) (m_down_open s)
    (response s) (m_dcb_set s) (m_variables s) (m_retain_last_statements s)
    (m_last_queries s) (m_current_query s) (m_log s) (trace s).

Definition set_refcount (v : Z) (s : Session) : Session :=
  mkSession (m_state s) v (client_dcb s) (m_client_conn s) (m_down_open s)
    (response s) (m_dcb_set s) (m_variables s) (m_retain_last_statements s)
    (m_last_queries s) (m_current_query s) (m_log s) (trace s).

Definition set_client_dcb_field (v : option DCB.t) (s : Session) : Session :=
  mkSession (m_state s) (refcount s) v (m_client_conn s) (m_down_open s)
    (response s) (m_dcb_set s) (m_variables s) (m_retain_last_statements s)
    (m_last_queries s) (m_current_query s) (m_log s) (trace s).

Definition set_client_conn_field (v : option ClientProtocol) (s : Session) : Session :=
  mkSession (m_state s) (refcount s) (client_dcb s) v (m_down_open s)
    (response s) (m_dcb_set s) (m_variables s) (m_retain_last_statements s)
    (m_last_queries s) (m_current_query s) (m_log s) (trace s).

Definition set_response (v : Response.t) (s : Session) : Session :=
  mkSession (m_state s) (refcount s) (client_dcb s) (m_client_conn s) (m_down_open s)
    v (m_dcb_set s) (m_variables s) (m_retain_last_statements s)
    (m_last_queries s) (m_current_query s) (m_log s) (trace s).

Definition set_dcb_set (v : gset positive) (s : Session) : Session :=
  mkSession (m_state s) (refcount s) (client_dcb s) (m_client_conn s) (m_down_open s)
    (response s) v (m_variables s) (m_retain_last_statements s)
    (m_last_queries s) (m_current_query s) (m_log s) (trace s).

Definition set_variables (v : gmap string SESSION_VARIABLE) (s : Session) : Session :=
  mkSession (m_state s) (refcount s) (client_dcb s) (m_client_conn s) (m_down_open s)
    (response s) (m_dcb_set s) v (m_retain_last_statements s)
    (m_last_queries s) (m_current_query s) (m_log s) (trace s).

Definition set_last_queries (v : list QueryInfo.t) (s : Session) : Session :=
  mkSession (m_state s) (refcount s) (client_dcb s) (m_client_conn s) (m_down_open s)
    (response s) (m_dcb_set s) (m_variables s) (m_retain_last_statements s)
    v (m_current_query s) (m_log s) (trace s).

Definition set_current_query (v : Z) (s : Session) : Session :=
  mkSession (m_state s) (refcount s) (client_dcb s) (m_client_conn s) (m_down_open s)
    (response s) (m_dcb_set s) (m_variables s) (m_retain_last_statements s)
    (m_last_queries s) v (m_log s) (trace s).

Definition set_log (v : list string) (s : Session) : Session :=
  mkSession (m_state s) (refcount s) (client_dcb s) (m_client_conn s) (m_down_open s)
    (response s) (m_dcb_set s) (m_variables s) (m_retain_last_statements s)
    (m_last_queries s) (m_current_query s) v (trace s).

Definition emit (e : Event) (s : Session) : Session :=
  mkSession (m_state s) (refcount s) (client_dcb s) (m_client_conn s) (m_down_open s)
    (response s) (m_dcb_set s) (m_variables s) (m_retain_last_statements s)
    (m_last_queries s) (m_current_query s) (m_log s) (trace s ++ [e]).

(** ** Helpers of the embedding *)

(** Dereferencing a pointer; a null pointer has no pointee. *)
Definition deref {St A : Type} (p : option A) : Prog St A :=
  match p with
  | Some a => mret a
  | None => undefined
  end.

(** [mxb_assert] of a condition that itself reads through pointers: the
    condition is evaluated in a debug build only. *)
Definition mxb_assert_m {St : Type} (SS_DEBUG : bool) (cond : Prog St bool) : Prog St unit :=
  if SS_DEBUG then c ← cond; mxb_assert true c else mret tt.

(** [client_connection()] followed by a member access. *)
Definition client_connection : Prog Session ClientProtocol :=
  c ← gets m_client_conn; deref c.

(** [client_connection()->dcb()]: the protocol object and the session
    refer to the one client DCB of the session. *)
Definition client_connection_dcb : Prog Session DCB.t :=
  _ ← client_connection;
  d ← gets client_dcb; deref d.

(** [DCB::close(client_dcb)] *)
Definition DCB_close_client_dcb : Prog Session unit :=
  d ← gets client_dcb;
  d ← deref d;
  modify (emit EvDcbClose);;
  modify (set_client_dcb_field (Some (DCB.close d))).

(** Modelled from the spec: [mxb::atomic::add] is defined in
    maxbase/atomic.hh; "Refcount is atomic": the sum is stored and the
    value held before is returned (the destructor asserts
    [refcount == 0] once [session_put_ref] has seen 1 returned). *)
Definition atomic_add_refcount (value : Z) : Prog Session Z :=
  old ← gets refcount;
  modify (set_refcount (wrap_int (old + value)));;
  mret old.

(** [*i] for [i = m_last_queries.begin() + index] *)
Definition deque_at (q : list QueryInfo.t) (index : Z) : Prog Session QueryInfo.t :=
  if index <? 0 then undefined else deref (q !! Z.to_nat index).

(** A [QueryInfo] method run on [info]: the object as the method left it. *)
Definition run_on (info : QueryInfo.t) (m : Prog QueryInfo.t unit) : Prog Session QueryInfo.t :=
  fun s =>
    match m info with
    | Done (_, info') => Done (info', s)
    | AssertFailed => AssertFailed
    | Undefined => Undefined
    end.

(** Run a [QueryInfo] method on the entry at [index]. *)
Definition on_query (index : Z) (m : Prog QueryInfo.t unit) : Prog Session unit :=
  q ← gets m_last_queries;
  info ← deque_at q index;
  info' ← run_on info m;
  modify (set_last_queries (<[Z.to_nat index := info']> q)).

Arguments on_query : simpl never.

(** [static_cast<int>(m_last_queries.size())] *)
Definition size_as_int (q : list QueryInfo.t) : Z :=
  wrap_int (Z.of_nat (length q)).

(** ** The session (server/core/session.cc) *)

(** [MXS_SESSION::MXS_SESSION] followed by [Session::Session].
    [service_retain] is [service->config().retain_last_statements];
    [m_current_query] starts at -1 and [m_client_conn] at null. *)
Definition Session_new (this_unit : this_unit_t) (service_retain : Z) : Session :=
  mkSession CREATED 1 None None false Response.empty ∅ ∅
    (if negb (service_retain =? -1)
     then wrap_u32 service_retain
     else retain_last_statements this_unit)
    [] (-1) [] [].

Definition set_client_dcb (SS_DEBUG : bool) (dcb : option DCB.t) : Prog Session unit :=
  d ← gets client_dcb;
  mxb_assert SS_DEBUG (is_null d);;
  modify (set_client_dcb_field dcb).

Definition set_client_connection (client_conn : option ClientProtocol) : Prog Session unit :=
  modify (set_client_conn_field client_conn).

(** [Session::start], given what [m_down->connect()] answered. *)
Definition start (connected : bool) : Prog Session bool :=
  if connected
  then modify (set_state STARTED);; mret true
  else mret false.

(** [MXS_SESSION::terminate] *)
Definition terminate (SS_DEBUG : bool) (error : option GWBUF) : Prog Session unit :=
  st ← gets m_state;
  if State_eqb st STARTED then
    mxb_assert_m SS_DEBUG (d ← client_connection_dcb; mret (negb (DCB.is_closed d)));;
    modify (set_state STOPPING);;
    match error with
    | Some _ =>
        (* Write the error to the client before closing the DCB *)
        _ ← client_connection;
        modify (emit (EvWrite error))
    | None => mret tt
    end;;
    DCB_close_client_dcb
  else mret tt.

(** [Session::clientReply] *)
Definition clientReply (buffer : option GWBUF) : Prog Session Z :=
  conn ← client_connection;
  modify (emit (EvWrite (gwbuf_clone buffer)));;
  mret (write conn (gwbuf_clone buffer)).

(** [Session::handleError]; [terminate()] is called with its default
    argument, no error buffer. *)
Definition handleError (SS_DEBUG : bool) (error : option GWBUF) : Prog Session bool :=
  clientReply error;;
  terminate SS_DEBUG None;;
  mret false.

(** [session_set_response]; the session pointer is the state at hand. *)
Definition session_set_response (SS_DEBUG : bool) (service : option SERVICE)
    (up : option Upstream.t) (buffer : option GWBUF) : Prog Session unit :=
  (* Valid arguments. *)
  mxb_assert SS_DEBUG (negb (is_null up) && negb (is_null buffer));;
  (* Valid state. Only one filter may terminate the execution and exactly once. *)
  r ← gets response;
  mxb_assert SS_DEBUG
    (is_null (Upstream.instance (Response.up r))
     && is_null (Upstream.session (Response.up r))
     && is_null (Response.buffer r));;
  u ← deref up;
  modify (set_response (Response.mk u buffer service)).

(** [Session::book_last_as_complete] *)
Definition book_last_as_complete (SS_DEBUG : bool) (now : timespec) : Prog Session unit :=
  n ← gets m_retain_last_statements;
  q ← gets m_last_queries;
  if negb (n =? 0) && negb (bool_decide (q = [])) then
    cur ← gets m_current_query;
    mxb_assert SS_DEBUG (0 <=? cur);;
    (* See comment in book_server_response(). *)
    if cur <? size_as_int q
    then on_query cur (QueryInfo.book_as_complete now)
    else mret tt
  else mret tt.

(** [Session::deliver_response] *)
Definition deliver_response (SS_DEBUG : bool) (now : timespec) : Prog Session unit :=
  r ← gets response;
  match Upstream.instance (Response.up r) with
  | Some filter_instance =>
      let filter_session := Upstream.session (Response.up r) in
      let buffer := Response.buffer r in
      mxb_assert SS_DEBUG (negb (is_null filter_session));;
      mxb_assert SS_DEBUG (negb (is_null buffer));;
      (* The reply will always be complete *)
      fn ← deref (Upstream.clientReply (Response.up r));
      modify (emit (EvClientReply fn filter_instance filter_session buffer
                      (Response.service r)));;
      modify (set_response
                (Response.mk (Upstream.mk None None None) None (Response.service r)));;
      book_last_as_complete SS_DEBUG now
  | None => mret tt
  end;;
  r ← gets response;
  mxb_assert SS_DEBUG (is_null (Upstream.instance (Response.up r)));;
  mxb_assert SS_DEBUG (is_null (Upstream.session (Response.up r)));;
  mxb_assert SS_DEBUG (is_null (Upstream.clientReply (Response.up r)));;
  mxb_assert SS_DEBUG (is_null (Response.buffer r)).

(** [Session::routeQuery]; [down] is [m_down->routeQuery], the head of
    the filter chain, which runs against the session. *)
Definition routeQuery (SS_DEBUG : bool) (now : timespec)
    (down : option GWBUF -> Prog Session Z) (buffer : option GWBUF) : Prog Session Z :=
  rv ← down buffer;
  r ← gets response;
  match Response.buffer r with
  | Some _ =>
      (* Something interrupted the routing and queued a response *)
      deliver_response SS_DEBUG now
  | None => mret tt
  end;;
  mret rv.

(** [static const char PREFIX[] = "@MAXSCALE."], [sizeof(PREFIX) - 1] *)
Definition PREFIX : string := "@MAXSCALE.".
Definition PREFIX_LEN : nat := 10.

(** [Session::add_variable] *)
Definition add_variable (name : string) (h : session_variable_handler_t)
    (ctx : Context) : Prog Session bool :=
  if strncasecmp name PREFIX PREFIX_LEN =? 0 then
    let key := transform tolower name in
    vars ← gets m_variables;
    match vars !! key with
    | None =>
        modify (set_variables (<[key := mk_variable h ctx]> vars));;
        mret true
    | Some _ =>
        modify (emit (EvError
          ("Session variable '" +:+ name +:+ "' has been added already.")));;
        mret false
    end
  else
    modify (emit (EvError
      ("Session variable '" +:+ name +:+ "' is not of the correct format.")));;
    mret false.

(** [Session::set_variable_value]; [name] is the slice
    [name_begin, name_end), [value] the slice [value_begin, value_end),
    and [malloc_ok] tells whether [MXS_MALLOC] can serve the message. *)
Definition set_variable_value (malloc_ok : bool) (name value : string)
    : Prog Session (option string) :=
  let key := transform tolower name in
  vars ← gets m_variables;
  match vars !! key with
  | Some v => mret (handler v (context v) key value)
  | None =>
      let msg := "Attempt to set unknown MaxScale user variable " +:+ name in
      modify (emit (EvWarning msg));;
      mret (if malloc_ok then Some msg else None)
  end.

(** [Session::remove_variable]; the result pairs [removed] with what
    has been stored through [context], when that pointer is not null
    and a variable was found. *)
Definition remove_variable (name : string) (want_context : bool)
    : Prog Session (bool * option Context) :=
  let key := transform toupper name in
  vars ← gets m_variables;
  match vars !! key with
  | Some v =>
      modify (set_variables (delete key vars));;
      mret (true, if want_context then Some (context v) else None)
  | None => mret (false, None)
  end.

(** [m_last_queries.pop_back()] *)
Definition pop_back {A : Type} (q : list A) : list A := removelast q.

Arguments pop_back : simpl never.

(** [Session::retain_statement]; [now] is the time the new [QueryInfo]
    reads from the clock. *)
Definition retain_statement (SS_DEBUG : bool) (now : timespec)
    (pBuffer : option GWBUF) : Prog Session unit :=
  n ← gets m_retain_last_statements;
  if negb (n =? 0) then
    q ← gets m_last_queries;
    mxb_assert SS_DEBUG (Z.of_nat (length q) <=? n);;
    let sBuffer := gwbuf_clone pBuffer in
    modify (set_last_queries (QueryInfo.make now sBuffer :: q));;
    q ← gets m_last_queries;
    when (n <? Z.of_nat (length q)) (modify (set_last_queries (pop_back q)));;
    q ← gets m_last_queries;
    cur ← gets m_current_query;
    if Z.of_nat (length q) =? 1 then
      mxb_assert SS_DEBUG (cur =? -1);;
      modify (set_current_query 0)
    else
      (* If requests are streamed, without the response being waited for,
         then this may cause the index to grow past the length of the array. *)
      modify (set_current_query (wrap_int (cur + 1)));;
      mxb_assert SS_DEBUG (0 <=? wrap_int (cur + 1))
  else mret tt.

(** [Session::book_server_response] *)
Definition book_server_response (SS_DEBUG : bool) (now : timespec)
    (pServer : option SERVER) (final_response : bool) : Prog Session unit :=
  n ← gets m_retain_last_statements;
  q ← gets m_last_queries;
  if negb (n =? 0) && negb (bool_decide (q = [])) then
    cur ← gets m_current_query;
    mxb_assert SS_DEBUG (0 <=? cur);;
    (* If the index points past the end of the queue the query object
       has been popped already: the result is ignored. *)
    (if cur <? size_as_int q
     then on_query cur
            (c ← gets QueryInfo.m_complete;
             mxb_assert SS_DEBUG (negb c);;
             QueryInfo.book_server_response SS_DEBUG now pServer final_response)
     else mret tt);;
    if final_response then
      (* This will eventually take the index back into the queue. *)
      modify (set_current_query (wrap_int (cur - 1)));;
      mxb_assert SS_DEBUG (-1 <=? wrap_int (cur - 1))
    else mret tt
  else mret tt.

(** [Session::reset_server_bookkeeping] *)
Definition reset_server_bookkeeping (SS_DEBUG : bool) : Prog Session unit :=
  n ← gets m_retain_last_statements;
  q ← gets m_last_queries;
  if negb (n =? 0) && negb (bool_decide (q = [])) then
    cur ← gets m_current_query;
    mxb_assert SS_DEBUG (0 <=? cur);;
    if cur <? size_as_int q
    then on_query cur QueryInfo.reset_server_bookkeeping
    else mret tt
  else mret tt.

(** [Session::append_session_log] *)
Definition append_session_log (this_unit : this_unit_t) (line : string) : Prog Session unit :=
  l ← gets m_log;
  modify (set_log (line :: l));;
  l ← gets m_log;
  when (session_trace this_unit <=? Z.of_nat (length l)) (modify (set_log (pop_back l))).

(** ** Reference counting *)

(** A backend DCB as [session_link_backend_dcb] sees it. *)
Record BackendDCB : Type := mk_backend {
  uid : positive;
  dcb : DCB.t
}.

(** Modelled from the spec: [Session::link_backend_dcb] and
    [Session::unlink_backend_dcb] are defined in internal/session.hh;
    the session keeps the "set of backend DCBs", attached and detached
    during its lifetime. *)
Definition link_backend_dcb (d : positive) : Prog Session unit :=
  modify (fun s => set_dcb_set ({[ d ]} ∪ m_dcb_set s) s).

Definition unlink_backend_dcb (d : positive) : Prog Session unit :=
  modify (fun s => set_dcb_set (m_dcb_set s ∖ {[ d ]}) s).

(** [Session::~Session], run by [session_free]'s [delete]; the dump of
    the retained statements to the log is left out. *)
Definition Session_destroy (SS_DEBUG : bool) : Prog Session unit :=
  rc ← gets refcount;
  mxb_assert SS_DEBUG (rc =? 0);;
  open ← gets m_down_open;
  mxb_assert SS_DEBUG (negb open);;
  modify (set_client_dcb_field None);;
  modify (set_state FREE).

(** [session_free], its log line apart. *)
Definition session_free (SS_DEBUG : bool) : Prog Session unit :=
  modify (emit EvSessionFree);;
  Session_destroy SS_DEBUG.

(** [session_get_ref] *)
Definition session_get_ref : Prog Session unit :=
  _ ← atomic_add_refcount 1; mret tt.

(** [session_put_ref] on a session that is not null. *)
Definition session_put_ref_nonnull (SS_DEBUG : bool) : Prog Session unit :=
  (* Remove one reference. If there are no references left, free session *)
  old ← atomic_add_refcount (-1);
  when (old =? 1) (session_free SS_DEBUG).

(** [session_put_ref]: the state is the pointer argument and what it
    points to. *)
Definition session_put_ref (SS_DEBUG : bool) : Prog (option Session) unit :=
  fun p =>
    match p with
    | None => Done (tt, None)
    | Some s =>
        match session_put_ref_nonnull SS_DEBUG s with
        | Done (_, s') => Done (tt, Some s')
        | AssertFailed => AssertFailed
        | Undefined => Undefined
        end
    end.

(** [session_link_backend_dcb]; [dcb->reset(session)] changes the
    backend DCB only. *)
Definition session_link_backend_dcb (SS_DEBUG : bool) (b : BackendDCB) : Prog Session unit :=
  mxb_assert_m SS_DEBUG
    (c ← client_connection_dcb;
     mret (bool_decide (DCB.owner (dcb b) = DCB.owner c)));;
  mxb_assert SS_DEBUG (DCB.role_eqb (DCB.role (dcb b)) DCB.BACKEND);;
  _ ← atomic_add_refcount 1;
  link_backend_dcb (uid b).

(** [session_unlink_backend_dcb]; the session was just dereferenced, so
    [session_put_ref] takes its non-null branch. *)
Definition session_unlink_backend_dcb (SS_DEBUG : bool) (d : positive) : Prog Session unit :=
  unlink_backend_dcb d;;
  session_put_ref_nonnull SS_DEBUG.

(** Running one call after the other over a list of arguments. *)
Fixpoint for_each {St A : Type} (f : A -> Prog St unit) (args : list A) : Prog St unit :=
  match args with
  | [] => mret tt
  | a :: rest => f a;; for_each f rest
  end.

(** * Further functions of session.cc *)

(** ** Session ids *)

Definition wrap_u64 (z : Z) : Z := z mod 2 ^ 64.

(** [session_get_next_id]: [mxb::atomic::add] on the counter of
    [this_unit], which hands back the value held before. *)
Definition session_get_next_id : Prog this_unit_t Z :=
  old ← gets next_session_id;
  modify (fun u => mk_this_unit (wrap_u64 (old + 1)) (retain_last_statements u)
                     (dump_statements u) (session_trace u));;
  mret old.

(** The ids of [n] sessions created one after the other. *)
Fixpoint session_ids (n : nat) : Prog this_unit_t (list Z) :=
  match n with
  | O => mret []
  | S n' => id ← session_get_next_id; ids ← session_ids n'; mret (id :: ids)
  end.

(** ** Delayed routing *)

(** What delayed routing does outside the session. *)
Inductive RoutingCall : Type :=
| CallDelayed (delay : Z)
    (* worker->delayed_call(delay, delayed_routing_cb, task) *)
| CallRoute (buffer : option GWBUF)
    (* m_down.routeQuery(m_down.instance, m_down.session, buffer) *)
| CallHangup
    (* m_session->client_connection()->dcb()->trigger_hangup_event() *)
| CallFree (buffer : option GWBUF)
    (* gwbuf_free(m_buffer) *)
| CallOOM.
    (* MXS_OOM() *)

(** The session together with the calls made around it. *)
Record Routing : Type := mk_routing {
  r_session : Session;
  r_calls : list RoutingCall
}.

(** A session function run on the session of a [Routing]. *)
Definition on_session {A : Type} (m : Prog Session A) : Prog Routing A :=
  fun w =>
    match m (r_session w) with
    | Done (a, s') => Done (a, mk_routing s' (r_calls w))
    | AssertFailed => AssertFailed
    | Undefined => Undefined
    end.

Definition call (c : RoutingCall) : Prog Routing unit :=
  modify (fun w => mk_routing (r_session w) (r_calls w ++ [c])).

(** [Worker::Call::action_t]: [EXECUTE], or anything else. *)
Inductive action_t : Type := EXECUTE | CANCEL.

(** A [DelayedRoutingTask]: [m_session] is the session at hand and
    [m_down] the downstream passed along with the task. *)
Record DelayedRoutingTask : Type := mk_task {
  m_buffer : option GWBUF
}.


(** The destructor; [m_session] is not null. *)
Definition DelayedRoutingTask_delete (SS_DEBUG : bool) (task : DelayedRoutingTask)
    : Prog Routing unit :=
  on_session (session_put_ref_nonnull SS_DEBUG);;
  call (CallFree (m_buffer task)).

(** [DelayedRoutingTask::execute]; the task as the call leaves it. *)
Definition DelayedRoutingTask_execute (down : option GWBUF -> Prog Session Z)
    (task : DelayedRoutingTask) : Prog Routing DelayedRoutingTask :=
  st ← on_session (gets m_state);
  if State_eqb st STARTED then
    let buffer := m_buffer task in
    call (CallRoute buffer);;
    rv ← on_session (down buffer);
    (if rv =? 0
     then
       (* Routing failed, send a hangup to the client. *)
       _ ← on_session client_connection_dcb;
       call CallHangup
     else mret tt);;
    mret (mk_task None)
  else mret task.

(** [delayed_routing_cb] *)
Definition delayed_routing_cb (SS_DEBUG : bool) (down : option GWBUF -> Prog Session Z)
    (action : action_t) (task : DelayedRoutingTask) : Prog Routing bool :=
  task ← match action with
         | EXECUTE => DelayedRoutingTask_execute down task
         | CANCEL => mret task
         end;
  DelayedRoutingTask_delete SS_DEBUG task;;
  mret false.


(** * The smart router session (modules/routing/smartrouter/smartsession.cc) *)

Module Smart.

Definition Target : Type := positive.

(** An endpoint as the router session meets it: what its [target()],
    [connect()] and [routeQuery(buf)] answer. *)
Record Endpoint : Type := mk_endpoint {
  ep_id : positive;
  ep_target : option Target;
  ep_connects : bool;
  ep_routes : option GWBUF -> Z
}.

(** [SmartRouterSession::Mode] *)
Inductive Mode : Type := Idle | Query | MeasureQuery | CollectResults.

Definition Mode_eqb (a b : Mode) : bool :=
  match a, b with
  | Idle, Idle | Query, Query | MeasureQuery, MeasureQuery
  | CollectResults, CollectResults => true
  | _, _ => false
  end.

(** The states of [maxsql::PacketTracker] the session tells apart. *)
Inductive TrackerState : Type := ErrorPacket | Error | OtherState.

(** [maxsql::PacketTracker], a class of the MariaDB protocol library that
    the session only uses. *)
Class PacketTracker (T : Type) : Type := {
  tracker_default : T;                         (* PacketTracker() *)
  tracker_of_request : option GWBUF -> T;      (* PacketTracker(pBuf) *)
  update_request : T -> option GWBUF -> T;
  update_response : T -> option GWBUF -> T;
  expecting_request_packets : T -> bool;
  expecting_response_packets : T -> bool;
  expecting_more_packets : T -> bool;
  state : T -> TrackerState
}.

(** What the MariaDB protocol tells about an error packet. *)
Record MySQL : Type := mk_mysql {
  mxs_mysql_get_mysql_errno : option GWBUF -> Z;
  ER_CONNECTION_KILLED : Z
}.

(** What the session does outside itself and the client session. *)
Inductive Call : Type :=
| Connect (ep : positive)
    (* e->connect() *)
| Route (ep : positive) (buf : option GWBUF)
    (* pBackend->routeQuery(buf) *)
| Free (buf : option GWBUF)
    (* gwbuf_free(buf) *)
| Reply (buf : option GWBUF)
    (* RouterSession::clientReply(pPacket, down, reply) *)
| PerfUpdate (canonical : string) (target : option Target) (duration : Z)
    (* m_router.perf_update(canonical, {target, duration}) *)
| KillAllOthers
    (* kill_all_others(cluster) *)
| LogError
    (* MXS_SERROR, MXS_ERROR *)
| LogWarning.
    (* MXS_SWARNING *)

Section WithTracker.

Context {T : Type} {PT : PacketTracker T}.

(** [SmartRouterSession::Cluster] *)
Record Cluster : Type := mk_cluster {
  pBackend : Endpoint;
  is_master : bool;
  is_replying_to_client : bool;
  tracker : T
}.

(** [m_measurement] *)
Record Measurement : Type := mk_measurement {
  start : Z;
  canonical : string
}.

Record t : Type := mk {
  m_mode : Mode;
  m_clusters : list Cluster;
  m_pDelayed_packet : option GWBUF;
  m_measurement : Measurement;
  client_session : Session;          (* m_pClient_dcb->session() *)
  calls : list Call
}.

Definition set_mode (v : Mode) (s : t) : t :=
  mk v (m_clusters s) (m_pDelayed_packet s) (m_measurement s) (client_session s) (calls s).

Definition set_clusters (v : list Cluster) (s : t) : t :=
  mk (m_mode s) v (m_pDelayed_packet s) (m_measurement s) (client_session s) (calls s).

Definition set_delayed (v : option GWBUF) (s : t) : t :=
  mk (m_mode s) (m_clusters s) v (m_measurement s) (client_session s) (calls s).

Definition set_measurement (v : Measurement) (s : t) : t :=
  mk (m_mode s) (m_clusters s) (m_pDelayed_packet s) v (client_session s) (calls s).

Definition set_client_session (v : Session) (s : t) : t :=
  mk (m_mode s) (m_clusters s) (m_pDelayed_packet s) (m_measurement s) v (calls s).

Definition do_call (c : Call) (s : t) : t :=
  mk (m_mode s) (m_clusters s) (m_pDelayed_packet s) (m_measurement s)
    (client_session s) (calls s ++ [c]).

(** A function of the client session, run from the router session. *)
Definition on_client {A : Type} (m : Prog Session A) : Prog t A :=
  fun s =>
    match m (client_session s) with
    | Done (a, c') => Done (a, set_client_session c' s)
    | AssertFailed => AssertFailed
    | Undefined => Undefined
    end.

(** The loop of [SmartRouterSession::create]: the clusters collected so
    far, the position of the master and the count [i]. *)
Fixpoint create_loop (pMaster : option Target) (pEndpoints : list Endpoint)
    (clusters : list Cluster) (master_pos i : Z) : list Cluster * Z :=
  match pEndpoints with
  | [] => (clusters, master_pos)
  | e :: rest =>
      if ep_connects e then
        let is_master := bool_decide (ep_target e = pMaster) in
        create_loop pMaster rest
          (clusters ++ [mk_cluster e is_master false tracker_default])
          (if is_master then i else master_pos)
          (wrap_int (i + 1))
      else create_loop pMaster rest clusters master_pos i
  end.

(** [std::swap(clusters[0], clusters[k])] *)
Definition swap_with_first (clusters : list Cluster) (k : Z) : Outcome (list Cluster) :=
  if k <? 0 then Undefined
  else
    match clusters !! 0%nat, clusters !! Z.to_nat k with
    | Some a, Some b => Done (<[Z.to_nat k := a]> (<[0%nat := b]> clusters))
    | _, _ => Undefined
    end.

(** [SmartRouterSession::create]: the calls made and the clusters of
    the new session, if one is created. *)
Definition create (pMaster : option Target) (pEndpoints : list Endpoint)
    : Outcome (list Call * option (list Cluster)) :=
  let connects := map (fun e => Connect (ep_id e)) pEndpoints in
  let (clusters, master_pos) := create_loop pMaster pEndpoints [] (-1) 0 in
  if negb (master_pos =? -1) then
    if 0 <? master_pos then
      (* put the master first. There must be exactly one master cluster. *)
      match swap_with_first clusters master_pos with
      | Done swapped => Done (connects, Some swapped)
      | AssertFailed => AssertFailed
      | Undefined => Undefined
      end
    else Done (connects, Some clusters)
  else Done (connects ++ [LogError], None).

(** The session [create] builds from its clusters. *)
Definition new_session (clusters : list Cluster) (client : Session) : t :=
  mk Idle clusters None (mk_measurement 0 "") client [].

Definition session_expecting_request_packets (s : t) : bool :=
  existsb (fun c => expecting_request_packets (tracker c)) (m_clusters s).

Definition session_expecting_response_packets (s : t) : bool :=
  existsb (fun c => expecting_response_packets (tracker c)) (m_clusters s).

Definition all_clusters_are_idle (s : t) : bool :=
  forallb (fun c => negb (expecting_more_packets (tracker c))) (m_clusters s).

(** [cluster.pBackend->routeQuery(buf)] *)
Definition backend_routeQuery (c : Cluster) (buf : option GWBUF) : Prog t bool :=
  modify (do_call (Route (ep_id (pBackend c)) buf));;
  mret (negb (ep_routes (pBackend c) buf =? 0)).

(** [write_to_master] *)
Definition write_to_master (SS_DEBUG : bool) (pBuf : option GWBUF) : Prog t bool :=
  cs ← gets m_clusters;
  mxb_assert SS_DEBUG (negb (bool_decide (cs = [])));;
  cluster ← deref (cs !! 0%nat);
  mxb_assert SS_DEBUG (is_master cluster);;
  let cluster := mk_cluster (pBackend cluster) (is_master cluster) false
                   (tracker_of_request pBuf) in
  modify (set_clusters (<[0%nat := cluster]> cs));;
  when (expecting_response_packets (tracker cluster)) (modify (set_mode Query));;
  backend_routeQuery cluster pBuf.

(** [std::find_if] over the clusters, by target. *)
Fixpoint find_target (target : option Target) (cs : list Cluster) (i : nat) : option nat :=
  match cs with
  | [] => None
  | c :: rest =>
      if bool_decide (ep_target (pBackend c) = target) then Some i
      else find_target target rest (S i)
  end.

(** [write_to_target] *)
Definition write_to_target (SS_DEBUG : bool) (target : option Target)
    (pBuf : option GWBUF) : Prog t bool :=
  cs ← gets m_clusters;
  let it := find_target target cs 0 in
  mxb_assert SS_DEBUG (negb (is_null it));;
  i ← deref it;
  cluster ← deref (cs !! i);
  let cluster := mk_cluster (pBackend cluster) (is_master cluster) false
                   (tracker_of_request pBuf) in
  modify (set_clusters (<[i := cluster]> cs));;
  when (expecting_response_packets (tracker cluster)) (modify (set_mode Query));;
  backend_routeQuery cluster pBuf.

(** The loop of [write_to_all] from cluster [i] on. *)
Fixpoint write_to_all_loop (pBuf : option GWBUF) (todo : list Cluster) (i : nat)
    (success : bool) : Prog t bool :=
  match todo with
  | [] => mret success
  | a :: rest =>
      let a := mk_cluster (pBackend a) (is_master a) false (tracker_of_request pBuf) in
      modify (fun s => set_clusters (<[i := a]> (m_clusters s)) s);;
      ok ← backend_routeQuery a (gwbuf_clone pBuf);
      write_to_all_loop pBuf rest (S i) (if ok : bool then success else false)
  end.

(** [write_to_all] *)
Definition write_to_all (pBuf : option GWBUF) (mode : Mode) : Prog t bool :=
  cs ← gets m_clusters;
  success ← write_to_all_loop pBuf cs 0 true;
  modify (do_call (Free pBuf));;
  s ← gets (fun s => s);
  when (session_expecting_response_packets s) (modify (set_mode mode));;
  mret success.

(** The loop of [write_split_packets] from cluster [i] on; it is left
    at the first backend that does not take the packet. *)
Fixpoint write_split_loop (pBuf : option GWBUF) (todo : list Cluster) (i : nat)
    : Prog t bool :=
  match todo with
  | [] => mret true
  | a :: rest =>
      if expecting_request_packets (tracker a) then
        let a := mk_cluster (pBackend a) (is_master a) (is_replying_to_client a)
                   (update_request (tracker a) pBuf) in
        modify (fun s => set_clusters (<[i := a]> (m_clusters s)) s);;
        ok ← backend_routeQuery a (gwbuf_clone pBuf);
        if ok : bool then write_split_loop pBuf rest (S i) else mret false
      else write_split_loop pBuf rest (S i)
  end.

(** [write_split_packets] *)
Definition write_split_packets (pBuf : option GWBUF) : Prog t bool :=
  cs ← gets m_clusters;
  success ← write_split_loop pBuf cs 0;
  modify (do_call (Free pBuf));;
  mret success.

(** What the query classifier, the canonical form and the performance
    table of the router tell about a query. *)
Record Classified : Type := mk_classified {
  c_canonical : string;        (* maxscale::get_canonical(pBuf) *)
  c_target_is_all : bool;      (* m_qc.target_is_all(route_info.target()) *)
  c_target_is_master : bool;   (* m_qc.target_is_master(route_info.target()) *)
  c_trx_is_active : bool;      (* session_trx_is_active(session) *)
  c_perf : option (option Target);   (* m_router.perf_find(canonical), if valid *)
  c_is_SQL : bool              (* modutil_is_SQL(pBuf) *)
}.

(** [SmartRouterSession::routeQuery]; [now] is [Clock::now()]. *)
Definition routeQuery (SS_DEBUG : bool) (now : Z) (q : Classified)
    (pBuf : option GWBUF) : Prog t bool :=
  s ← gets (fun s => s);
  if session_expecting_request_packets s then
    ret ← write_split_packets pBuf;
    s ← gets (fun s => s);
    when (all_clusters_are_idle s) (modify (set_mode Idle));;
    mret ret
  else if negb (Mode_eqb (m_mode s) Idle) then
    modify (do_call LogError);;
    mxb_assert SS_DEBUG false;;
    mret false
  else
    modify (set_measurement (mk_measurement now (c_canonical q)));;
    if c_target_is_all q then write_to_all pBuf Query
    else if c_target_is_master q || c_trx_is_active q then write_to_master SS_DEBUG pBuf
    else
      match c_perf q with
      | Some target => write_to_target SS_DEBUG target pBuf
      | None =>
          if c_is_SQL q then write_to_all pBuf MeasureQuery
          else modify (do_call LogWarning);; write_to_master SS_DEBUG pBuf
      end.

(** [SmartRouterSession::clientReply] once the tracker is known not to
    be in an error state: [cluster] is the cluster the packet came
    from, at position [k], and the three flags are those of the
    function.  [will_reply] and [pPacket] are threaded as in the source. *)
Definition clientReply_forward (SS_DEBUG : bool) (now : Z) (k : nat) (cluster : Cluster)
    (first_response_packet last_packet_for_this_cluster very_last_response_packet : bool)
    (pPacket : option GWBUF) : Prog t unit :=
  mode ← gets m_mode;
  measurement ← gets m_measurement;
  cluster ←
    (if first_response_packet then
       let cluster := mk_cluster (pBackend cluster) (is_master cluster) true
                        (tracker cluster) in
       modify (fun s => set_clusters (<[k := cluster]> (m_clusters s)) s);;
       when (Mode_eqb mode MeasureQuery)
         (modify (do_call (PerfUpdate (canonical measurement)
                             (ep_target (pBackend cluster))
                             (now - start measurement)));;
          (* If the query is still going on, an error packet is received,
             else the whole query might play out (and be discarded). *)
          modify (do_call KillAllOthers));;
       modify (set_mode CollectResults);;
       mret cluster
     else mret cluster);
  let will_reply := first_response_packet in
  delayed ← gets m_pDelayed_packet;
  reply ←
    (if very_last_response_packet then
       modify (set_mode Idle);;
       mxb_assert SS_DEBUG (is_replying_to_client cluster || negb (is_null delayed));;
       match delayed with
       | Some _ =>
           modify (do_call (Free pPacket));;
           modify (set_delayed None);;
           mret (true, delayed)
       | None => mret (true, pPacket)
       end
     else if is_replying_to_client cluster then
       if last_packet_for_this_cluster then
         (* Delay sending the last packet until all clusters have responded. *)
         mxb_assert SS_DEBUG (is_null delayed);;
         modify (set_delayed pPacket);;
         mret (false, pPacket)
       else mret (true, pPacket)
     else
       modify (do_call (Free pPacket));;
       mret (will_reply, pPacket));
  when reply.1 (modify (do_call (Reply reply.2))).

(** [SmartRouterSession::clientReply]; [k] is the cluster that
    [down.back()->get_userdata()] points to and [now] is [Clock::now()]. *)
Definition clientReply (SS_DEBUG : bool) (my : MySQL) (now : Z) (k : nat)
    (pPacket : option GWBUF) : Prog t unit :=
  (* mxb_assert(GWBUF_IS_CONTIGUOUS(pPacket)): a buffer of the model is
     one block, so the assertion only reads through the pointer. *)
  when SS_DEBUG (_ ← deref pPacket; mret tt);;
  cs ← gets m_clusters;
  cluster ← deref (cs !! k);
  let cluster := mk_cluster (pBackend cluster) (is_master cluster)
                   (is_replying_to_client cluster)
                   (update_response (tracker cluster) pPacket) in
  modify (set_clusters (<[k := cluster]> cs));;
  s ← gets (fun s => s);
  (* these flags can all be true at the same time *)
  let first_response_packet :=
    Mode_eqb (m_mode s) Query || Mode_eqb (m_mode s) MeasureQuery in
  let last_packet_for_this_cluster :=
    negb (expecting_response_packets (tracker cluster)) in
  let very_last_response_packet := negb (session_expecting_response_packets s) in
  let forward :=
    clientReply_forward SS_DEBUG now k cluster first_response_packet
      last_packet_for_this_cluster very_last_response_packet pPacket in
  let lost := modify (do_call LogError);; on_client (terminate SS_DEBUG None) in
  match state (tracker cluster) with
  | ErrorPacket =>
      if mxs_mysql_get_mysql_errno my pPacket =? ER_CONNECTION_KILLED my
      then lost
      else forward
  | Error => lost
  | OtherState => forward
  end.

(** [SmartRouterSession::handleError] *)
Definition handleError (SS_DEBUG : bool) (pPacket : option GWBUF) : Prog t bool :=
  modify (do_call LogError);;
  on_client (terminate SS_DEBUG (gwbuf_clone pPacket));;
  mret false.

End WithTracker.

Arguments Cluster T : clear implicits.
Arguments t T : clear implicits.

End Smart.

(** * The Avro client session (modules/routing/avrorouter/avro_client.cc) *)

Module Avro.

(** ** Strings of C and of the standard library *)

(** The newline character. *)
Definition nl : string := String "010"%char EmptyString.

(** [s.find_first_of(c)]; [std::string::npos] is [None]. *)
Fixpoint find_first_of (s : string) (c : ascii) : option nat :=
  match s with
  | EmptyString => None
  | String a rest =>
      if Ascii.eqb a c then Some 0%nat
      else option_map S (find_first_of rest c)
  end.

(** [s.find_last_of(c)] *)
Fixpoint find_last_of (s : string) (c : ascii) : option nat :=
  match s with
  | EmptyString => None
  | String a rest =>
      match find_last_of rest c with
      | Some i => Some (S i)
      | None => if Ascii.eqb a c then Some 0%nat else None
      end
  end.

(** The first [n] characters of [s], all of [s] when it is shorter. *)
Fixpoint string_take (n : nat) (s : string) : string :=
  match n, s with
  | S n, String a rest => String a (string_take n rest)
  | _, _ => EmptyString
  end.

(** [s] without its first [n] characters. *)
Fixpoint string_drop (n : nat) (s : string) : string :=
  match n, s with
  | S n, String _ rest => string_drop n rest
  | _, _ => s
  end.

(** [s.substr(pos, n)], and [s.substr(pos)] when [n] is [None]; it
    throws [std::out_of_range], here [None], when [pos > s.size()]. *)
Definition substr (s : string) (pos : nat) (n : option nat) : option string :=
  if (String.length s <? pos)%nat then None
  else
    Some (match n with
          | Some n => string_take n (string_drop pos s)
          | None => string_drop pos s
          end).

(** [strstr(haystack, needle)]: where the needle first occurs. *)
Fixpoint strstr (haystack needle : string) : option nat :=
  if String.prefix needle haystack then Some 0%nat
  else
    match haystack with
    | EmptyString => None
    | String _ rest => option_map S (strstr rest needle)
    end.

(** The C string that starts a block of bytes closed by a null byte:
    the bytes before the first null byte. *)
Fixpoint c_str (data : list Byte.byte) : string :=
  match data with
  | [] => EmptyString
  | b :: rest =>
      if Byte.eqb b Byte.x00 then EmptyString
      else String (ascii_of_byte b) (c_str rest)
  end.

(** [isdigit(c)] *)
Definition isdigit (c : ascii) : bool :=
  (48 <=? Z.of_N (N_of_ascii c)) && (Z.of_N (N_of_ascii c) <=? 57).

Definition LONG_MAX : Z := 2 ^ 63 - 1.

(** The digits that [strtol(ptr, &end, 10)] reads from a digit on: the
    number read so far and the characters from [end] on. *)
Fixpoint strtol_digits (acc : Z) (s : string) : Z * string :=
  match s with
  | String c rest =>
      if isdigit c then strtol_digits (acc * 10 + (Z.of_N (N_of_ascii c) - 48)) rest
      else (acc, s)
  | EmptyString => (acc, s)
  end.

(** [strtol(ptr, &end, 10)] with [*ptr] a digit: the number, which is
    [LONG_MAX] when it does not fit a long, and [end]. *)
Definition strtol (s : string) : Z * string :=
  let (n, rest) := strtol_digits 0 s in (Z.min n LONG_MAX, rest).

(** ** The file and the GTID of a request *)

(** [get_avrofile_and_gtid]; [ltrim] is [mxb::ltrim] of maxbase.  The
    pair is [None] if a [substr] throws. *)
Definition get_avrofile_and_gtid (ltrim : string -> string) (file : string)
    : option (string * string) :=
  let file := ltrim file in
  let pos := find_first_of file " " in
  match
    match pos with
    | Some pos =>
        (* Client requests a specific GTID *)
        filename ← substr file 0 (Some pos);
        gtid ← substr file (pos + 1) None;
        Some (filename, gtid)
    | None => Some (file, EmptyString)
    end
  with
  | None => None
  | Some (filename, gtid) =>
      let first_dot := find_first_of filename "." in
      let last_dot := find_last_of filename "." in
      let filename :=
        if negb (String.eqb file EmptyString) then
          if negb (is_null first_dot) && negb (is_null last_dot)
             && negb (bool_decide (first_dot = last_dot))
          then (* Exact file version specified e.g. test.t1.000002 *)
            filename +:+ ".avro"
          else (* No version specified, send first file *)
            filename +:+ ".000001.avro"
        else filename in
      Some (filename, gtid)
  end.

(** [gtid_pos_t], a type of avrorouter.hh, by the three assignments
    that [extract_gtid_request] makes to it; each takes the [long] that
    [strtol] returned. *)
Class GtidPos (G : Type) : Type := {
  set_domain : Z -> G -> G;         (* gtid->domain = ... *)
  set_server_id : Z -> G -> G;      (* gtid->server_id = ... *)
  set_seq : Z -> G -> G             (* gtid->seq = ... *)
}.

(** What the session does outside itself. *)
Inductive Call : Type :=
| Printf (text : string)
    (* dcb_printf(dcb, ...), with the text printed *)
| ProtocolWrite (reply : option GWBUF)
    (* dcb->protocol_write(reply) *)
| Free (queue : option GWBUF)
    (* gwbuf_free(queue) *)
| QueueClientCallback.
    (* queue_client_callback() *)

(** The states of the client. *)
Definition AVRO_CLIENT_UNREGISTERED : Z := 0.
Definition AVRO_CLIENT_REGISTERED : Z := 1.
Definition AVRO_CLIENT_REQUEST_DATA : Z := 2.
Definition AVRO_CLIENT_ERRORED : Z := 3.

Section WithGtid.

Context {G : Type} {GP : GtidPos G}.

(** The loop of [extract_gtid_request] over the characters from [ptr]
    up to [start + len]; [start] is the [c_str()] of a string of [len]
    characters, as [process_command] passes it, so that [strtol] stops
    at [start + len] at the latest.  Every round moves [ptr] forward;
    [fuel] bounds the rounds. *)
Fixpoint extract_loop (fuel : nat) (ptr : string) (read : Z) (gtid : G)
    : option (Outcome G) :=
  match fuel with
  | O => None
  | S fuel =>
      match ptr with
      | EmptyString => Some (Done gtid)
      | String c rest =>
          if negb (isdigit c) then extract_loop fuel rest read gtid
          else
            let (n, end_) := strtol ptr in
            if read =? 0 then
              extract_loop fuel end_ (wrap_int (read + 1)) (set_domain n gtid)
            else if read =? 1 then
              extract_loop fuel end_ (wrap_int (read + 1)) (set_server_id n gtid)
            else if read =? 2 then
              extract_loop fuel end_ (wrap_int (read + 1)) (set_seq n gtid)
            else
              (* no case of the switch sets [end]: [ptr = end] reads it
                 uninitialised *)
              Some Undefined
      end
  end.

(** [extract_gtid_request(gtid, start, len)]: one round for each
    character is enough, so the fuel never runs out. *)
Definition extract_gtid_request (gtid : G) (start : string) : Outcome G :=
  match extract_loop (S (String.length start)) start 0 gtid with
  | Some r => r
  | None => Undefined
  end.

(** The members of [AvroSession] that the functions below use. *)
Record t : Type := mk {
  state : Z;
  dcb : DCB.t;
  requested_gtid : bool;
  gtid : G;
  gtid_start : G;
  avro_binfile : string;
  calls : list Call
}.

Definition set_state (v : Z) (s : t) : t :=
  mk v (dcb s) (requested_gtid s) (gtid s) (gtid_start s) (avro_binfile s) (calls s).

Definition set_dcb (v : DCB.t) (s : t) : t :=
  mk (state s) v (requested_gtid s) (gtid s) (gtid_start s) (avro_binfile s) (calls s).

Definition set_requested_gtid (v : bool) (s : t) : t :=
  mk (state s) (dcb s) v (gtid s) (gtid_start s) (avro_binfile s) (calls s).

Definition set_gtid (v : G) (s : t) : t :=
  mk (state s) (dcb s) (requested_gtid s) v (gtid_start s) (avro_binfile s) (calls s).

Definition set_gtid_start (v : G) (s : t) : t :=
  mk (state s) (dcb s) (requested_gtid s) (gtid s) v (avro_binfile s) (calls s).

Definition set_avro_binfile (v : string) (s : t) : t :=
  mk (state s) (dcb s) (requested_gtid s) (gtid s) (gtid_start s) v (calls s).

Definition do_call (c : Call) (s : t) : t :=
  mk (state s) (dcb s) (requested_gtid s) (gtid s) (gtid_start s) (avro_binfile s)
    (calls s ++ [c]).

(** A value computed outside the session, or the abort it ended in. *)
Definition lift {A : Type} (r : Outcome A) : Prog t A :=
  fun s =>
    match r with
    | Done a => Done (a, s)
    | AssertFailed => AssertFailed
    | Undefined => Undefined
    end.

Definition req_data : string := "REQUEST-DATA".
Definition req_data_len : nat := 12.

(** [AvroSession::process_command]; [file_in_dir] answers for the
    directory of the router, and [alloc_ok] tells whether
    [gwbuf_alloc_and_load] gets its memory. *)
Definition process_command (ltrim : string -> string) (file_in_dir : string -> bool)
    (alloc_ok : bool) (queue : option GWBUF) : Prog t unit :=
  q ← deref queue;
  (* the bytes of the queue, closed by a null byte *)
  let data := c_str q in
  match strstr data req_data with
  | Some command_ptr =>
      let file_ptr := string_drop (command_ptr + req_data_len) data in
      let data_len := wrap_int (Z.of_nat (length q) - Z.of_nat req_data_len) in
      if 1 <? data_len then
        (* an uncaught exception ends the process *)
        file_and_gtid ← deref (get_avrofile_and_gtid ltrim file_ptr);
        when (negb (String.eqb file_and_gtid.2 EmptyString))
          (modify (set_requested_gtid true);;
           g ← gets gtid;
           g ← lift (extract_gtid_request g file_and_gtid.2);
           modify (set_gtid g);;
           modify (set_gtid_start g));;
        modify (set_avro_binfile file_and_gtid.1);;
        if String.eqb file_and_gtid.1 EmptyString then
          modify (do_call (Printf ("ERR NO-FILE Filename not specified." +:+ nl)))
        else if negb (file_in_dir file_and_gtid.1) then
          modify (do_call (Printf ("ERR NO-FILE File '" +:+ file_and_gtid.1
                                   +:+ "' not found." +:+ nl)))
        else modify (do_call QueueClientCallback)
      else modify (do_call (Printf ("ERR REQUEST-DATA with no data" +:+ nl)))
  | None =>
      (* sizeof(err) counts the null byte that closes the text *)
      let err := list_byte_of_string ("ERR: Unknown command" +:+ nl) ++ [Byte.x00] in
      let reply := if alloc_ok then Some err else None in
      modify (do_call (ProtocolWrite reply))
  end.

(** [AvroSession::routeQuery]; [do_registration] is the function of
    that name, which reads the registration message. *)
Definition routeQuery (do_registration : option GWBUF -> Prog t Z)
    (process_command : option GWBUF -> Prog t unit) (queue : option GWBUF)
    : Prog t Z :=
  st ← gets state;
  if st =? AVRO_CLIENT_ERRORED then
    (* force disconnection *)
    mret 0
  else
    rval ←
      (if st =? AVRO_CLIENT_UNREGISTERED then
         registered ← do_registration queue;
         if registered =? 0 then
           modify (set_state AVRO_CLIENT_ERRORED);;
           modify (do_call (Printf ("ERR, code 12, msg: Registration failed" +:+ nl)));;
           (* force disconnection *)
           modify (fun s => set_dcb (DCB.close (dcb s)) s);;
           mret 0
         else
           (* Send OK ack to client *)
           modify (do_call (Printf ("OK" +:+ nl)));;
           modify (set_state AVRO_CLIENT_REGISTERED);;
           mret 1
       else if (st =? AVRO_CLIENT_REGISTERED) || (st =? AVRO_CLIENT_REQUEST_DATA) then
         when (st =? AVRO_CLIENT_REGISTERED)
           (modify (set_state AVRO_CLIENT_REQUEST_DATA));;
         (* Process command from client *)
         process_command queue;;
         mret 1
       else
         modify (set_state AVRO_CLIENT_ERRORED);;
         mret 0);
    modify (do_call (Free queue));;
    mret rval.

End WithGtid.

Arguments t G : clear implicits.

End Avro.

(** * Vocabulary of the properties *)

(** ** Predicates on sessions *)

(** What [terminate] leaves behind on a started session. *)
Definition terminated (error : option GWBUF) (d : DCB.t) (s : Session) : Session :=
  set_client_dcb_field (Some (DCB.close d))
    (emit EvDcbClose
       (match error with
        | Some _ => emit (EvWrite error) (set_state STOPPING s)
        | None => set_state STOPPING s
        end)).

(** The response slot holds nothing. *)
Definition response_clear (r : Response.t) : Prop :=
  Upstream.instance (Response.up r) = None /\
  Upstream.session (Response.up r) = None /\
  Response.buffer r = None.

(** The property as the specification words it: once a response is
    stored, a further [session_set_response] either fails or returns
    with the stored response as it was. *)
Definition set_response_at_most_once : Prop :=
  forall (SS_DEBUG : bool) (s s1 : Session)
         (svc1 svc2 : option SERVICE) (up1 up2 : Upstream.t) (buf1 buf2 : GWBUF),
    response_clear (response s) ->
    session_set_response SS_DEBUG svc1 (Some up1) (Some buf1) s = Done (tt, s1) ->
    response s1 = Response.mk up1 (Some buf1) svc1 /\
    match session_set_response SS_DEBUG svc2 (Some up2) (Some buf2) s1 with
    | Done (_, s2) => response s2 = response s1
    | AssertFailed | Undefined => True
    end.

(** The query bookkeeping can be addressed: nothing is retained, or the
    current-query index is not negative. *)
Definition bookable (s : Session) : Prop :=
  m_retain_last_statements s = 0 \/ m_last_queries s = [] \/ 0 <= m_current_query s.

(** The depth [append_session_log] really keeps: one line less than
    [session_trace]. *)
Definition log_depth (this_unit : this_unit_t) : nat :=
  Z.to_nat (session_trace this_unit - 1).

(** Two names that differ in the case of their letters only. *)
Definition case_variant (a b : string) : Prop :=
  transform tolower a = transform tolower b.

(** Every key was stored by [add_variable]: it is the lower-case form
    of a name that passed the prefix test. *)
Definition variables_added (vars : gmap string SESSION_VARIABLE) : Prop :=
  forall key v, vars !! key = Some v ->
    exists name, strncasecmp name PREFIX PREFIX_LEN = 0 /\ key = transform tolower name.

(** The ring [retain_statement] leaves behind. *)
Definition retained (now : timespec) (pBuffer : option GWBUF) (s : Session)
    : list QueryInfo.t :=
  let n := m_retain_last_statements s in
  let q := QueryInfo.make now (gwbuf_clone pBuffer) :: m_last_queries s in
  if n =? 0 then m_last_queries s
  else if n <? Z.of_nat (length q) then pop_back q else q.

(** What the ring and its index satisfy in every session: the
    constructor establishes it and the four bookkeeping calls keep it. *)
Record query_ring_wf (s : Session) : Prop := mk_ring_wf {
  wf_index : int_range (m_current_query s);
  wf_empty : m_last_queries s = [] -> m_current_query s = -1;
  wf_bound : Z.of_nat (length (m_last_queries s)) <= m_retain_last_statements s
}.

(** The call freed the session: [session_free] ran, once. *)
Definition freed_by (s s' : Session) : Prop :=
  trace s' = trace s ++ [EvSessionFree] /\ m_state s' = FREE.

(** The call left the session alive. *)
Definition kept_by (s s' : Session) : Prop :=
  trace s' = trace s /\ m_state s' = m_state s.

(** ** Sample sessions *)

(** A client DCB with two bytes waiting in its read queue. *)
Definition dcb_with_queue : DCB.t :=
  DCB.mk DCB.CLIENT 1%positive (Some [Byte.x01; Byte.x02]) 0 [].

Definition client_dcb0 : DCB.t := DCB.mk DCB.CLIENT 1%positive None 0 [].
Definition protocol0 : ClientProtocol := mk_protocol (fun _ => 1).

(** A started session with its client connection and DCB in place. *)
Definition started_session : Session :=
  set_state STARTED
    (set_client_conn_field (Some protocol0)
       (set_client_dcb_field (Some client_dcb0)
          (Session_new this_unit_init (-1)))).

(** The upstream of filter [n]. *)
Definition filter_up (n : positive) : Upstream.t :=
  Upstream.mk (Some n) (Some n) (Some n).

(** A filter chain that answers the query itself. *)
Definition short_circuit : option GWBUF -> Prog Session Z :=
  fun _ =>
    session_set_response true (Some 7%positive) (Some (filter_up 3)) (Some [Byte.x2a]);;
    mret 1.

(** A variable handler that accepts no value. *)
Definition reject_all : session_variable_handler_t :=
  fun _ _ _ => Some "rejected".

(** A fresh session that retains the last two statements. *)
Definition retaining_two : Session :=
  Session_new (mk_this_unit 1 2 SESSION_DUMP_STATEMENTS_NEVER 0) (-1).

(** Three statements streamed into a ring of two: the index is 2. *)
Definition streamed_session : Session :=
  set_current_query 2
    (set_last_queries [QueryInfo.make (3, 0) None; QueryInfo.make (2, 0) None]
       retaining_two).

(** A backend DCB on the worker of the client DCB. *)
Definition backend0 : BackendDCB :=
  mk_backend 5%positive (DCB.mk DCB.BACKEND 1%positive None 0 []).

(** ** Proof automation *)

(** Reading a field of an updated session. *)
Ltac fields :=
  cbn [m_state refcount client_dcb m_client_conn m_down_open response
       m_dcb_set m_variables m_retain_last_statements m_last_queries
       m_current_query m_log trace
       set_state set_refcount set_client_dcb_field set_client_conn_field
       set_response set_dcb_set set_variables set_last_queries
       set_current_query set_log emit] in *.

Create HintDb prog discriminated.
#[local] Hint Unfold when mxb_assert_m mxb_assert deref undefined gets modify
  mbind mret Prog_bind Prog_ret : prog.

(** Unfolding the monad of the embedding. *)
Ltac run_prog :=
  repeat (progress (autounfold with prog in *; simpl in *; fields)).

(** * Vocabulary of the further properties *)

(** The entry [QueryInfo::book_server_response] leaves behind. *)
Definition booked (now : timespec) (p : option SERVER) (final_response : bool)
    (info : QueryInfo.t) : QueryInfo.t :=
  QueryInfo.mk (QueryInfo.m_sQuery info) (QueryInfo.m_received info)
    (if final_response then now else QueryInfo.m_completed info)
    (QueryInfo.m_server_infos info ++ [QueryInfo.mk_info p now])
    final_response.

(** The entry [QueryInfo::book_as_complete] leaves behind. *)
Definition completed (now : timespec) (info : QueryInfo.t) : QueryInfo.t :=
  QueryInfo.mk (QueryInfo.m_sQuery info) (QueryInfo.m_received info) now
    (QueryInfo.m_server_infos info) true.

(** One statement retained and not yet answered. *)
Definition one_in_flight : Session :=
  set_current_query 0
    (set_last_queries [QueryInfo.make (1, 0) (Some [Byte.x03])] retaining_two).

(** A downstream that routes nothing. *)
Definition refuse_all : option GWBUF -> Prog Session Z := fun _ => mret 0.

(** ** Vocabulary for the smart router *)

(** The cluster [create] pushes for an endpoint that connected:
    [{e, is_master}], not replying and with a fresh tracker. *)
Definition cluster_of {T : Type} {PT : Smart.PacketTracker T}
    (pMaster : option Smart.Target) (e : Smart.Endpoint) : Smart.Cluster T :=
  Smart.mk_cluster e (bool_decide (Smart.ep_target e = pMaster)) false
    Smart.tracker_default.

(** What the loop of [create] keeps: [master_pos] is the position of a
    master cluster, or -1 when no cluster is a master. *)
Definition master_at {T : Type} (clusters : list (Smart.Cluster T)) (master_pos : Z) : Prop :=
  (master_pos = -1 /\ Forall (fun c => Smart.is_master c = false) clusters) \/
  (0 <= master_pos /\
   exists c, clusters !! Z.to_nat master_pos = Some c /\ Smart.is_master c = true).

(** The endpoints that connect. *)
Definition connected (pEndpoints : list Smart.Endpoint) : list Smart.Endpoint :=
  filter (fun e => Smart.ep_connects e = true) pEndpoints.

(** ** Sample data for the smart router *)

(** A tracker that counts the request and the response packets still
    awaited; a response that is not awaited puts it in the state Error. *)
Record Counting : Type := counting {
  requests_left : nat;
  responses_left : nat;
  failed : bool
}.

#[local] Instance counting_tracker : Smart.PacketTracker Counting := {|
  Smart.tracker_default := counting 0 0 false;
  Smart.tracker_of_request := fun _ => counting 0 1 false;
  Smart.update_request := fun n _ =>
    counting (pred (requests_left n)) (responses_left n) (failed n);
  Smart.update_response := fun n _ =>
    if Nat.eqb (responses_left n) 0
    then counting (requests_left n) 0 true
    else counting (requests_left n) (pred (responses_left n)) (failed n);
  Smart.expecting_request_packets := fun n => negb (Nat.eqb (requests_left n) 0);
  Smart.expecting_response_packets := fun n => negb (Nat.eqb (responses_left n) 0);
  Smart.expecting_more_packets := fun n =>
    negb (Nat.eqb (requests_left n) 0) || negb (Nat.eqb (responses_left n) 0);
  Smart.state := fun n => if failed n then Smart.Error else Smart.OtherState
|}.

Definition replica_endpoint : Smart.Endpoint :=
  Smart.mk_endpoint 1%positive (Some 11%positive) true (fun _ => 1).

Definition down_endpoint : Smart.Endpoint :=
  Smart.mk_endpoint 2%positive (Some 12%positive) false (fun _ => 1).

Definition master_endpoint : Smart.Endpoint :=
  Smart.mk_endpoint 3%positive (Some 13%positive) true (fun _ => 1).

Definition refusing_endpoint : Smart.Endpoint :=
  Smart.mk_endpoint 4%positive (Some 14%positive) true (fun _ => 0).

(** A session in the middle of a request of several packets: the master
    and the refusing backend wait for the next packet, the replica does
    not. *)
Definition mid_request (clusters : list (Smart.Cluster Counting))
    : Smart.t Counting :=
  Smart.mk Smart.Idle clusters None (Smart.mk_measurement 0 "") started_session [].

Definition master_waiting : Smart.Cluster Counting :=
  Smart.mk_cluster master_endpoint true false (counting 2 1 false).

Definition replica_served : Smart.Cluster Counting :=
  Smart.mk_cluster replica_endpoint false false (counting 0 1 false).

Definition refusing_waiting : Smart.Cluster Counting :=
  Smart.mk_cluster refusing_endpoint false false (counting 1 1 false).

Definition replica_waiting : Smart.Cluster Counting :=
  Smart.mk_cluster replica_endpoint false false (counting 1 1 false).

(** The buffers a list of calls forwards to the client. *)
Definition forwarded (cs : list Smart.Call) : list (option GWBUF) :=
  omap (fun c => match c with
                 | Smart.Reply b => Some b
                 | _ => None
                 end) cs.

(** The buffers a list of calls frees. *)
Definition freed (cs : list Smart.Call) : list (option GWBUF) :=
  omap (fun c => match c with
                 | Smart.Free b => Some b
                 | _ => None
                 end) cs.

(** The buffer the session holds back, if any. *)
Definition pending (delayed : option GWBUF) : list (option GWBUF) :=
  match delayed with
  | Some _ => [delayed]
  | None => []
  end.

(** [write_to_all] gives a cluster a fresh tracker for the buffer and
    takes it off the reply. *)
Definition reset_for {T : Type} {PT : Smart.PacketTracker T} (pBuf : option GWBUF)
    (c : Smart.Cluster T) : Smart.Cluster T :=
  Smart.mk_cluster (Smart.pBackend c) (Smart.is_master c) false
    (Smart.tracker_of_request pBuf).

(** [write_split_packets] feeds the packet to the tracker of a cluster
    that expects request packets. *)
Definition fed {T : Type} {PT : Smart.PacketTracker T} (pBuf : option GWBUF)
    (c : Smart.Cluster T) : Smart.Cluster T :=
  Smart.mk_cluster (Smart.pBackend c) (Smart.is_master c) (Smart.is_replying_to_client c)
    (Smart.update_request (Smart.tracker c) pBuf).

(** The backend of the cluster takes the buffer: its [routeQuery] does
    not return 0. *)
Definition takes {T : Type} (c : Smart.Cluster T) (buf : option GWBUF) : bool :=
  negb (Smart.ep_routes (Smart.pBackend c) buf =? 0).

(** The call that routes a buffer to the backend of a cluster. *)
Definition routed_to {T : Type} (buf : option GWBUF) (c : Smart.Cluster T) : Smart.Call :=
  Smart.Route (Smart.ep_id (Smart.pBackend c)) buf.

(** The cluster waits for more packets of a request. *)
Definition wants_request {T : Type} {PT : Smart.PacketTracker T} (c : Smart.Cluster T)
    : bool :=
  Smart.expecting_request_packets (Smart.tracker c).

Ltac smart_fields :=
  cbn [Smart.m_mode Smart.m_clusters Smart.m_pDelayed_packet Smart.m_measurement
       Smart.client_session Smart.calls Smart.set_mode Smart.set_clusters
       Smart.set_delayed Smart.set_measurement Smart.set_client_session
       Smart.do_call Smart.pBackend Smart.is_master Smart.is_replying_to_client
       Smart.tracker fst snd] in *.

Ltac smart_run :=
  repeat (progress (unfold Smart.backend_routeQuery, when, mxb_assert, deref, undefined,
                      gets, modify, mbind, mret, Prog_bind, Prog_ret in *;
                    cbn beta iota in *; smart_fields)).


(** The flag [first_response_packet] of [clientReply]. *)
Definition first_response_packet {T : Type} (s : Smart.t T) : bool :=
  Smart.Mode_eqb (Smart.m_mode s) Smart.Query
  || Smart.Mode_eqb (Smart.m_mode s) Smart.MeasureQuery.

(** The cluster once its tracker has seen the response packet. *)
Definition heard {T : Type} {PT : Smart.PacketTracker T} (pPacket : option GWBUF)
    (c : Smart.Cluster T) : Smart.Cluster T :=
  Smart.mk_cluster (Smart.pBackend c) (Smart.is_master c) (Smart.is_replying_to_client c)
    (Smart.update_response (Smart.tracker c) pPacket).

(** The tracker of the cluster tells that the connection is lost: it
    is in the state Error, or the packet is an error packet that says
    the connection was killed. *)
Definition lost_connection {T : Type} {PT : Smart.PacketTracker T} (my : Smart.MySQL)
    (pPacket : option GWBUF) (c : Smart.Cluster T) : bool :=
  match Smart.state (Smart.tracker c) with
  | Smart.ErrorPacket =>
      Smart.mxs_mysql_get_mysql_errno my pPacket =? Smart.ER_CONNECTION_KILLED my
  | Smart.Error => true
  | Smart.OtherState => false
  end.

(** No cluster of the session expects a response packet any more, once
    cluster [k] is [c]. *)
Definition all_answered {T : Type} {PT : Smart.PacketTracker T} (k : nat)
    (c : Smart.Cluster T) (s : Smart.t T) : bool :=
  negb (Smart.session_expecting_response_packets
          (Smart.set_clusters (<[k := c]> (Smart.m_clusters s)) s)).

Definition my0 : Smart.MySQL := Smart.mk_mysql (fun _ => 0) 1927.

(** Both clusters have been sent a query; the master has begun to
    reply. *)
Definition collecting : Smart.t Counting :=
  Smart.mk Smart.CollectResults
    [Smart.mk_cluster master_endpoint true true (counting 0 1 false);
     Smart.mk_cluster replica_endpoint false false (counting 0 1 false)]
    None (Smart.mk_measurement 0 "") started_session [].

Ltac smart_eval :=
  repeat (progress (cbn [negb orb andb Smart.Mode_eqb is_null] in *; smart_run;
                    rewrite ?andb_false_r, ?andb_true_r)).

(** A session at rest on the master alone. *)
Definition at_rest : Smart.t Counting :=
  Smart.mk Smart.Idle
    [Smart.mk_cluster master_endpoint true false (counting 0 0 false)]
    None (Smart.mk_measurement 0 "") started_session [].

(** A session at rest on the master and a replica. *)
Definition at_rest_pair : Smart.t Counting :=
  Smart.mk Smart.Idle
    [Smart.mk_cluster master_endpoint true false (counting 0 0 false);
     Smart.mk_cluster replica_endpoint false false (counting 0 0 false)]
    None (Smart.mk_measurement 0 "") started_session [].

(** A read the classifier sends to the master. *)
Definition for_master : Smart.Classified :=
  Smart.mk_classified "select ?" false true false None true.

(** A read the router has no measurement for yet. *)
Definition unmeasured : Smart.Classified :=
  Smart.mk_classified "select ?" false false false None true.

(** A tracker that awaits one more response packet after each one. *)
#[local] Instance streaming_tracker : Smart.PacketTracker unit := {|
  Smart.tracker_default := tt;
  Smart.tracker_of_request := fun _ => tt;
  Smart.update_request := fun n _ => n;
  Smart.update_response := fun n _ => n;
  Smart.expecting_request_packets := fun _ => false;
  Smart.expecting_response_packets := fun _ => true;
  Smart.expecting_more_packets := fun _ => true;
  Smart.state := fun _ => Smart.OtherState
|}.

(** A session at rest whose backends stream their answers. *)
Definition at_rest_streaming : Smart.t unit :=
  Smart.mk Smart.Idle
    [Smart.mk_cluster master_endpoint true false tt;
     Smart.mk_cluster replica_endpoint false false tt]
    None (Smart.mk_measurement 0 "") started_session [].

Ltac smart_flat :=
  unfold Smart.set_mode, Smart.set_clusters, Smart.set_delayed, Smart.set_measurement,
    Smart.set_client_session, Smart.do_call in *;
  smart_fields.

(** ** Vocabulary for the Avro client session *)

(** How often the character occurs in the string. *)
Fixpoint count_char (c : ascii) (s : string) : nat :=
  match s with
  | EmptyString => 0%nat
  | String a rest => ((if Ascii.eqb a c then 1 else 0) + count_char c rest)%nat
  end.

(** The numbers written in a text, in order: each maximal run of
    digits, read in base ten.  [cur] is the number being read. *)
Fixpoint numbers (s : string) (cur : option Z) : list Z :=
  match s with
  | EmptyString =>
      match cur with
      | Some n => [n]
      | None => []
      end
  | String c rest =>
      if Avro.isdigit c then
        let d := Z.of_N (N_of_ascii c) - 48 in
        numbers rest (Some (match cur with
                            | Some n => n * 10 + d
                            | None => d
                            end))
      else
        match cur with
        | Some n => n :: numbers rest None
        | None => numbers rest None
        end
  end.

(** A number as a [long] takes it from [strtol]. *)
Definition as_long (n : Z) : Z := Z.min n Avro.LONG_MAX.

(** A GTID as its three numbers. *)
Record Gtid : Type := mk_gtid {
  gtid_domain : Z;
  gtid_server_id : Z;
  gtid_seq : Z
}.

#[local] Instance Gtid_pos : Avro.GtidPos Gtid := {|
  Avro.set_domain := fun n g => mk_gtid n (gtid_server_id g) (gtid_seq g);
  Avro.set_server_id := fun n g => mk_gtid (gtid_domain g) n (gtid_seq g);
  Avro.set_seq := fun n g => mk_gtid (gtid_domain g) (gtid_server_id g) n
|}.

(** The numbers of a request stored one after the other, [read] of
    them being stored already; there is no place for a fourth. *)
Fixpoint store_numbers {G : Type} {GP : Avro.GtidPos G} (read : nat) (ns : list Z)
    (g : G) : Outcome G :=
  match ns with
  | [] => Done g
  | n :: rest =>
      match read with
      | 0%nat => store_numbers 1 rest (Avro.set_domain n g)
      | 1%nat => store_numbers 2 rest (Avro.set_server_id n g)
      | 2%nat => store_numbers 3 rest (Avro.set_seq n g)
      | _ => Undefined
      end
  end.

(** A trimming of the left end that drops the leading blanks. *)
Fixpoint skip_blanks (s : string) : string :=
  match s with
  | String c rest => if Ascii.eqb c " " then skip_blanks rest else s
  | EmptyString => EmptyString
  end.

(** One [routeQuery] for each queue, in order, with what they answer. *)
Fixpoint route_all {G : Type} {GP : Avro.GtidPos G}
    (do_registration : option GWBUF -> Prog (Avro.t G) Z)
    (process_command : option GWBUF -> Prog (Avro.t G) unit)
    (queues : list (option GWBUF)) : Prog (Avro.t G) (list Z) :=
  match queues with
  | [] => mret []
  | queue :: rest =>
      rval ← Avro.routeQuery do_registration process_command queue;
      rvals ← route_all do_registration process_command rest;
      mret (rval :: rvals)
  end.

(** A client that has not registered yet. *)
Definition unregistered : Avro.t Gtid :=
  Avro.mk Avro.AVRO_CLIENT_UNREGISTERED client_dcb0 false (mk_gtid 0 0 0) (mk_gtid 0 0 0)
    EmptyString [].


(** A registration that fails. *)
Definition no_registration : option GWBUF -> Prog (Avro.t Gtid) Z := fun _ => mret 0.

(** A command that is not looked at. *)
Definition no_command : option GWBUF -> Prog (Avro.t Gtid) unit := fun _ => mret tt.

Ltac avro_fields :=
  cbn [Avro.state Avro.dcb Avro.requested_gtid Avro.gtid Avro.gtid_start
       Avro.avro_binfile Avro.calls Avro.set_state Avro.set_dcb
       Avro.set_requested_gtid Avro.set_gtid Avro.set_gtid_start
       Avro.set_avro_binfile Avro.do_call fst snd] in *.

Ltac avro_run :=
  repeat (progress (unfold Avro.lift, when, mxb_assert, deref, undefined,
                      gets, modify, mbind, mret, Prog_bind, Prog_ret in *;
                    cbn beta iota in *; avro_fields)).

(** * Properties *)

(** ** The monad and the machine integers *)

Lemma bind_done {St A B : Type} (m : Prog St A) (k : A -> Prog St B)
    (s s' : St) (a : A) :
  m s = Done (a, s') -> (m ≫= k) s = k a s'.
Proof. intros H. unfold mbind, Prog_bind. rewrite H. reflexivity. Qed.

Lemma wrap_int_id (z : Z) : int_range z -> wrap_int z = z.
Proof.
  unfold int_range, INT_MIN, INT_MAX, wrap_int. intros H.
  rewrite Z.mod_small; lia.
Qed.

Lemma wrap_int_range (z : Z) : int_range (wrap_int z).
Proof.
  unfold int_range, INT_MIN, INT_MAX, wrap_int.
  pose proof (Z.mod_pos_bound (z + 2 ^ 31) (2 ^ 32)). lia.
Qed.

(** ** The read queue of a DCB *)

(** C10. [readq_set] on a DCB that already has a read queue: a debug
    build stops at the assertion; otherwise one error is logged, nothing
    is freed or appended, and the read queue is exactly the buffer
    passed in, the previous queue being dropped. *)
Theorem readq_set_drops_existing_queue
    (SS_DEBUG : bool) (old : GWBUF) (buffer : option GWBUF) (d : DCB.t) :
  DCB.m_readq d = Some old ->
  DCB.readq_set SS_DEBUG buffer d =
    if SS_DEBUG then AssertFailed
    else Done (tt, DCB.mk (DCB.role d) (DCB.owner d) buffer (DCB.m_nClose d)
                     (DCB.log d ++
                      [EvError "Read-queue set when there already is a read-queue."])).
Proof.
  intros Hq. unfold DCB.readq_set. run_prog. rewrite Hq.
  destruct SS_DEBUG; reflexivity.
Qed.

Lemma readq_set_drops_existing_queue_witness :
  DCB.readq_set false (Some [Byte.x03]) dcb_with_queue =
    Done (tt, DCB.mk DCB.CLIENT 1%positive (Some [Byte.x03]) 0
                [EvError "Read-queue set when there already is a read-queue."]).
Proof.
  exact (readq_set_drops_existing_queue false [Byte.x01; Byte.x02]
           (Some [Byte.x03]) dcb_with_queue eq_refl).
Defined.

(** [readq_append], by contrast, keeps the queue and adds to it. *)
Example readq_append_concatenates :
  DCB.readq_append (Some [Byte.x03]) dcb_with_queue
  = Done (tt, DCB.set_readq (Some [Byte.x01; Byte.x02; Byte.x03]) dcb_with_queue).
Proof. reflexivity. Qed.

(** Without a read queue [readq_set] just stores the buffer. *)
Lemma readq_set_empty (SS_DEBUG : bool) (buffer : option GWBUF) (d : DCB.t) :
  DCB.m_readq d = None ->
  DCB.readq_set SS_DEBUG buffer d = Done (tt, DCB.set_readq buffer d).
Proof.
  intros Hq. unfold DCB.readq_set. run_prog. rewrite Hq.
  destruct SS_DEBUG; reflexivity.
Qed.

(** ** Termination of a session *)

Lemma State_eqb_eq (a b : State) : State_eqb a b = true <-> a = b.
Proof. destruct a, b; simpl; split; congruence. Qed.

Lemma terminate_not_started (SS_DEBUG : bool) (error : option GWBUF) (s : Session) :
  m_state s <> STARTED -> terminate SS_DEBUG error s = Done (tt, s).
Proof.
  intros Hst. unfold terminate. run_prog.
  destruct (State_eqb (m_state s) STARTED) eqn:E; [|reflexivity].
  apply State_eqb_eq in E. contradiction.
Qed.

Lemma terminate_started (SS_DEBUG : bool) (error : option GWBUF) (s : Session)
    (conn : ClientProtocol) (d : DCB.t) :
  m_state s = STARTED ->
  m_client_conn s = Some conn ->
  client_dcb s = Some d ->
  (SS_DEBUG = true -> DCB.is_closed d = false) ->
  terminate SS_DEBUG error s = Done (tt, terminated error d s).
Proof.
  intros Hst Hc Hd Hopen. unfold terminate, terminated.
  unfold client_connection_dcb, client_connection, DCB_close_client_dcb.
  run_prog. rewrite Hst. simpl.
  destruct SS_DEBUG; run_prog.
  - rewrite Hc, Hd. rewrite (Hopen eq_refl). simpl.
    destruct error; run_prog; rewrite ?Hc; run_prog; rewrite Hd; reflexivity.
  - destruct error; run_prog; rewrite ?Hc; run_prog; rewrite Hd; reflexivity.
Qed.

(** C4. [terminate] does nothing unless the session is [STARTED]; on a
    started session it moves the state to [STOPPING], writes the error
    buffer, when there is one, to the client connection, and after that
    closes the client DCB. *)
Theorem terminate_spec (SS_DEBUG : bool) (error : option GWBUF) (s : Session) :
  (m_state s <> STARTED -> terminate SS_DEBUG error s = Done (tt, s)) /\
  (forall conn d,
     m_state s = STARTED ->
     m_client_conn s = Some conn ->
     client_dcb s = Some d ->
     (SS_DEBUG = true -> DCB.is_closed d = false) ->
     exists s',
       terminate SS_DEBUG error s = Done (tt, s') /\
       m_state s' = STOPPING /\
       trace s' = trace s
                  ++ match error with Some _ => [EvWrite error] | None => [] end
                  ++ [EvDcbClose] /\
       client_dcb s' = Some (DCB.close d)).
Proof.
  split.
  - apply terminate_not_started.
  - intros conn d Hst Hc Hd Hopen.
    exists (terminated error d s). split.
    + eapply terminate_started; eauto.
    + unfold terminated. destruct error; simpl; repeat split;
        rewrite <- ?app_assoc; reflexivity.
Qed.

Lemma terminate_spec_witness :
  exists s',
    terminate true (Some [Byte.x15]) started_session = Done (tt, s') /\
    m_state s' = STOPPING /\
    trace s' = [EvWrite (Some [Byte.x15]); EvDcbClose] /\
    client_dcb s' = Some (DCB.close client_dcb0).
Proof.
  exact (proj2 (terminate_spec true (Some [Byte.x15]) started_session)
           protocol0 client_dcb0 eq_refl eq_refl eq_refl (fun _ => eq_refl)).
Defined.

(** ** Errors reported by the router *)

Lemma clientReply_writes (buffer : option GWBUF) (s : Session) (conn : ClientProtocol) :
  m_client_conn s = Some conn ->
  clientReply buffer s =
    Done (write conn (gwbuf_clone buffer), emit (EvWrite (gwbuf_clone buffer)) s).
Proof.
  intros Hc. unfold clientReply, client_connection. run_prog.
  rewrite Hc. reflexivity.
Qed.

(** C5. [handleError] forwards the error to the client through
    [clientReply] first, terminates the session next, and answers
    false; it never answers anything else. *)
Theorem handleError_spec (SS_DEBUG : bool) (error : GWBUF) (s : Session)
    (conn : ClientProtocol) :
  m_client_conn s = Some conn ->
  (m_state s = STARTED ->
   exists d, client_dcb s = Some d /\ (SS_DEBUG = true -> DCB.is_closed d = false)) ->
  (exists s1 s2,
     clientReply (Some error) s = Done (write conn (Some error), s1) /\
     trace s1 = trace s ++ [EvWrite (Some error)] /\
     terminate SS_DEBUG None s1 = Done (tt, s2) /\
     handleError SS_DEBUG (Some error) s = Done (false, s2) /\
     (m_state s = STARTED ->
      m_state s2 = STOPPING /\
      trace s2 = trace s ++ [EvWrite (Some error); EvDcbClose])) /\
  (forall b s', handleError SS_DEBUG (Some error) s = Done (b, s') -> b = false).
Proof.
  intros Hc Hd.
  pose proof (clientReply_writes (Some error) s conn Hc) as Hreply.
  simpl in Hreply.
  assert (Hterm : exists s2,
            terminate SS_DEBUG None (emit (EvWrite (Some error)) s) = Done (tt, s2) /\
            (m_state s = STARTED ->
             m_state s2 = STOPPING /\
             trace s2 = trace s ++ [EvWrite (Some error); EvDcbClose])).
  { destruct (State_eqb (m_state s) STARTED) eqn:E.
    - apply State_eqb_eq in E. destruct (Hd E) as (d & Hdcb & Hopen).
      eexists. split; [eapply terminate_started; eauto|].
      intros _. unfold terminated. fields.
      rewrite <- app_assoc. split; reflexivity.
    - eexists. split.
      + apply terminate_not_started. fields.
        intros Hst. rewrite Hst in E. discriminate.
      + intros Hst. rewrite Hst in E. discriminate. }
  destruct Hterm as (s2 & Hterm & Hstarted).
  assert (Hrun : handleError SS_DEBUG (Some error) s = Done (false, s2)).
  { unfold handleError.
    rewrite (bind_done _ _ _ _ _ Hreply), (bind_done _ _ _ _ _ Hterm).
    reflexivity. }
  split.
  - exists (emit (EvWrite (Some error)) s), s2.
    split; [assumption|]. split; [reflexivity|].
    split; [assumption|]. split; assumption.
  - intros b s' Hb. rewrite Hrun in Hb. congruence.
Qed.

Lemma handleError_spec_witness :
  (exists s1 s2,
     clientReply (Some [Byte.x15]) started_session
       = Done (write protocol0 (Some [Byte.x15]), s1) /\
     trace s1 = trace started_session ++ [EvWrite (Some [Byte.x15])] /\
     terminate true None s1 = Done (tt, s2) /\
     handleError true (Some [Byte.x15]) started_session = Done (false, s2) /\
     (m_state started_session = STARTED ->
      m_state s2 = STOPPING /\
      trace s2 = trace started_session ++ [EvWrite (Some [Byte.x15]); EvDcbClose])) /\
  (forall b s',
     handleError true (Some [Byte.x15]) started_session = Done (b, s') -> b = false).
Proof.
  apply (handleError_spec true [Byte.x15] started_session protocol0 eq_refl).
  intros _. exists client_dcb0. split; [reflexivity | intros _; reflexivity].
Defined.

(** ** Short-circuited responses *)

(** In a release build the second response replaces the first. *)
Lemma set_response_twice_overwrites :
  ~ set_response_at_most_once.
Proof.
  intros H.
  destruct (H false (Session_new this_unit_init (-1))
              (set_response (Response.mk (filter_up 1) (Some [Byte.x01]) None)
                 (Session_new this_unit_init (-1)))
              None None (filter_up 1) (filter_up 2) [Byte.x01] [Byte.x02])
    as [_ H2].
  - repeat split.
  - reflexivity.
  - vm_compute in H2. discriminate.
Qed.

(** C2, as the code has it.  On a clear slot [session_set_response]
    stores the (up, buffer, service) triple.  On a slot that holds a
    response the call breaks a debug assertion: a debug build aborts
    and stores nothing, a release build stores the new triple in place
    of the old one. *)
Theorem session_set_response_spec (SS_DEBUG : bool) (s : Session)
    (svc : option SERVICE) (up : Upstream.t) (buf : GWBUF) :
  (response_clear (response s) ->
   session_set_response SS_DEBUG svc (Some up) (Some buf) s
     = Done (tt, set_response (Response.mk up (Some buf) svc) s)) /\
  (~ response_clear (response s) ->
   session_set_response SS_DEBUG svc (Some up) (Some buf) s
     = if SS_DEBUG then AssertFailed
       else Done (tt, set_response (Response.mk up (Some buf) svc) s)).
Proof.
  unfold response_clear, session_set_response. run_prog.
  destruct SS_DEBUG; simpl; [|split; reflexivity].
  destruct (response s) as [[i fs fn] b sv]; simpl. split.
  - intros (-> & -> & ->). reflexivity.
  - intros Hn. destruct i, fs, b; simpl; try reflexivity.
    exfalso. apply Hn. repeat split.
Qed.

Lemma session_set_response_spec_witness :
  session_set_response true None (Some (filter_up 1)) (Some [Byte.x01])
    (Session_new this_unit_init (-1))
  = Done (tt, set_response (Response.mk (filter_up 1) (Some [Byte.x01]) None)
                (Session_new this_unit_init (-1)))
  /\
  session_set_response true None (Some (filter_up 2)) (Some [Byte.x02])
    (set_response (Response.mk (filter_up 1) (Some [Byte.x01]) None)
       (Session_new this_unit_init (-1)))
  = AssertFailed.
Proof.
  split.
  - apply (proj1 (session_set_response_spec true (Session_new this_unit_init (-1))
                    None (filter_up 1) [Byte.x01])).
    repeat split.
  - apply (proj2 (session_set_response_spec true
                    (set_response (Response.mk (filter_up 1) (Some [Byte.x01]) None)
                       (Session_new this_unit_init (-1)))
                    None (filter_up 2) [Byte.x02])).
    intros (H & _). discriminate H.
Defined.

Lemma wrap_int_le (z : Z) : 0 <= z -> wrap_int z <= z.
Proof.
  intros Hz. unfold wrap_int.
  pose proof (Z.mod_le (z + 2 ^ 31) (2 ^ 32)). lia.
Qed.

Lemma deque_at_in_range (q : list QueryInfo.t) (i : Z) (s : Session) :
  0 <= i < size_as_int q ->
  exists info, q !! Z.to_nat i = Some info /\ deque_at q i s = Done (info, s).
Proof.
  intros [Hlo Hhi]. unfold size_as_int in Hhi.
  pose proof (wrap_int_le (Z.of_nat (length q)) ltac:(lia)) as Hle.
  destruct (lookup_lt_is_Some_2 q (Z.to_nat i)) as [info Hinfo]; [lia|].
  exists info. split; [assumption|].
  unfold deque_at. destruct (i <? 0) eqn:E; [lia|].
  rewrite Hinfo. reflexivity.
Qed.

(** [book_last_as_complete] on an addressable bookkeeping: the entry
    under the index, if the index is inside the ring, is marked
    complete at [now]; nothing else changes. *)
Lemma book_last_as_complete_done (SS_DEBUG : bool) (now : timespec) (s : Session) :
  bookable s ->
  exists q',
    book_last_as_complete SS_DEBUG now s = Done (tt, set_last_queries q' s) /\
    length q' = length (m_last_queries s).
Proof.
  intros Hb. unfold book_last_as_complete. run_prog.
  destruct (m_retain_last_statements s =? 0) eqn:En; simpl.
  { exists (m_last_queries s). split; [destruct s|]; reflexivity. }
  destruct (bool_decide (m_last_queries s = [])) eqn:Eq; simpl.
  { exists (m_last_queries s). split; [destruct s|]; reflexivity. }
  assert (Hcur : 0 <= m_current_query s).
  { destruct Hb as [H|[H|H]]; [lia| |assumption].
    apply bool_decide_eq_false in Eq. contradiction. }
  assert (E0 : (0 <=? m_current_query s) = true) by lia.
  rewrite E0. rewrite andb_false_r.
  destruct (m_current_query s <? size_as_int (m_last_queries s)) eqn:Ein.
  - destruct (deque_at_in_range (m_last_queries s) (m_current_query s) s)
      as (info & Hinfo & Hat); [lia|].
    unfold on_query, run_on, QueryInfo.book_as_complete. run_prog.
    rewrite Hat.
    eexists. split; [reflexivity|]. apply length_insert.
  - exists (m_last_queries s). split; [destruct s|]; reflexivity.
Qed.

(** C3. When the filter chain has stored a response while routing, by
    [routeQuery]'s return the stored upstream [clientReply] has been
    called once, with the stored instance, session and buffer; the four
    response slots are null again; and [book_last_as_complete] has run
    on the session. *)
Theorem routeQuery_delivers_response
    (SS_DEBUG : bool) (now : timespec) (down : option GWBUF -> Prog Session Z)
    (buffer : option GWBUF) (s s1 : Session) (rv : Z)
    (inst : MXS_FILTER) (fs : MXS_FILTER_SESSION) (fn : ClientReplyFn)
    (buf : GWBUF) (svc : option SERVICE) :
  down buffer s = Done (rv, s1) ->
  response s1 = Response.mk (Upstream.mk (Some inst) (Some fs) (Some fn)) (Some buf) svc ->
  bookable s1 ->
  exists s2 s3,
    s2 = set_response (Response.mk (Upstream.mk None None None) None svc)
           (emit (EvClientReply fn inst (Some fs) (Some buf) svc) s1) /\
    book_last_as_complete SS_DEBUG now s2 = Done (tt, s3) /\
    routeQuery SS_DEBUG now down buffer s = Done (rv, s3) /\
    trace s3 = trace s1 ++ [EvClientReply fn inst (Some fs) (Some buf) svc] /\
    Response.up (response s3) = Upstream.mk None None None /\
    Response.buffer (response s3) = None.
Proof.
  intros Hdown Hresp Hbook.
  set (s2 := set_response (Response.mk (Upstream.mk None None None) None svc)
               (emit (EvClientReply fn inst (Some fs) (Some buf) svc) s1)).
  destruct (book_last_as_complete_done SS_DEBUG now s2) as (q' & Hq' & _).
  { exact Hbook. }
  exists s2, (set_last_queries q' s2). split; [reflexivity|].
  split; [exact Hq'|]. split; [|repeat split].
  unfold routeQuery. rewrite (bind_done _ _ _ _ _ Hdown).
  unfold deliver_response.
  set (book := book_last_as_complete SS_DEBUG now) in *. clearbody book.
  run_prog.
  destruct SS_DEBUG; simpl; repeat (rewrite Hresp; simpl);
    fold s2; rewrite Hq'; reflexivity.
Qed.

Lemma routeQuery_delivers_response_witness :
  exists s2 s3,
    s2 = set_response (Response.mk (Upstream.mk None None None) None (Some 7%positive))
           (emit (EvClientReply 3%positive 3%positive (Some 3%positive)
                    (Some [Byte.x2a]) (Some 7%positive))
              (set_response (Response.mk (filter_up 3) (Some [Byte.x2a]) (Some 7%positive))
                 started_session)) /\
    book_last_as_complete true (5, 0) s2 = Done (tt, s3) /\
    routeQuery true (5, 0) short_circuit (Some [Byte.x01]) started_session = Done (1, s3) /\
    trace s3 = [EvClientReply 3%positive 3%positive (Some 3%positive)
                  (Some [Byte.x2a]) (Some 7%positive)] /\
    Response.up (response s3) = Upstream.mk None None None /\
    Response.buffer (response s3) = None.
Proof.
  apply (routeQuery_delivers_response true (5, 0) short_circuit (Some [Byte.x01])
           started_session
           (set_response (Response.mk (filter_up 3) (Some [Byte.x2a]) (Some 7%positive))
              started_session)
           1 3%positive 3%positive 3%positive [Byte.x2a] (Some 7%positive)).
  - reflexivity.
  - reflexivity.
  - left. reflexivity.
Defined.

(** A stored buffer without an upstream instance is not delivered: the
    two tests, on the buffer in [routeQuery] and on the instance in
    [deliver_response], have to agree. *)
Lemma deliver_response_needs_instance (now : timespec) (s : Session) :
  Upstream.instance (Response.up (response s)) = None ->
  deliver_response false now s = Done (tt, s).
Proof.
  intros Hi. unfold deliver_response. run_prog. rewrite Hi. reflexivity.
Qed.

(** ** The session log *)

Lemma pop_back_take {A : Type} (l : list A) :
  pop_back l = take (pred (length l)) l.
Proof. unfold pop_back. apply removelast_firstn_len. Qed.

Lemma take_app_take {A : Type} (a b : list A) (k m : nat) :
  (k <= m)%nat -> take k (a ++ take m b) = take k (a ++ b).
Proof.
  revert k. induction a as [|x a IH]; intros k Hk; simpl.
  - rewrite take_take. f_equal. lia.
  - destruct k as [|k]; [reflexivity|]. simpl. f_equal. apply IH. lia.
Qed.

Lemma append_session_log_step (this_unit : this_unit_t) (line : string) (s : Session) :
  (length (m_log s) <= log_depth this_unit)%nat ->
  append_session_log this_unit line s
    = Done (tt, set_log (take (log_depth this_unit) (line :: m_log s)) s).
Proof.
  unfold log_depth. intros Hlen. unfold append_session_log. run_prog.
  destruct (session_trace this_unit <=? Z.of_nat (S (length (m_log s)))) eqn:E.
  - apply Z.leb_le in E. rewrite pop_back_take.
    change (pred (length (line :: m_log s))) with (length (m_log s)).
    assert (Hk : Z.to_nat (session_trace this_unit - 1) = length (m_log s)) by lia.
    rewrite Hk. reflexivity.
  - apply Z.leb_gt in E.
    rewrite take_ge by (simpl; lia). reflexivity.
Qed.

Lemma append_session_log_run (this_unit : this_unit_t) (lines : list string) (s : Session) :
  (length (m_log s) <= log_depth this_unit)%nat ->
  for_each (append_session_log this_unit) lines s
    = Done (tt, set_log (take (log_depth this_unit) (rev lines ++ m_log s)) s).
Proof.
  revert s. induction lines as [|line rest IH]; intros s Hlen.
  - simpl. rewrite take_ge by assumption. destruct s; reflexivity.
  - simpl for_each.
    rewrite (bind_done _ _ _ _ _ (append_session_log_step this_unit line s Hlen)).
    rewrite IH by (fields; rewrite length_take; lia).
    fields. rewrite take_app_take by lia.
    simpl rev. rewrite <- app_assoc. reflexivity.
Qed.

(** After [n] calls on an empty log the ring holds [min n (N - 1)]
    lines, the most recent first. *)
Lemma append_session_log_length (this_unit : this_unit_t) (lines : list string) (s : Session) :
  m_log s = [] ->
  exists s',
    for_each (append_session_log this_unit) lines s = Done (tt, s') /\
    m_log s' = take (log_depth this_unit) (rev lines) /\
    length (m_log s') = Nat.min (length lines) (log_depth this_unit).
Proof.
  intros Hempty. eexists. split.
  - apply append_session_log_run. rewrite Hempty. simpl. lia.
  - fields. rewrite Hempty, app_nil_r. split; [reflexivity|].
    rewrite length_take, length_rev. lia.
Qed.

(** C7, at depth 1.  With [session_trace] set to 1 the line just
    appended is popped again at once: after one call the log holds no
    line, where a ring of depth 1 would hold the one line. *)
Theorem append_session_log_depth_one_keeps_nothing :
  exists s',
    append_session_log (mk_this_unit 1 0 SESSION_DUMP_STATEMENTS_NEVER 1)
      "line" (Session_new this_unit_init (-1)) = Done (tt, s') /\
    m_log s' = [].
Proof. eexists. split; reflexivity. Qed.

(** At depth 3 the third line evicts the first. *)
Example append_session_log_depth_three :
  exists s',
    for_each (append_session_log (mk_this_unit 1 0 SESSION_DUMP_STATEMENTS_NEVER 3))
      ["a"; "b"; "c"] (Session_new this_unit_init (-1)) = Done (tt, s') /\
    m_log s' = ["c"; "b"].
Proof. eexists. split; reflexivity. Qed.

(** ** Session variables *)

Lemma char_code_inj (a b : ascii) : char_code a - char_code b = 0 -> a = b.
Proof.
  unfold char_code. intros H.
  assert (E : N_of_ascii a = N_of_ascii b) by lia.
  rewrite <- (ascii_N_embedding a), <- (ascii_N_embedding b), E. reflexivity.
Qed.

Lemma toupper_never_m (c : ascii) : toupper c <> "m"%char.
Proof.
  destruct c as [[] [] [] [] [] [] [] []]; vm_compute; discriminate.
Qed.

Lemma strncasecmp_cons (c1 c2 : ascii) (r1 r2 : string) (n : nat) :
  strncasecmp (String c1 r1) (String c2 r2) (S n) = 0 ->
  tolower c1 = tolower c2 /\ strncasecmp r1 r2 n = 0.
Proof.
  cbn [strncasecmp].
  destruct (char_code (tolower c1) - char_code (tolower c2) =? 0) eqn:E.
  - intros H. split; [apply char_code_inj; lia | exact H].
  - intros H. lia.
Qed.

(** A name that passes the prefix test has an [m], in either case, as
    its second character. *)
Lemma prefix_second_char (name : string) :
  strncasecmp name PREFIX PREFIX_LEN = 0 ->
  exists c0 c1 rest, name = String c0 (String c1 rest) /\ tolower c1 = "m"%char.
Proof.
  unfold PREFIX, PREFIX_LEN. intros H.
  destruct name as [|c0 [|c1 rest]].
  - vm_compute in H. discriminate.
  - apply strncasecmp_cons in H. destruct H as [_ H].
    vm_compute in H. discriminate.
  - exists c0, c1, rest. split; [reflexivity|].
    apply strncasecmp_cons in H. destruct H as [_ H].
    apply strncasecmp_cons in H. destruct H as [H _]. exact H.
Qed.

Lemma upper_key_not_added (vars : gmap string SESSION_VARIABLE) (name : string) :
  variables_added vars -> vars !! transform toupper name = None.
Proof.
  intros Hwf. destruct (vars !! transform toupper name) as [v|] eqn:E; [|reflexivity].
  destruct (Hwf _ _ E) as (n & Hpre & Hkey).
  destruct (prefix_second_char n Hpre) as (c0 & c1 & rest & -> & Hm).
  destruct name as [|d0 [|d1 drest]]; simpl in Hkey; try discriminate.
  injection Hkey as _ H1 _. rewrite Hm in H1.
  exfalso. exact (toupper_never_m d1 H1).
Qed.

Lemma add_variable_keeps_added (name : string) (h : session_variable_handler_t)
    (ctx : Context) (s s1 : Session) (b : bool) :
  variables_added (m_variables s) ->
  add_variable name h ctx s = Done (b, s1) ->
  variables_added (m_variables s1).
Proof.
  intros Hwf. unfold add_variable. run_prog.
  destruct (strncasecmp name PREFIX PREFIX_LEN =? 0) eqn:Epre.
  - destruct (m_variables s !! transform tolower name) eqn:Efind;
      intros [= <- <-]; fields; [assumption|].
    intros key v Hkey. destruct (decide (key = transform tolower name)) as [->|Hne].
    + exists name. split; [lia | reflexivity].
    + rewrite lookup_insert_ne in Hkey by congruence. eauto.
  - intros [= <- <-]. fields. assumption.
Qed.

Lemma Session_new_variables_added (this_unit : this_unit_t) (service_retain : Z) :
  variables_added (m_variables (Session_new this_unit service_retain)).
Proof. intros key v H. simpl in H. rewrite lookup_empty in H. discriminate. Qed.

(** C1, as the code has it.  A variable stored by [add_variable] is
    found by [set_variable_value] under every case variant of its name,
    and by [remove_variable] under none: that function looks the name up
    in upper case, where the keys are kept in lower case, so it answers
    false and the variable stays. *)
Theorem remove_variable_misses_added_variable
    (s s1 : Session) (name name2 value : string)
    (h : session_variable_handler_t) (ctx : Context) (want_context malloc_ok : bool) :
  variables_added (m_variables s) ->
  add_variable name h ctx s = Done (true, s1) ->
  case_variant name2 name ->
  remove_variable name2 want_context s1 = Done ((false, None), s1) /\
  set_variable_value malloc_ok name2 value s1
    = Done (h ctx (transform tolower name) value, s1).
Proof.
  intros Hwf Hadd Hvar.
  pose proof (add_variable_keeps_added _ _ _ _ _ _ Hwf Hadd) as Hwf1.
  split.
  - unfold remove_variable. run_prog.
    rewrite (upper_key_not_added _ name2 Hwf1). reflexivity.
  - unfold set_variable_value, case_variant in *. run_prog. rewrite Hvar.
    revert Hadd. unfold add_variable. run_prog.
    destruct (strncasecmp name PREFIX PREFIX_LEN =? 0); [|discriminate].
    destruct (m_variables s !! transform tolower name); [discriminate|].
    intros [= <-]. fields. rewrite lookup_insert_eq. reflexivity.
Qed.

Lemma remove_variable_misses_added_variable_witness :
  remove_variable "@MaxScale.Cache" true
    (set_variables {[ "@maxscale.cache" := mk_variable reject_all (Some 9%positive) ]}
       (Session_new this_unit_init (-1)))
  = Done ((false, None),
          set_variables {[ "@maxscale.cache" := mk_variable reject_all (Some 9%positive) ]}
            (Session_new this_unit_init (-1)))
  /\
  set_variable_value true "@MaxScale.Cache" "on"
    (set_variables {[ "@maxscale.cache" := mk_variable reject_all (Some 9%positive) ]}
       (Session_new this_unit_init (-1)))
  = Done (Some "rejected",
          set_variables {[ "@maxscale.cache" := mk_variable reject_all (Some 9%positive) ]}
            (Session_new this_unit_init (-1))).
Proof.
  apply (remove_variable_misses_added_variable
           (Session_new this_unit_init (-1)) _
           "@maxscale.cache" "@MaxScale.Cache" "on"
           reject_all (Some 9%positive) true true).
  - apply Session_new_variables_added.
  - reflexivity.
  - reflexivity.
Defined.

(** ** The ring of retained statements *)

Lemma length_pop_back {A : Type} (q : list A) : length (pop_back q) = pred (length q).
Proof.
  rewrite pop_back_take, length_take. lia.
Qed.

Lemma int_range_0 : int_range 0.
Proof. unfold int_range, INT_MIN, INT_MAX. lia. Qed.

Lemma retain_statement_outcome (SS_DEBUG : bool) (now : timespec)
    (pBuffer : option GWBUF) (s : Session) :
  Z.of_nat (length (m_last_queries s)) <= m_retain_last_statements s ->
  match retain_statement SS_DEBUG now pBuffer s with
  | Done (_, s') =>
      m_retain_last_statements s' = m_retain_last_statements s /\
      m_last_queries s' = retained now pBuffer s /\
      (m_retain_last_statements s = 0 -> s' = s) /\
      (m_retain_last_statements s <> 0 -> int_range (m_current_query s'))
  | AssertFailed => SS_DEBUG = true
  | Undefined => False
  end.
Proof.
  intros Hlen. unfold retain_statement, retained. run_prog.
  destruct (m_retain_last_statements s =? 0) eqn:En; simpl.
  { repeat split; intros; lia. }
  apply Z.eqb_neq in En.
  set (new := QueryInfo.make now (gwbuf_clone pBuffer)).
  assert (E1 : (Z.of_nat (length (m_last_queries s)) <=? m_retain_last_statements s) = true)
    by lia.
  rewrite E1. rewrite andb_false_r.
  destruct SS_DEBUG; simpl;
    repeat (match goal with
            | |- context [if ?c then _ else _] => destruct c; run_prog
            end);
    repeat split; intros; try lia;
    try apply int_range_0; try apply wrap_int_range.
Qed.

Lemma retained_length (now : timespec) (pBuffer : option GWBUF) (s : Session) :
  Z.of_nat (length (m_last_queries s)) <= m_retain_last_statements s ->
  Z.of_nat (length (retained now pBuffer s)) <= m_retain_last_statements s.
Proof.
  intros Hlen. unfold retained.
  destruct (m_retain_last_statements s =? 0); [assumption|].
  destruct (m_retain_last_statements s <? _) eqn:E.
  - rewrite length_pop_back. simpl. assumption.
  - apply Z.ltb_ge in E. assumption.
Qed.

Lemma retained_full (now : timespec) (pBuffer : option GWBUF) (s : Session) :
  0 < m_retain_last_statements s ->
  Z.of_nat (length (m_last_queries s)) = m_retain_last_statements s ->
  retained now pBuffer s
    = QueryInfo.make now (gwbuf_clone pBuffer) :: pop_back (m_last_queries s).
Proof.
  intros Hpos Hfull. unfold retained.
  destruct (m_retain_last_statements s =? 0) eqn:En; [lia|].
  destruct (m_retain_last_statements s <? _) eqn:E.
  - destruct (m_last_queries s) as [|x q]; [simpl in Hfull; lia|]. reflexivity.
  - apply Z.ltb_ge in E. simpl length in E. lia.
Qed.

(** C6. With [m_retain_last_statements] equal to N and a ring of at
    most N entries, any sequence of [retain_statement] calls leaves at
    most N entries in the ring (a debug build may stop at an assertion
    on the current-query index, a release build always returns); with N
    equal to 0 a call stores nothing; and on a full ring a call puts
    the new entry in front and drops the oldest one, at the back. *)
Theorem retain_statement_ring_bound (SS_DEBUG : bool) (s : Session) :
  Z.of_nat (length (m_last_queries s)) <= m_retain_last_statements s ->
  (forall calls : list (timespec * option GWBUF),
     match for_each (fun c => retain_statement SS_DEBUG c.1 c.2) calls s with
     | Done (_, s') =>
         m_retain_last_statements s' = m_retain_last_statements s /\
         Z.of_nat (length (m_last_queries s')) <= m_retain_last_statements s
     | AssertFailed => SS_DEBUG = true
     | Undefined => False
     end) /\
  (m_retain_last_statements s = 0 ->
   forall now pBuffer, retain_statement SS_DEBUG now pBuffer s = Done (tt, s)) /\
  (0 < m_retain_last_statements s ->
   Z.of_nat (length (m_last_queries s)) = m_retain_last_statements s ->
   forall now pBuffer,
     match retain_statement SS_DEBUG now pBuffer s with
     | Done (_, s') =>
         m_last_queries s'
           = QueryInfo.make now (gwbuf_clone pBuffer) :: pop_back (m_last_queries s)
     | AssertFailed => SS_DEBUG = true
     | Undefined => False
     end).
Proof.
  intros Hlen. split; [|split].
  - intros calls. revert s Hlen.
    induction calls as [|[now pBuffer] rest IH]; intros s Hlen.
    + simpl. split; [reflexivity | assumption].
    + simpl for_each. unfold mbind, Prog_bind.
      pose proof (retain_statement_outcome SS_DEBUG now pBuffer s Hlen) as Hstep.
      simpl fst. simpl snd.
      destruct (retain_statement SS_DEBUG now pBuffer s) as [[[] s1]| |];
        [|assumption|assumption].
      destruct Hstep as (Hn & Hq & _).
      assert (Hlen1 : Z.of_nat (length (m_last_queries s1)) <= m_retain_last_statements s1).
      { rewrite Hn, Hq. apply retained_length. assumption. }
      specialize (IH s1 Hlen1).
      destruct (for_each _ rest s1) as [[[] s2]| |]; [|assumption|assumption].
      rewrite <- Hn. assumption.
  - intros Hzero now pBuffer.
    pose proof (retain_statement_outcome SS_DEBUG now pBuffer s Hlen) as Hstep.
    unfold retain_statement in *. run_prog. rewrite Hzero. reflexivity.
  - intros Hpos Hfull now pBuffer.
    pose proof (retain_statement_outcome SS_DEBUG now pBuffer s Hlen) as Hstep.
    destruct (retain_statement SS_DEBUG now pBuffer s) as [[[] s1]| |];
      [|assumption|assumption].
    destruct Hstep as (_ & Hq & _). rewrite Hq. apply retained_full; assumption.
Qed.

Lemma retain_statement_ring_bound_witness :
  (forall calls : list (timespec * option GWBUF),
     match for_each (fun c => retain_statement false c.1 c.2) calls retaining_two with
     | Done (_, s') =>
         m_retain_last_statements s' = 2 /\
         Z.of_nat (length (m_last_queries s')) <= 2
     | AssertFailed => false = true
     | Undefined => False
     end) /\
  (m_retain_last_statements retaining_two = 0 ->
   forall now pBuffer, retain_statement false now pBuffer retaining_two
                       = Done (tt, retaining_two)) /\
  (0 < m_retain_last_statements retaining_two ->
   Z.of_nat (length (m_last_queries retaining_two))
     = m_retain_last_statements retaining_two ->
   forall now pBuffer,
     match retain_statement false now pBuffer retaining_two with
     | Done (_, s') =>
         m_last_queries s'
           = QueryInfo.make now (gwbuf_clone pBuffer)
               :: pop_back (m_last_queries retaining_two)
     | AssertFailed => false = true
     | Undefined => False
     end).
Proof.
  apply (retain_statement_ring_bound false retaining_two). simpl. lia.
Defined.

(** ** Bookkeeping of streamed statements *)

Lemma Session_new_ring_wf (this_unit : this_unit_t) (service_retain : Z) :
  0 <= retain_last_statements this_unit ->
  query_ring_wf (Session_new this_unit service_retain).
Proof.
  intros Hr. split; simpl.
  - unfold int_range, INT_MIN, INT_MAX. lia.
  - reflexivity.
  - destruct (service_retain =? -1); simpl; [assumption|].
    unfold wrap_u32. apply Z.mod_pos_bound. lia.
Qed.

Lemma retain_statement_ring_wf (SS_DEBUG : bool) (now : timespec)
    (pBuffer : option GWBUF) (s s' : Session) :
  query_ring_wf s ->
  retain_statement SS_DEBUG now pBuffer s = Done (tt, s') ->
  query_ring_wf s'.
Proof.
  intros [Hi He Hb] Hrun.
  pose proof (retain_statement_outcome SS_DEBUG now pBuffer s Hb) as Hstep.
  rewrite Hrun in Hstep. destruct Hstep as (Hn & Hq & Hz & Hnz).
  destruct (Z.eq_dec (m_retain_last_statements s) 0) as [E|E].
  - rewrite (Hz E). split; assumption.
  - split.
    + apply Hnz, E.
    + rewrite Hq. unfold retained.
      destruct (m_retain_last_statements s =? 0) eqn:En; [lia|].
      destruct (m_retain_last_statements s <? _) eqn:El; [|discriminate].
      intros Hnil. apply (f_equal length) in Hnil.
      rewrite length_pop_back in Hnil. simpl in Hnil.
      apply Z.ltb_lt in El. simpl length in El.
      destruct (m_last_queries s); simpl in *; lia.
    + rewrite Hn, Hq. apply retained_length. assumption.
Qed.

Lemma size_as_int_id (q : list QueryInfo.t) (i : Z) :
  int_range i -> Z.of_nat (length q) <= i -> size_as_int q = Z.of_nat (length q).
Proof.
  intros [Hlo Hhi] Hle. unfold size_as_int. apply wrap_int_id.
  unfold int_range, INT_MIN in *. lia.
Qed.

(** One booking while the index is at or past the end of the ring. *)
Lemma book_server_response_past_end (SS_DEBUG : bool) (now : timespec)
    (pServer : option SERVER) (final_response : bool) (s : Session) :
  query_ring_wf s ->
  Z.of_nat (length (m_last_queries s)) <= m_current_query s ->
  book_server_response SS_DEBUG now pServer final_response s
    = Done (tt, if final_response
                then set_current_query (m_current_query s - 1) s
                else s).
Proof.
  intros [Hi He Hb] Hpast.
  assert (Hne : m_last_queries s <> []).
  { intros Hnil. rewrite Hnil, (He Hnil) in Hpast. simpl in Hpast. lia. }
  assert (Hlen : 0 < Z.of_nat (length (m_last_queries s))).
  { destruct (m_last_queries s); [contradiction | simpl; lia]. }
  unfold book_server_response. run_prog.
  assert (E1 : (m_retain_last_statements s =? 0) = false) by lia.
  rewrite E1, (bool_decide_eq_false_2 _ Hne). simpl.
  assert (E2 : (0 <=? m_current_query s) = true) by lia.
  rewrite E2, andb_false_r.
  rewrite (size_as_int_id _ _ Hi Hpast).
  assert (E3 : (m_current_query s <? Z.of_nat (length (m_last_queries s))) = false) by lia.
  rewrite E3. run_prog.
  destruct final_response; run_prog.
  - rewrite wrap_int_id by (unfold int_range, INT_MIN, INT_MAX in *; lia).
    assert (E4 : (-1 <=? m_current_query s - 1) = true) by lia.
    rewrite E4, andb_false_r. reflexivity.
  - destruct s; reflexivity.
Qed.

Lemma book_last_as_complete_past_end (SS_DEBUG : bool) (now : timespec) (s : Session) :
  query_ring_wf s ->
  Z.of_nat (length (m_last_queries s)) <= m_current_query s ->
  book_last_as_complete SS_DEBUG now s = Done (tt, s).
Proof.
  intros [Hi He Hb] Hpast.
  unfold book_last_as_complete. run_prog.
  destruct (negb (m_retain_last_statements s =? 0)
            && negb (bool_decide (m_last_queries s = []))); [|reflexivity].
  assert (E2 : (0 <=? m_current_query s) = true) by lia.
  rewrite E2, andb_false_r.
  rewrite (size_as_int_id _ _ Hi Hpast).
  assert (E3 : (m_current_query s <? Z.of_nat (length (m_last_queries s))) = false) by lia.
  rewrite E3. reflexivity.
Qed.

Lemma set_current_query_ring_wf (s : Session) (i : Z) :
  query_ring_wf s -> m_last_queries s <> [] -> int_range i ->
  query_ring_wf (set_current_query i s).
Proof.
  intros [Hi He Hb] Hne Hr. split; fields; [assumption | contradiction | assumption].
Qed.

(** C8. While the current-query index is at or past the end of the
    ring, [book_server_response] and [book_last_as_complete] touch no
    [QueryInfo]; a final response takes the index down by one; and as
    many final responses as the index is ahead of the last entry bring
    it back to that entry, without the index ever going below -1. *)
Theorem booking_past_ring_end (SS_DEBUG : bool) (s : Session) :
  query_ring_wf s ->
  Z.of_nat (length (m_last_queries s)) <= m_current_query s ->
  (forall now pServer final_response,
     book_server_response SS_DEBUG now pServer final_response s
       = Done (tt, if final_response
                   then set_current_query (m_current_query s - 1) s
                   else s)) /\
  (forall now, book_last_as_complete SS_DEBUG now s = Done (tt, s)) /\
  (forall responses : list (timespec * option SERVER),
     Z.of_nat (length responses)
       <= m_current_query s - Z.of_nat (length (m_last_queries s)) + 1 ->
     for_each (fun r => book_server_response SS_DEBUG r.1 r.2 true) responses s
       = Done (tt, if decide (responses = []) then s
                   else set_current_query
                          (m_current_query s - Z.of_nat (length responses)) s) /\
     -1 <= m_current_query s - Z.of_nat (length responses)).
Proof.
  intros Hwf Hpast. split; [|split].
  - intros. apply book_server_response_past_end; assumption.
  - intros. apply book_last_as_complete_past_end; assumption.
  - intros responses. revert s Hwf Hpast.
    induction responses as [|[now pServer] rest IH]; intros s Hwf Hpast Hk.
    + simpl. split; [reflexivity | lia].
    + split; [|simpl length in *; lia].
      simpl for_each.
      rewrite (bind_done _ _ _ _ _
                 (book_server_response_past_end SS_DEBUG now pServer true s Hwf Hpast)).
      destruct rest as [|r rest'].
      * simpl. repeat f_equal.
      * assert (Hne : m_last_queries s <> []).
        { intros Hnil. destruct Hwf as [_ He _].
          rewrite Hnil, (He Hnil) in Hpast. simpl in Hpast. lia. }
        destruct (IH (set_current_query (m_current_query s - 1) s)) as [Hrun _].
        { apply set_current_query_ring_wf; [assumption..|].
          destruct Hwf as [Hi _ _]. unfold int_range, INT_MIN, INT_MAX in *.
          simpl length in Hk. lia. }
        { fields. simpl length in Hk. lia. }
        { fields. simpl length in *. lia. }
        rewrite Hrun. rewrite decide_False by discriminate.
        rewrite decide_False by discriminate.
        fields. f_equal. f_equal. 
        replace (m_current_query s - 1 - Z.of_nat (length (r :: rest')))
          with (m_current_query s - Z.of_nat (length ((now, pServer) :: r :: rest')))
          by (simpl length; lia).
        reflexivity.
Qed.

Example streamed_session_reached :
  for_each (fun c => retain_statement true c.1 c.2)
    [((1, 0), None); ((2, 0), None); ((3, 0), None)] retaining_two
  = Done (tt, streamed_session).
Proof. reflexivity. Qed.

Lemma streamed_session_wf : query_ring_wf streamed_session.
Proof.
  split; simpl.
  - unfold int_range, INT_MIN, INT_MAX. lia.
  - discriminate.
  - lia.
Defined.

Lemma booking_past_ring_end_witness :
  (forall now pServer final_response,
     book_server_response true now pServer final_response streamed_session
       = Done (tt, if final_response
                   then set_current_query (m_current_query streamed_session - 1)
                          streamed_session
                   else streamed_session)) /\
  (forall now, book_last_as_complete true now streamed_session
               = Done (tt, streamed_session)) /\
  (forall responses : list (timespec * option SERVER),
     Z.of_nat (length responses)
       <= m_current_query streamed_session
          - Z.of_nat (length (m_last_queries streamed_session)) + 1 ->
     for_each (fun r => book_server_response true r.1 r.2 true) responses
       streamed_session
       = Done (tt, if decide (responses = []) then streamed_session
                   else set_current_query
                          (m_current_query streamed_session
                           - Z.of_nat (length responses)) streamed_session) /\
     -1 <= m_current_query streamed_session - Z.of_nat (length responses)).
Proof.
  apply (booking_past_ring_end true streamed_session streamed_session_wf).
  simpl. lia.
Defined.

(** The other bookkeeping calls keep the ring well formed, too. *)
Lemma on_query_length (index : Z) (m : Prog QueryInfo.t unit) (s s' : Session) :
  on_query index m s = Done (tt, s') ->
  exists q', s' = set_last_queries q' s /\ length q' = length (m_last_queries s).
Proof.
  unfold on_query, deque_at, run_on. run_prog.
  destruct (index <? 0); [discriminate|].
  destruct (m_last_queries s !! Z.to_nat index) as [info|]; [|discriminate].
  destruct (m info) as [[[] info']| |]; try discriminate.
  intros [= <-]. eexists. split; [reflexivity|]. apply length_insert.
Qed.

Lemma set_last_queries_ring_wf (s : Session) (q' : list QueryInfo.t) :
  query_ring_wf s -> length q' = length (m_last_queries s) ->
  query_ring_wf (set_last_queries q' s).
Proof.
  intros [Hi He Hb] Hlen. split; fields.
  - assumption.
  - intros ->. apply He. destruct (m_last_queries s); [reflexivity | discriminate].
  - rewrite Hlen. assumption.
Qed.

Lemma book_last_as_complete_ring_wf (SS_DEBUG : bool) (now : timespec) (s s' : Session) :
  query_ring_wf s ->
  book_last_as_complete SS_DEBUG now s = Done (tt, s') ->
  query_ring_wf s'.
Proof.
  intros Hwf. unfold book_last_as_complete. run_prog.
  destruct (negb (m_retain_last_statements s =? 0)
            && negb (bool_decide (m_last_queries s = []))); [|congruence].
  destruct (SS_DEBUG && negb (0 <=? m_current_query s)); [discriminate|].
  destruct (m_current_query s <? size_as_int (m_last_queries s)); [|congruence].
  intros Hrun. apply on_query_length in Hrun. destruct Hrun as (q' & -> & Hlen).
  apply set_last_queries_ring_wf; assumption.
Qed.

Lemma reset_server_bookkeeping_ring_wf (SS_DEBUG : bool) (s s' : Session) :
  query_ring_wf s ->
  reset_server_bookkeeping SS_DEBUG s = Done (tt, s') ->
  query_ring_wf s'.
Proof.
  intros Hwf. unfold reset_server_bookkeeping. run_prog.
  destruct (negb (m_retain_last_statements s =? 0)
            && negb (bool_decide (m_last_queries s = []))); [|congruence].
  destruct (SS_DEBUG && negb (0 <=? m_current_query s)); [discriminate|].
  destruct (m_current_query s <? size_as_int (m_last_queries s)); [|congruence].
  intros Hrun. apply on_query_length in Hrun. destruct Hrun as (q' & -> & Hlen).
  apply set_last_queries_ring_wf; assumption.
Qed.

Lemma book_server_response_ring_wf (SS_DEBUG : bool) (now : timespec)
    (pServer : option SERVER) (final_response : bool) (s s' : Session) :
  query_ring_wf s ->
  book_server_response SS_DEBUG now pServer final_response s = Done (tt, s') ->
  query_ring_wf s'.
Proof.
  intros Hwf. unfold book_server_response. run_prog.
  destruct (negb (m_retain_last_statements s =? 0)
            && negb (bool_decide (m_last_queries s = []))) eqn:Eg; [|congruence].
  apply andb_prop in Eg. destruct Eg as [_ Ene].
  apply negb_true_iff, bool_decide_eq_false in Ene.
  destruct (SS_DEBUG && negb (0 <=? m_current_query s)); [discriminate|].
  destruct (m_current_query s <? size_as_int (m_last_queries s)).
  - destruct (on_query _ _ s) as [[[] s1]| |] eqn:Eb; try discriminate.
    apply on_query_length in Eb. destruct Eb as (q' & -> & Hlen).
    destruct final_response; run_prog.
    + destruct (SS_DEBUG && negb (-1 <=? wrap_int (m_current_query s - 1)));
        [discriminate|].
      intros [= <-].
      apply set_current_query_ring_wf; auto using wrap_int_range.
      * apply set_last_queries_ring_wf; assumption.
      * fields. intros ->. destruct (m_last_queries s); [contradiction|discriminate].
    + intros [= <-]. apply set_last_queries_ring_wf; assumption.
  - destruct final_response; run_prog.
    + destruct (SS_DEBUG && negb (-1 <=? wrap_int (m_current_query s - 1)));
        [discriminate|].
      intros [= <-].
      apply set_current_query_ring_wf; auto using wrap_int_range.
    + congruence.
Qed.

(** Whenever [book_server_response] returns, the index is still at
    least -1: a booking with a negative index does not return. *)
Lemma book_server_response_index_floor (SS_DEBUG : bool) (now : timespec)
    (pServer : option SERVER) (final_response : bool) (s s' : Session) :
  Z.of_nat (length (m_last_queries s)) <= INT_MAX ->
  int_range (m_current_query s) ->
  -1 <= m_current_query s ->
  book_server_response SS_DEBUG now pServer final_response s = Done (tt, s') ->
  -1 <= m_current_query s'.
Proof.
  intros Hlen Hi Hfloor. unfold book_server_response. run_prog.
  destruct (negb (m_retain_last_statements s =? 0)
            && negb (bool_decide (m_last_queries s = []))) eqn:Eg;
    [|intros [= <-]; assumption].
  apply andb_prop in Eg. destruct Eg as [_ Ene].
  apply negb_true_iff, bool_decide_eq_false in Ene.
  assert (Hpos : 0 < Z.of_nat (length (m_last_queries s))).
  { destruct (m_last_queries s); [contradiction | simpl; lia]. }
  assert (Hsize : size_as_int (m_last_queries s) = Z.of_nat (length (m_last_queries s))).
  { unfold size_as_int. apply wrap_int_id.
    unfold int_range, INT_MIN, INT_MAX in *. lia. }
  destruct (SS_DEBUG && negb (0 <=? m_current_query s)); [discriminate|].
  assert (Hdec : 0 <= m_current_query s -> wrap_int (m_current_query s - 1) = m_current_query s - 1).
  { intros H0. apply wrap_int_id. unfold int_range, INT_MIN, INT_MAX in *. lia. }
  rewrite Hsize.
  destruct (m_current_query s <? Z.of_nat (length (m_last_queries s))) eqn:Ein.
  - destruct (on_query _ _ s) as [[[] s1]| |] eqn:Eb; try discriminate.
    assert (H0 : 0 <= m_current_query s).
    { revert Eb. unfold on_query, deque_at. run_prog.
      destruct (m_current_query s <? 0) eqn:Eneg; [discriminate | lia]. }
    apply on_query_length in Eb. destruct Eb as (q' & -> & _).
    destruct final_response; run_prog.
    + destruct (SS_DEBUG && negb (-1 <=? wrap_int (m_current_query s - 1)));
        [discriminate|].
      intros [= <-]. fields. rewrite Hdec by assumption. lia.
    + intros [= <-]. fields. assumption.
  - apply Z.ltb_ge in Ein.
    destruct final_response; run_prog.
    + destruct (SS_DEBUG && negb (-1 <=? wrap_int (m_current_query s - 1)));
        [discriminate|].
      intros [= <-]. fields. rewrite Hdec by lia. lia.
    + intros [= <-]. assumption.
Qed.

(** ** Reference counting *)

Lemma session_put_ref_nonnull_outcome (SS_DEBUG : bool) (s : Session) :
  INT_MIN < refcount s <= INT_MAX ->
  match session_put_ref_nonnull SS_DEBUG s with
  | Done (_, s') =>
      refcount s' = refcount s - 1 /\
      m_dcb_set s' = m_dcb_set s /\
      (refcount s = 1 -> freed_by s s') /\
      (refcount s <> 1 -> kept_by s s')
  | AssertFailed => SS_DEBUG = true /\ refcount s = 1 /\ m_down_open s = true
  | Undefined => False
  end.
Proof.
  intros Hr. unfold session_put_ref_nonnull, atomic_add_refcount, session_free,
    Session_destroy, freed_by, kept_by.
  run_prog.
  rewrite wrap_int_id by (unfold int_range, INT_MIN, INT_MAX in *; lia).
  destruct (refcount s =? 1) eqn:E; run_prog.
  - apply Z.eqb_eq in E.
    assert (E0 : (refcount s + -1 =? 0) = true) by lia.
    rewrite E0, andb_false_r.
    destruct SS_DEBUG; run_prog.
    + destruct (m_down_open s); simpl;
        repeat split; intros; try reflexivity; lia.
    + repeat split; intros; try reflexivity; lia.
  - repeat split; intros; try reflexivity; lia.
Qed.

(** C9. [session_link_backend_dcb] adds one to the reference count and
    [session_unlink_backend_dcb] takes one away; [session_put_ref]
    takes one away and frees the session exactly when the count was 1,
    so goes to 0; a call that leaves a positive count frees nothing. *)
Theorem refcount_spec (SS_DEBUG : bool) (s : Session) :
  INT_MIN < refcount s < INT_MAX ->
  (forall b : BackendDCB,
     match session_link_backend_dcb SS_DEBUG b s with
     | Done (_, s') => refcount s' = refcount s + 1 /\ kept_by s s'
     | AssertFailed | Undefined => SS_DEBUG = true
     end) /\
  (forall d : positive,
     match session_unlink_backend_dcb SS_DEBUG d s with
     | Done (_, s') =>
         refcount s' = refcount s - 1 /\
         (freed_by s s' <-> refcount s = 1) /\
         (0 < refcount s' -> kept_by s s')
     | AssertFailed => SS_DEBUG = true /\ refcount s = 1 /\ m_down_open s = true
     | Undefined => False
     end) /\
  match session_put_ref SS_DEBUG (Some s) with
  | Done (_, Some s') =>
      refcount s' = refcount s - 1 /\
      (freed_by s s' <-> refcount s = 1 /\ refcount s' = 0) /\
      (0 < refcount s' -> kept_by s s')
  | Done (_, None) => False
  | AssertFailed => SS_DEBUG = true /\ refcount s = 1 /\ m_down_open s = true
  | Undefined => False
  end.
Proof.
  intros Hr.
  assert (Hfree : forall s0 s', trace s0 = trace s -> m_state s0 = m_state s ->
            refcount s <> 1 -> kept_by s0 s' -> ~ freed_by s s').
  { intros s0 s' Ht Hs Hne [Hk _] [Hf _]. rewrite Hk, Ht in Hf.
    apply (f_equal length) in Hf. rewrite length_app in Hf. simpl in Hf. lia. }
  split; [|split].
  - intros b. unfold session_link_backend_dcb, atomic_add_refcount, link_backend_dcb,
      client_connection_dcb, client_connection, kept_by.
    run_prog.
    destruct SS_DEBUG; run_prog.
    + destruct (m_client_conn s); run_prog; [|reflexivity].
      destruct (client_dcb s); run_prog; [|reflexivity].
      destruct (bool_decide _); run_prog; [|reflexivity].
      destruct (DCB.role_eqb _ _); run_prog; [|reflexivity].
      rewrite wrap_int_id by (unfold int_range, INT_MIN, INT_MAX in *; lia).
      repeat split; reflexivity.
    + rewrite wrap_int_id by (unfold int_range, INT_MIN, INT_MAX in *; lia).
      repeat split; reflexivity.
  - intros d. unfold session_unlink_backend_dcb, unlink_backend_dcb.
    unfold mbind at 1. unfold Prog_bind, modify.
    set (s0 := set_dcb_set (m_dcb_set s ∖ {[d]}) s).
    pose proof (session_put_ref_nonnull_outcome SS_DEBUG s0) as Hput.
    destruct (session_put_ref_nonnull SS_DEBUG s0) as [[[] s']| |];
      [|apply Hput; subst s0; fields; lia..].
    destruct Hput as (Hrc & _ & Hone & Hmany); [subst s0; fields; lia|].
    subst s0. fields. split; [assumption|]. split; [split|].
    + intros Hf. destruct (Z.eq_dec (refcount s) 1) as [E|E]; [assumption|].
      exfalso. eapply (Hfree (set_dcb_set (m_dcb_set s ∖ {[d]}) s) s'); eauto.
    + intros E. apply (Hone E).
    + intros Hpos. apply Hmany. lia.
  - unfold session_put_ref.
    pose proof (session_put_ref_nonnull_outcome SS_DEBUG s) as Hput.
    destruct (session_put_ref_nonnull SS_DEBUG s) as [[[] s']| |];
      [|apply Hput; lia..].
    destruct Hput as (Hrc & _ & Hone & Hmany); [lia|].
    split; [assumption|]. split; [split|].
    + intros Hf. destruct (Z.eq_dec (refcount s) 1) as [E|E]; [lia|].
      exfalso. eapply (Hfree s s'); eauto.
    + intros [E _]. apply (Hone E).
    + intros Hpos. apply Hmany. lia.
Qed.

Lemma refcount_spec_witness :
  (forall b : BackendDCB,
     match session_link_backend_dcb false b started_session with
     | Done (_, s') => refcount s' = refcount started_session + 1
                       /\ kept_by started_session s'
     | AssertFailed | Undefined => false = true
     end) /\
  (forall d : positive,
     match session_unlink_backend_dcb false d started_session with
     | Done (_, s') =>
         refcount s' = refcount started_session - 1 /\
         (freed_by started_session s' <-> refcount started_session = 1) /\
         (0 < refcount s' -> kept_by started_session s')
     | AssertFailed =>
         false = true /\ refcount started_session = 1
         /\ m_down_open started_session = true
     | Undefined => False
     end) /\
  match session_put_ref false (Some started_session) with
  | Done (_, Some s') =>
      refcount s' = refcount started_session - 1 /\
      (freed_by started_session s'
       <-> refcount started_session = 1 /\ refcount s' = 0) /\
      (0 < refcount s' -> kept_by started_session s')
  | Done (_, None) => False
  | AssertFailed =>
      false = true /\ refcount started_session = 1
      /\ m_down_open started_session = true
  | Undefined => False
  end.
Proof.
  apply (refcount_spec false started_session).
  unfold INT_MIN, INT_MAX. simpl. lia.
Defined.

(** The last reference: the client DCB lets go of a session no backend
    is attached to. *)
Example last_reference_frees :
  session_put_ref true (Some started_session)
  = Done (tt, Some (set_state FREE
                      (set_client_dcb_field None
                         (emit EvSessionFree (set_refcount 0 started_session))))).
Proof. reflexivity. Qed.

(** With a backend attached, the client's release leaves the session
    alive; the backend's release frees it. *)
Example backend_keeps_session_alive :
  exists s1 s2 s3,
    session_link_backend_dcb true backend0 started_session = Done (tt, s1) /\
    refcount s1 = 2 /\
    session_put_ref true (Some s1) = Done (tt, Some s2) /\
    refcount s2 = 1 /\ m_state s2 = STARTED /\ trace s2 = [] /\
    session_unlink_backend_dcb true 5%positive s2 = Done (tt, s3) /\
    refcount s3 = 0 /\ m_state s3 = FREE /\ trace s3 = [EvSessionFree].
Proof. do 3 eexists. repeat split; reflexivity. Qed.

(** * Further properties of the session *)

(** ** Session variables: what is accepted *)

Lemma strncasecmp_prefix_chars (name : string) :
  strncasecmp name PREFIX PREFIX_LEN = 0 <->
  exists rest, transform tolower name = ("@maxscale." +:+ rest)%string.
Proof.
  unfold PREFIX, PREFIX_LEN. split.
  - intros H.
    do 10 (destruct name as [|? name];
           [vm_compute in H; discriminate
           | apply strncasecmp_cons in H; destruct H as [? H]]).
    exists (transform tolower name). cbn [transform].
    repeat match goal with E : tolower _ = tolower _ |- _ => rewrite E; clear E end.
    reflexivity.
  - intros [rest H].
    do 10 (destruct name as [|? name]; [discriminate H|];
           cbn [transform] in H; injection H as ? H).
    cbn [strncasecmp].
    repeat match goal with E : tolower _ = _ |- _ => rewrite E; clear E end.
    destruct name; reflexivity.
Qed.

(** X1. [add_variable] stores the variable, under the lower-case form
    of its name, exactly when the name starts with "@maxscale." in any
    letter case and that lower-case form is not stored yet; otherwise it
    answers false, logs one error and stores nothing. *)
Theorem add_variable_accepts_iff (name : string) (h : session_variable_handler_t)
    (ctx : Context) (s : Session) :
  exists b s',
    add_variable name h ctx s = Done (b, s') /\
    (b = true <->
       (exists rest, transform tolower name = ("@maxscale." +:+ rest)%string) /\
       m_variables s !! transform tolower name = None) /\
    (b = true ->
       m_variables s' = <[transform tolower name := mk_variable h ctx]> (m_variables s) /\
       trace s' = trace s) /\
    (b = false ->
       m_variables s' = m_variables s /\
       exists msg, trace s' = trace s ++ [EvError msg]).
Proof.
  unfold add_variable. run_prog.
  destruct (strncasecmp name PREFIX PREFIX_LEN =? 0) eqn:Epre.
  - apply Z.eqb_eq, strncasecmp_prefix_chars in Epre.
    destruct (m_variables s !! transform tolower name) eqn:Efind; run_prog.
    + do 2 eexists. split; [reflexivity|]. fields. repeat split; try discriminate.
      * intros [_ H]. discriminate.
      * eexists. reflexivity.
    + do 2 eexists. split; [reflexivity|]. fields. repeat split; auto; discriminate.
  - apply Z.eqb_neq in Epre. rewrite strncasecmp_prefix_chars in Epre.
    do 2 eexists. split; [reflexivity|]. fields. repeat split; try discriminate.
    + intros [H _]. contradiction.
    + eexists. reflexivity.
Qed.

(** X2. Once a variable is stored, [add_variable] under any case
    variant of its name answers false and changes no variable, so that
    [set_variable_value] goes on calling the first handler with the
    first context. *)
Theorem add_variable_twice_keeps_first
    (s s1 : Session) (name name2 value : string)
    (h h2 : session_variable_handler_t) (ctx ctx2 : Context) (malloc_ok : bool) :
  add_variable name h ctx s = Done (true, s1) ->
  case_variant name2 name ->
  exists s2,
    add_variable name2 h2 ctx2 s1 = Done (false, s2) /\
    m_variables s2 = m_variables s1 /\
    set_variable_value malloc_ok name2 value s2
      = Done (h ctx (transform tolower name) value, s2).
Proof.
  intros Hadd Hvar.
  assert (Hpre : strncasecmp name PREFIX PREFIX_LEN = 0 /\
                 m_variables s1
                 = <[transform tolower name := mk_variable h ctx]> (m_variables s)).
  { unfold add_variable in Hadd.
    destruct (strncasecmp name PREFIX PREFIX_LEN =? 0) eqn:Epre;
      [|run_prog; discriminate Hadd].
    apply Z.eqb_eq in Epre. split; [assumption|].
    run_prog. destruct (m_variables s !! transform tolower name); run_prog;
      [discriminate Hadd|].
    injection Hadd as <-. reflexivity. }
  destruct Hpre as [Hpre Hvars].
  assert (Hstored : m_variables s1 !! transform tolower name2 = Some (mk_variable h ctx)).
  { unfold case_variant in Hvar. rewrite Hvar, Hvars. apply lookup_insert_eq. }
  assert (Hpre2 : (strncasecmp name2 PREFIX PREFIX_LEN =? 0) = true).
  { apply Z.eqb_eq. apply strncasecmp_prefix_chars.
    apply strncasecmp_prefix_chars in Hpre. unfold case_variant in Hvar.
    rewrite Hvar. exact Hpre. }
  unfold add_variable, set_variable_value. rewrite Hpre2. run_prog.
  rewrite Hstored. run_prog. eexists. split; [reflexivity|]. fields.
  split; [reflexivity|]. rewrite Hstored.
  unfold case_variant in Hvar. rewrite Hvar. reflexivity.
Qed.

Lemma add_variable_twice_keeps_first_witness :
  exists s2,
    add_variable "@MAXSCALE.cache" (fun _ _ _ => None) None
      (set_variables
         (<["@maxscale.cache" := mk_variable reject_all (Some 9%positive)]> ∅)
         (Session_new this_unit_init (-1)))
      = Done (false, s2) /\
    m_variables s2
      = <["@maxscale.cache" := mk_variable reject_all (Some 9%positive)]> ∅ /\
    set_variable_value true "@MAXSCALE.cache" "on" s2 = Done (Some "rejected", s2).
Proof.
  exact (add_variable_twice_keeps_first (Session_new this_unit_init (-1))
           (set_variables
              (<["@maxscale.cache" := mk_variable reject_all (Some 9%positive)]> ∅)
              (Session_new this_unit_init (-1)))
           "@maxscale.cache" "@MAXSCALE.cache" "on"
           reject_all (fun _ _ _ => None) (Some 9%positive) None true
           eq_refl eq_refl).
Defined.

(** X3. [set_variable_value] for a name that is not stored calls no
    handler and changes no variable: it logs a warning and answers the
    message "Attempt to set unknown MaxScale user variable" followed by
    the name as the caller wrote it, or null when the message cannot be
    allocated. *)
Theorem set_variable_value_unknown
    (s : Session) (name value : string) (malloc_ok : bool) :
  m_variables s !! transform tolower name = None ->
  exists s',
    set_variable_value malloc_ok name value s
      = Done (if malloc_ok
              then Some ("Attempt to set unknown MaxScale user variable " +:+ name)%string
              else None, s') /\
    m_variables s' = m_variables s /\
    trace s' = trace s
      ++ [EvWarning ("Attempt to set unknown MaxScale user variable " +:+ name)%string].
Proof.
  intros Hnone. unfold set_variable_value. run_prog. rewrite Hnone.
  eexists. split; [reflexivity|]. split; reflexivity.
Qed.

Lemma set_variable_value_unknown_witness :
  exists s',
    set_variable_value true "@MaxScale.Nope" "1" (Session_new this_unit_init (-1))
      = Done (Some "Attempt to set unknown MaxScale user variable @MaxScale.Nope", s') /\
    m_variables s' = ∅ /\
    trace s' = [EvWarning "Attempt to set unknown MaxScale user variable @MaxScale.Nope"].
Proof.
  apply (set_variable_value_unknown (Session_new this_unit_init (-1))
           "@MaxScale.Nope" "1" true).
  reflexivity.
Defined.

(** ** The ring of retained statements: requests and responses *)

Lemma retained_head (now : timespec) (pBuffer : option GWBUF) (s : Session) :
  m_retain_last_statements s <> 0 ->
  Z.of_nat (length (m_last_queries s)) <= m_retain_last_statements s ->
  retained now pBuffer s
    = QueryInfo.make now (gwbuf_clone pBuffer)
        :: (if m_retain_last_statements s <? Z.of_nat (S (length (m_last_queries s)))
            then pop_back (m_last_queries s) else m_last_queries s).
Proof.
  intros Hn Hlen. unfold retained.
  destruct (m_retain_last_statements s =? 0) eqn:E; [lia|].
  simpl length.
  destruct (m_retain_last_statements s <? _) eqn:El; [|reflexivity].
  apply Z.ltb_lt in El.
  destruct (m_last_queries s) as [|x q]; [simpl length in *; lia | reflexivity].
Qed.

(** [retain_statement] with the index given: the new entry goes in
    front; the index becomes 0 on a ring of one and moves up by one
    otherwise. *)
Lemma retain_statement_index (SS_DEBUG : bool) (now : timespec)
    (pBuffer : option GWBUF) (s : Session) :
  query_ring_wf s ->
  m_retain_last_statements s <> 0 ->
  -1 <= m_current_query s < INT_MAX ->
  (length (retained now pBuffer s) = 1%nat -> m_current_query s = -1) ->
  retain_statement SS_DEBUG now pBuffer s
    = Done (tt, set_current_query
                  (if Z.of_nat (length (retained now pBuffer s)) =? 1 then 0
                   else m_current_query s + 1)
                  (set_last_queries (retained now pBuffer s) s)).
Proof.
  intros [Hi He Hb] Hn Hidx Hone.
  assert (Hw : wrap_int (m_current_query s + 1) = m_current_query s + 1).
  { apply wrap_int_id. unfold int_range, INT_MIN, INT_MAX in *. lia. }
  assert (E1 : (Z.of_nat (length (m_last_queries s)) <=? m_retain_last_statements s) = true)
    by lia.
  assert (E2 : (0 <=? m_current_query s + 1) = true) by lia.
  assert (En : (m_retain_last_statements s =? 0) = false) by lia.
  revert Hone. unfold retain_statement, retained.
  set (new := QueryInfo.make now (gwbuf_clone pBuffer)).
  unfold when, mxb_assert, gets, modify, mbind, mret, Prog_bind, Prog_ret. fields.
  rewrite En. cbn [negb]. fields. rewrite E1. cbn [negb andb].
  rewrite andb_false_r. fields.
  destruct (m_retain_last_statements s <? Z.of_nat (length (new :: m_last_queries s)));
    fields; intros Hone.
  - destruct (Z.of_nat (length (pop_back (new :: m_last_queries s))) =? 1) eqn:E; fields.
    + apply Z.eqb_eq in E. rewrite (Hone ltac:(lia)).
      cbn. rewrite andb_false_r. reflexivity.
    + rewrite Hw, E2. cbn [negb]. rewrite andb_false_r. reflexivity.
  - destruct (Z.of_nat (length (new :: m_last_queries s)) =? 1) eqn:E; fields.
    + apply Z.eqb_eq in E. rewrite (Hone ltac:(lia)).
      cbn. rewrite andb_false_r. reflexivity.
    + rewrite Hw, E2. cbn [negb]. rewrite andb_false_r. reflexivity.
Qed.

(** One booking with the index inside the ring. *)
Lemma book_server_response_in_range (SS_DEBUG : bool) (now : timespec)
    (pServer : option SERVER) (final_response : bool) (s : Session)
    (info : QueryInfo.t) :
  m_retain_last_statements s <> 0 ->
  Z.of_nat (length (m_last_queries s)) <= INT_MAX ->
  0 <= m_current_query s ->
  m_last_queries s !! Z.to_nat (m_current_query s) = Some info ->
  QueryInfo.m_complete info = false ->
  existsb (QueryInfo.reports pServer) (QueryInfo.m_server_infos info) = false ->
  book_server_response SS_DEBUG now pServer final_response s
    = Done (tt, (if final_response
                 then set_current_query (m_current_query s - 1)
                 else fun s' => s')
                  (set_last_queries
                     (<[Z.to_nat (m_current_query s) := booked now pServer final_response info]>
                        (m_last_queries s)) s)).
Proof.
  intros Hn Hlen Hidx Hinfo Hinc Hnew.
  pose proof (lookup_lt_Some _ _ _ Hinfo) as Hlt.
  assert (Hne : m_last_queries s <> []).
  { intros E. rewrite E in Hlt. simpl in Hlt. lia. }
  unfold book_server_response. run_prog.
  assert (E1 : (m_retain_last_statements s =? 0) = false) by lia.
  rewrite E1, (bool_decide_eq_false_2 _ Hne). simpl.
  assert (E2 : (0 <=? m_current_query s) = true) by lia.
  rewrite E2, andb_false_r.
  assert (Hsize : size_as_int (m_last_queries s) = Z.of_nat (length (m_last_queries s))).
  { unfold size_as_int. apply wrap_int_id. unfold int_range, INT_MIN, INT_MAX in *. lia. }
  rewrite Hsize.
  assert (E3 : (m_current_query s <? Z.of_nat (length (m_last_queries s))) = true) by lia.
  rewrite E3.
  unfold on_query, deque_at, run_on, QueryInfo.book_server_response. run_prog.
  assert (E4 : (m_current_query s <? 0) = false) by lia.
  rewrite E4, Hinfo. run_prog.
  repeat (progress (rewrite ?Hinc, ?Hnew, ?andb_false_r; simpl)).
  run_prog. unfold booked.
  destruct final_response; run_prog; [|reflexivity].
  rewrite wrap_int_id by (unfold int_range, INT_MIN, INT_MAX in *; lia).
  assert (E5 : (-1 <=? m_current_query s - 1) = true) by lia.
  rewrite E5, andb_false_r. reflexivity.
Qed.

(** X4. One request and its response.  On an idle session (index -1)
    that retains statements, [retain_statement] followed by the final
    [book_server_response] leaves the new statement in front of the
    ring, complete, with that one server recorded and the completion
    time of the response, and the index at -1 again. *)
Theorem statement_cycle (SS_DEBUG : bool) (s : Session)
    (received answered : timespec) (pBuffer : option GWBUF) (pServer : option SERVER) :
  query_ring_wf s ->
  0 < m_retain_last_statements s <= INT_MAX ->
  m_current_query s = -1 ->
  exists s' rest,
    (retain_statement SS_DEBUG received pBuffer;;
     book_server_response SS_DEBUG answered pServer true) s = Done (tt, s') /\
    m_last_queries s'
      = QueryInfo.mk (gwbuf_clone pBuffer) received answered
          [QueryInfo.mk_info pServer answered] true :: rest /\
    retained received pBuffer s = QueryInfo.make received (gwbuf_clone pBuffer) :: rest /\
    m_current_query s' = -1.
Proof.
  intros Hwf Hn Hidle.
  pose proof Hwf as [Hi He Hb].
  pose proof (retained_head received pBuffer s ltac:(lia) Hb) as Hhead.
  set (rest := if m_retain_last_statements s <? _ then _ else _) in Hhead.
  pose proof (retained_length received pBuffer s Hb) as Hrlen.
  assert (Hretain :
    retain_statement SS_DEBUG received pBuffer s
      = Done (tt, set_current_query 0
                    (set_last_queries (retained received pBuffer s) s))).
  { rewrite (retain_statement_index SS_DEBUG received pBuffer s Hwf);
      [| lia | unfold INT_MAX; lia | intros _; assumption].
    rewrite Hidle. destruct (_ =? 1); reflexivity. }
  rewrite (bind_done _ _ _ _ _ Hretain).
  rewrite (book_server_response_in_range SS_DEBUG answered pServer true _
             (QueryInfo.make received (gwbuf_clone pBuffer))); fields; try lia;
    try (rewrite Hhead; reflexivity); try reflexivity.
  exists (set_current_query (0 - 1)
            (set_last_queries
               (<[Z.to_nat 0 := booked answered pServer true
                                  (QueryInfo.make received (gwbuf_clone pBuffer))]>
                  (retained received pBuffer s))
               (set_current_query 0
                  (set_last_queries (retained received pBuffer s) s)))), rest.
  split; [reflexivity|]. fields. rewrite Hhead. repeat split.
Qed.

Lemma statement_cycle_witness :
  exists s' rest,
    (retain_statement true (1, 0) (Some [Byte.x03]);;
     book_server_response true (2, 0) (Some 4%positive) true) retaining_two
      = Done (tt, s') /\
    m_last_queries s'
      = QueryInfo.mk (gwbuf_clone (Some [Byte.x03])) (1, 0) (2, 0)
          [QueryInfo.mk_info (Some 4%positive) (2, 0)] true :: rest /\
    retained (1, 0) (Some [Byte.x03]) retaining_two
      = QueryInfo.make (1, 0) (gwbuf_clone (Some [Byte.x03])) :: rest /\
    m_current_query s' = -1.
Proof.
  apply (statement_cycle true retaining_two (1, 0) (2, 0) (Some [Byte.x03])
           (Some 4%positive)).
  - apply Session_new_ring_wf. simpl. lia.
  - unfold INT_MAX. simpl. lia.
  - reflexivity.
Defined.

Lemma in_range_guard (s : Session) (info : QueryInfo.t) :
  m_retain_last_statements s <> 0 ->
  Z.of_nat (length (m_last_queries s)) <= INT_MAX ->
  0 <= m_current_query s ->
  m_last_queries s !! Z.to_nat (m_current_query s) = Some info ->
  (m_retain_last_statements s =? 0) = false /\
  bool_decide (m_last_queries s = []) = false /\
  (0 <=? m_current_query s) = true /\
  (m_current_query s <? size_as_int (m_last_queries s)) = true /\
  (m_current_query s <? 0) = false.
Proof.
  intros Hn Hlen Hidx Hinfo.
  pose proof (lookup_lt_Some _ _ _ Hinfo) as Hlt.
  assert (Hne : m_last_queries s <> []).
  { intros E. rewrite E in Hlt. simpl in Hlt. lia. }
  assert (Hsize : size_as_int (m_last_queries s) = Z.of_nat (length (m_last_queries s))).
  { unfold size_as_int. apply wrap_int_id. unfold int_range, INT_MIN, INT_MAX in *. lia. }
  rewrite Hsize, (bool_decide_eq_false_2 _ Hne). repeat split; lia.
Qed.

Lemma book_last_as_complete_in_range (SS_DEBUG : bool) (now : timespec) (s : Session)
    (info : QueryInfo.t) :
  m_retain_last_statements s <> 0 ->
  Z.of_nat (length (m_last_queries s)) <= INT_MAX ->
  0 <= m_current_query s ->
  m_last_queries s !! Z.to_nat (m_current_query s) = Some info ->
  book_last_as_complete SS_DEBUG now s
    = Done (tt, set_last_queries
                  (<[Z.to_nat (m_current_query s) := completed now info]>
                     (m_last_queries s)) s).
Proof.
  intros Hn Hlen Hidx Hinfo.
  destruct (in_range_guard s info Hn Hlen Hidx Hinfo) as (E1 & E2 & E3 & E4 & E5).
  unfold book_last_as_complete. run_prog.
  rewrite E1, E2. simpl. rewrite E3, E4. simpl. rewrite andb_false_r.
  unfold on_query, deque_at, run_on, QueryInfo.book_as_complete. run_prog.
  rewrite E5, Hinfo. reflexivity.
Qed.

Lemma reset_server_bookkeeping_in_range (SS_DEBUG : bool) (s : Session)
    (info : QueryInfo.t) :
  m_retain_last_statements s <> 0 ->
  Z.of_nat (length (m_last_queries s)) <= INT_MAX ->
  0 <= m_current_query s ->
  m_last_queries s !! Z.to_nat (m_current_query s) = Some info ->
  reset_server_bookkeeping SS_DEBUG s
    = Done (tt, set_last_queries
                  (<[Z.to_nat (m_current_query s) :=
                       QueryInfo.make (QueryInfo.m_received info) (QueryInfo.m_sQuery info)]>
                     (m_last_queries s)) s).
Proof.
  intros Hn Hlen Hidx Hinfo.
  destruct (in_range_guard s info Hn Hlen Hidx Hinfo) as (E1 & E2 & E3 & E4 & E5).
  unfold reset_server_bookkeeping. run_prog.
  rewrite E1, E2. simpl. rewrite E3, E4. simpl. rewrite andb_false_r.
  unfold on_query, deque_at, run_on, QueryInfo.reset_server_bookkeeping. run_prog.
  rewrite E5, Hinfo. reflexivity.
Qed.

Lemma set_last_queries_same (s : Session) :
  set_last_queries (m_last_queries s) s = s.
Proof. destruct s; reflexivity. Qed.

(** X5. Bookings that are not final are undone by
    [reset_server_bookkeeping]: on a statement as [retain_statement]
    stored it, any number of non-final [book_server_response] calls
    from different servers followed by the reset leaves the session as
    it was. *)
Theorem reset_server_bookkeeping_undoes_bookings (SS_DEBUG : bool) (s : Session)
    (received : timespec) (sQuery : option GWBUF)
    (responses : list (timespec * option SERVER)) :
  m_retain_last_statements s <> 0 ->
  Z.of_nat (length (m_last_queries s)) <= INT_MAX ->
  0 <= m_current_query s ->
  m_last_queries s !! Z.to_nat (m_current_query s)
    = Some (QueryInfo.make received sQuery) ->
  NoDup (map snd responses) ->
  (for_each (fun r => book_server_response SS_DEBUG r.1 r.2 false) responses;;
   reset_server_bookkeeping SS_DEBUG) s = Done (tt, s).
Proof.
  intros Hn Hlen Hidx Hinfo Hnodup.
  assert (Hgen : forall info,
            QueryInfo.m_received info = received ->
            QueryInfo.m_sQuery info = sQuery ->
            QueryInfo.m_complete info = false ->
            (forall r, In r (map snd responses) ->
               existsb (QueryInfo.reports r) (QueryInfo.m_server_infos info) = false) ->
            forall s0,
              m_retain_last_statements s0 = m_retain_last_statements s ->
              m_current_query s0 = m_current_query s ->
              length (m_last_queries s0) = length (m_last_queries s) ->
              m_last_queries s0 !! Z.to_nat (m_current_query s) = Some info ->
              set_last_queries
                (<[Z.to_nat (m_current_query s) := QueryInfo.make received sQuery]>
                   (m_last_queries s0)) s0 = s ->
              (for_each (fun r => book_server_response SS_DEBUG r.1 r.2 false) responses;;
               reset_server_bookkeeping SS_DEBUG) s0 = Done (tt, s)).
  { clear Hinfo. revert Hnodup.
    induction responses as [|[now p] rest IH];
      intros Hnodup info Hr Hq Hc Hfresh s0 Hn0 Hi0 Hl0 Hinfo0 Hback.
    - simpl for_each. unfold mbind at 1. unfold Prog_bind, mret, Prog_ret.
      rewrite (reset_server_bookkeeping_in_range SS_DEBUG s0 info);
        rewrite ?Hn0, ?Hi0, ?Hl0; try assumption.
      rewrite Hr, Hq. rewrite Hback. reflexivity.
    - simpl in Hnodup. apply NoDup_cons in Hnodup. destruct Hnodup as [Hnotin Hnodup].
      simpl for_each.
      assert (Hstep := book_server_response_in_range SS_DEBUG now p false s0 info).
      rewrite Hn0, Hi0, Hl0 in Hstep.
      specialize (Hstep Hn Hlen Hidx Hinfo0 Hc (Hfresh p (or_introl eq_refl))).
      simpl fst. simpl snd.
      unfold mbind at 1. unfold Prog_bind at 1.
      unfold mbind at 1. unfold Prog_bind at 1.
      rewrite Hstep.
      apply (IH Hnodup (booked now p false info)); fields; try assumption;
        try reflexivity.
      + intros r Hin. unfold booked. simpl.
        rewrite existsb_app, (Hfresh r (or_intror Hin)). simpl.
        unfold QueryInfo.reports. simpl.
        rewrite bool_decide_eq_false_2; [reflexivity|].
        intros ->. apply Hnotin. apply list_elem_of_In. assumption.
      + rewrite length_insert. assumption.
      + apply list_lookup_insert_eq. rewrite Hl0.
        apply (lookup_lt_Some _ _ _) in Hinfo0. rewrite <- Hl0. assumption.
      + rewrite list_insert_insert_eq. assumption. }
  apply (Hgen (QueryInfo.make received sQuery)); try reflexivity; try assumption.
  rewrite list_insert_id by assumption. apply set_last_queries_same.
Qed.

Lemma reset_server_bookkeeping_undoes_bookings_witness :
  (for_each (fun r => book_server_response true r.1 r.2 false)
     [((2, 0), Some 1%positive); ((3, 0), Some 2%positive)];;
   reset_server_bookkeeping true) one_in_flight = Done (tt, one_in_flight).
Proof.
  apply (reset_server_bookkeeping_undoes_bookings true one_in_flight (1, 0)
           (Some [Byte.x03])).
  - discriminate.
  - unfold INT_MAX. simpl. lia.
  - simpl. lia.
  - reflexivity.
  - apply (bool_decide_unpack _). vm_compute. exact I.
Defined.

(** X6. [book_last_as_complete] marks the statement under the index
    complete and leaves the index where it is.  With a ring of depth
    two or more and the index at 0, the [retain_statement] that follows
    therefore moves the index to 1, which is the statement just
    completed and not the new one: the next [book_server_response]
    stops at the assertion in a debug build, and in a release build
    books the server on the completed statement and leaves the new one
    without any. *)
Theorem book_last_as_complete_keeps_index (s : Session)
    (info : QueryInfo.t) (rest : list QueryInfo.t)
    (t1 t2 t3 : timespec) (pBuffer : option GWBUF) (pServer : option SERVER)
    (final_response : bool) :
  query_ring_wf s ->
  2 <= m_retain_last_statements s <= INT_MAX ->
  m_current_query s = 0 ->
  m_last_queries s = info :: rest ->
  forall SS_DEBUG, exists s2,
    (book_last_as_complete SS_DEBUG t1;; retain_statement SS_DEBUG t2 pBuffer) s
      = Done (tt, s2) /\
    m_current_query s2 = 1 /\
    m_last_queries s2 !! 0%nat = Some (QueryInfo.make t2 (gwbuf_clone pBuffer)) /\
    m_last_queries s2 !! 1%nat = Some (completed t1 info) /\
    book_server_response true t3 pServer final_response s2 = AssertFailed /\
    exists s3,
      book_server_response false t3 pServer final_response s2 = Done (tt, s3) /\
      m_last_queries s3 !! 0%nat = Some (QueryInfo.make t2 (gwbuf_clone pBuffer)) /\
      m_last_queries s3 !! 1%nat = Some (booked t3 pServer final_response (completed t1 info)).
Proof.
  intros Hwf Hn Hidx Hq SS_DEBUG.
  pose proof Hwf as [Hi He Hb].
  assert (Hlen : Z.of_nat (length (m_last_queries s)) <= INT_MAX) by lia.
  assert (Hinfo : m_last_queries s !! Z.to_nat (m_current_query s) = Some info).
  { rewrite Hidx, Hq. reflexivity. }
  pose proof (book_last_as_complete_in_range SS_DEBUG t1 s info
                ltac:(lia) Hlen ltac:(lia) Hinfo) as Hbook.
  rewrite Hidx, Hq in Hbook. simpl in Hbook.
  set (s1 := set_last_queries (completed t1 info :: rest) s) in *.
  assert (Hwf1 : query_ring_wf s1).
  { apply set_last_queries_ring_wf; [assumption|]. rewrite Hq. reflexivity. }
  assert (Hhead := retained_head t2 pBuffer s1 ltac:(subst s1; fields; lia)
                     ltac:(subst s1; fields; rewrite Hq in Hb; exact Hb)).
  assert (Hshape : exists rest',
            retained t2 pBuffer s1
              = QueryInfo.make t2 (gwbuf_clone pBuffer) :: completed t1 info :: rest').
  { rewrite Hhead. subst s1. fields.
    destruct (m_retain_last_statements s <? _) eqn:E.
    - apply Z.ltb_lt in E. simpl length in E.
      destruct rest as [|x rest]; [simpl length in E; lia|].
      eexists. reflexivity.
    - eexists. reflexivity. }
  destruct Hshape as [rest' Hshape].
  assert (Hretain :
    retain_statement SS_DEBUG t2 pBuffer s1
      = Done (tt, set_current_query 1 (set_last_queries (retained t2 pBuffer s1) s1))).
  { rewrite (retain_statement_index SS_DEBUG t2 pBuffer s1 Hwf1).
    - rewrite Hshape. subst s1. fields. rewrite Hidx.
      replace (Z.of_nat (length (_ :: _ :: rest')) =? 1) with false
        by (symmetry; apply Z.eqb_neq; simpl length; lia).
      reflexivity.
    - subst s1. fields. lia.
    - subst s1. fields. unfold INT_MAX. lia.
    - rewrite Hshape. simpl. discriminate. }
  set (s2 := set_current_query 1 (set_last_queries (retained t2 pBuffer s1) s1)) in *.
  exists s2. split.
  { rewrite (bind_done _ _ _ _ _ Hbook). exact Hretain. }
  assert (Hq2 : m_last_queries s2
                = QueryInfo.make t2 (gwbuf_clone pBuffer) :: completed t1 info :: rest').
  { subst s2. fields. exact Hshape. }
  assert (Hlen2 : Z.of_nat (length (m_last_queries s2)) <= INT_MAX).
  { pose proof (retained_length t2 pBuffer s1) as H. subst s2 s1. fields.
    rewrite Hq in Hb. specialize (H Hb). lia. }
  assert (Hinfo2 : m_last_queries s2 !! Z.to_nat (m_current_query s2)
                   = Some (completed t1 info)).
  { rewrite Hq2. reflexivity. }
  destruct (in_range_guard s2 (completed t1 info)) as (E1 & E2 & E3 & E4 & E5);
    [subst s2 s1; fields; lia | exact Hlen2 | subst s2; fields; lia | exact Hinfo2 |].
  split; [reflexivity|].
  split; [rewrite Hq2; reflexivity|].
  split; [rewrite Hq2; reflexivity|].
  split.
  - unfold book_server_response. run_prog.
    rewrite E1, E2. simpl. rewrite E4.
    unfold on_query, deque_at, run_on. run_prog.
    rewrite Hq2. reflexivity.
  - destruct final_response; eexists; (split; [|split]).
    all: try (unfold book_server_response; run_prog;
              rewrite E1, E2; simpl; rewrite E4;
              unfold on_query, deque_at, run_on, QueryInfo.book_server_response;
              run_prog; rewrite Hq2; simpl; reflexivity).
    all: reflexivity.
Qed.

Lemma one_in_flight_wf : query_ring_wf one_in_flight.
Proof.
  split; simpl.
  - unfold int_range, INT_MIN, INT_MAX. lia.
  - discriminate.
  - lia.
Defined.

Lemma book_last_as_complete_keeps_index_witness :
  exists s2,
    (book_last_as_complete false (5, 0);;
     retain_statement false (6, 0) (Some [Byte.x04])) one_in_flight
      = Done (tt, s2) /\
    m_current_query s2 = 1 /\
    m_last_queries s2 !! 0%nat
      = Some (QueryInfo.make (6, 0) (gwbuf_clone (Some [Byte.x04]))) /\
    m_last_queries s2 !! 1%nat
      = Some (completed (5, 0) (QueryInfo.make (1, 0) (Some [Byte.x03]))) /\
    book_server_response true (7, 0) (Some 1%positive) true s2 = AssertFailed /\
    exists s3,
      book_server_response false (7, 0) (Some 1%positive) true s2 = Done (tt, s3) /\
      m_last_queries s3 !! 0%nat
        = Some (QueryInfo.make (6, 0) (gwbuf_clone (Some [Byte.x04]))) /\
      m_last_queries s3 !! 1%nat
        = Some (booked (7, 0) (Some 1%positive) true
                  (completed (5, 0) (QueryInfo.make (1, 0) (Some [Byte.x03])))).
Proof.
  assert (Hdepth : 2 <= m_retain_last_statements one_in_flight <= INT_MAX).
  { unfold INT_MAX. simpl. lia. }
  exact (book_last_as_complete_keeps_index one_in_flight
           (QueryInfo.make (1, 0) (Some [Byte.x03])) []
           (5, 0) (6, 0) (7, 0) (Some [Byte.x04]) (Some 1%positive) true
           one_in_flight_wf Hdepth eq_refl eq_refl false).
Defined.

(** ** Termination, once *)

Lemma terminate_leaves_not_started (SS_DEBUG : bool) (error : option GWBUF)
    (s s1 : Session) :
  terminate SS_DEBUG error s = Done (tt, s1) -> m_state s1 <> STARTED.
Proof.
  unfold terminate, DCB_close_client_dcb, client_connection_dcb, client_connection.
  run_prog.
  destruct (State_eqb (m_state s) STARTED) eqn:Est.
  - intros Hrun Hst.
    assert (Hstop : forall o : Outcome (unit * Session),
              o = Done (tt, s1) ->
              (forall s', o = Done (tt, s') -> m_state s' = STOPPING) -> False).
    { intros o Ho Hall. specialize (Hall s1 Ho). congruence. }
    apply (Hstop _ Hrun). clear Hrun Hstop Hst. intros s'.
    destruct SS_DEBUG; run_prog;
      repeat (match goal with
              | |- context [match ?x with Some _ => _ | None => _ end] =>
                  destruct x; run_prog
              | |- context [if ?c then _ else _] => destruct c; run_prog
              end);
      try discriminate; intros [= <-]; reflexivity.
  - intros [= <-] Hst. rewrite Hst in Est. discriminate.
Qed.

(** X7. [terminate] acts once: whenever a call has returned, on any
    session and in any build, a further call, with or without an error
    buffer, changes nothing; the client is written to and its DCB
    closed at most once. *)
Theorem terminate_twice (SS_DEBUG : bool) (error error2 : option GWBUF)
    (s s1 : Session) :
  terminate SS_DEBUG error s = Done (tt, s1) ->
  terminate SS_DEBUG error2 s1 = Done (tt, s1).
Proof.
  intros Hrun. apply terminate_not_started.
  eapply terminate_leaves_not_started. exact Hrun.
Qed.

Lemma terminate_twice_witness :
  terminate true None (terminated (Some [Byte.x15]) client_dcb0 started_session)
  = Done (tt, terminated (Some [Byte.x15]) client_dcb0 started_session).
Proof.
  apply (terminate_twice true (Some [Byte.x15]) None started_session).
  reflexivity.
Defined.

(** X8. [handleError] on a session that is not [STARTED], one being
    stopped for instance, still writes the error to the client
    connection, closes nothing and changes nothing else. *)
Theorem handleError_not_started (SS_DEBUG : bool) (error : option GWBUF)
    (s : Session) (conn : ClientProtocol) :
  m_client_conn s = Some conn ->
  m_state s <> STARTED ->
  handleError SS_DEBUG error s = Done (false, emit (EvWrite (gwbuf_clone error)) s).
Proof.
  intros Hc Hst. unfold handleError.
  rewrite (bind_done _ _ _ _ _ (clientReply_writes error s conn Hc)).
  rewrite (bind_done _ _ _ _ _
             (terminate_not_started SS_DEBUG None
                (emit (EvWrite (gwbuf_clone error)) s) Hst)).
  reflexivity.
Qed.

Lemma handleError_not_started_witness :
  handleError true (Some [Byte.x16])
    (terminated (Some [Byte.x15]) client_dcb0 started_session)
  = Done (false, emit (EvWrite (Some [Byte.x16]))
                   (terminated (Some [Byte.x15]) client_dcb0 started_session)).
Proof.
  apply (handleError_not_started true (Some [Byte.x16])
           (terminated (Some [Byte.x15]) client_dcb0 started_session) protocol0).
  - reflexivity.
  - discriminate.
Defined.

(** ** References taken and given back *)

Lemma get_ref_then_put_ref (SS_DEBUG : bool) (s : Session) :
  0 < refcount s < INT_MAX ->
  (session_get_ref;; session_put_ref_nonnull SS_DEBUG) s = Done (tt, s).
Proof.
  unfold session_get_ref, session_put_ref_nonnull, atomic_add_refcount,
    session_free, Session_destroy.
  intros Hr. run_prog.
  rewrite (wrap_int_id (refcount s + 1))
    by (unfold int_range, INT_MIN, INT_MAX in *; lia).
  assert (E : (refcount s + 1 =? 1) = false) by lia.
  rewrite E.
  rewrite wrap_int_id by (unfold int_range, INT_MIN, INT_MAX in *; lia).
  replace (refcount s + 1 + -1) with (refcount s) by lia.
  destruct s; reflexivity.
Qed.

(** X9. A reference taken with [session_get_ref] and given back with
    [session_put_ref] leaves a session that was referenced already as
    it was: the count is the same and nothing is freed.  On a count of
    0 the same pair of calls frees the session. *)
Theorem get_ref_put_ref_balanced (SS_DEBUG : bool) (s : Session) :
  (0 < refcount s < INT_MAX ->
   (session_get_ref;; session_put_ref_nonnull SS_DEBUG) s = Done (tt, s)) /\
  (refcount s = 0 ->
   (session_get_ref;; session_put_ref_nonnull false) s
     = Done (tt, set_state FREE
                   (set_client_dcb_field None
                      (emit EvSessionFree s)))).
Proof.
  split; [apply get_ref_then_put_ref|].
  unfold session_get_ref, session_put_ref_nonnull, atomic_add_refcount,
    session_free, Session_destroy.
  intros Hz. run_prog. rewrite Hz. simpl.
  destruct s; simpl in *; subst; reflexivity.
Qed.

Lemma get_ref_put_ref_balanced_witness :
  (session_get_ref;; session_put_ref_nonnull true) started_session
  = Done (tt, started_session).
Proof.
  apply (proj1 (get_ref_put_ref_balanced true started_session)).
  unfold INT_MAX. simpl. lia.
Defined.

(** ** Routing without a stored response *)

(** X10. [routeQuery] hands back what the filter chain returned,
    whether or not a response is delivered; and when the chain stored
    no response buffer it delivers nothing: the session is as the chain
    left it. *)
Theorem routeQuery_returns_chain_value (SS_DEBUG : bool) (now : timespec)
    (down : option GWBUF -> Prog Session Z) (buffer : option GWBUF) (s : Session) :
  (forall rv s', routeQuery SS_DEBUG now down buffer s = Done (rv, s') ->
     exists s1, down buffer s = Done (rv, s1)) /\
  (forall rv s1, down buffer s = Done (rv, s1) ->
     Response.buffer (response s1) = None ->
     routeQuery SS_DEBUG now down buffer s = Done (rv, s1)).
Proof.
  unfold routeQuery. split.
  - intros rv s'. unfold mbind at 1. unfold Prog_bind at 1.
    destruct (down buffer s) as [[rv1 s1]| |]; try discriminate.
    unfold mbind at 1. unfold Prog_bind at 1. unfold gets at 1.
    unfold mbind at 1. unfold Prog_bind at 1.
    destruct (match Response.buffer (response s1) with
              | Some _ => deliver_response SS_DEBUG now
              | None => mret tt
              end s1) as [[[] s2]| |]; try discriminate.
    intros [= <- <-]. exists s1. reflexivity.
  - intros rv s1 Hdown Hnone.
    rewrite (bind_done _ _ _ _ _ Hdown). run_prog. rewrite Hnone. reflexivity.
Qed.

Lemma routeQuery_returns_chain_value_witness :
  routeQuery true (5, 0) refuse_all (Some [Byte.x03]) started_session
  = Done (0, started_session).
Proof.
  exact (proj2 (routeQuery_returns_chain_value true (5, 0) refuse_all (Some [Byte.x03])
                  started_session)
           0 started_session eq_refl eq_refl).
Defined.

(** ** The read queue handed over *)

(** X11. What [readq_set] stored on a DCB without read queue,
    [readq_release] hands back, leaving the DCB without read queue as
    before; a second [readq_release] hands back null. *)
Theorem readq_set_release_round_trip (SS_DEBUG : bool) (buffer : option GWBUF)
    (d : DCB.t) :
  DCB.m_readq d = None ->
  (DCB.readq_set SS_DEBUG buffer;; DCB.readq_release) d = Done (buffer, d) /\
  (DCB.readq_set SS_DEBUG buffer;; DCB.readq_release;; DCB.readq_release) d
    = Done (None, d).
Proof.
  intros Hq. unfold DCB.readq_set, DCB.readq_release. 
  unfold mxb_assert, gets, modify, mbind, mret, Prog_bind, Prog_ret.
  rewrite Hq. simpl. rewrite andb_false_r. unfold DCB.set_readq. simpl.
  rewrite <- Hq. destruct d; split; reflexivity.
Qed.

Lemma readq_set_release_round_trip_witness :
  (DCB.readq_set true (Some [Byte.x07]);; DCB.readq_release) client_dcb0
    = Done (Some [Byte.x07], client_dcb0) /\
  (DCB.readq_set true (Some [Byte.x07]);; DCB.readq_release;; DCB.readq_release)
    client_dcb0 = Done (None, client_dcb0).
Proof.
  apply (readq_set_release_round_trip true (Some [Byte.x07]) client_dcb0).
  reflexivity.
Defined.

(** ** Session ids *)

Lemma session_ids_run (n : nat) (u : this_unit_t) :
  0 <= next_session_id u ->
  next_session_id u + Z.of_nat n <= 2 ^ 64 ->
  exists u',
    session_ids n u
      = Done (map (fun i => next_session_id u + Z.of_nat i) (seq 0 n), u').
Proof.
  revert u. induction n as [|n IH]; intros u Hlo Hhi.
  - exists u. reflexivity.
  - cbn [session_ids].
    unfold session_get_next_id, gets, modify, mbind, mret, Prog_bind, Prog_ret.
    cbn beta iota.
    set (u1 := mk_this_unit _ _ _ _).
    destruct n as [|n].
    + exists u1. cbn. rewrite Z.add_0_r. reflexivity.
    + assert (Hnext : next_session_id u1 = next_session_id u + 1).
      { subst u1. cbn. unfold wrap_u64. apply Z.mod_small. lia. }
      destruct (IH u1) as (u' & Hrun); [rewrite Hnext; lia..|].
      rewrite Hrun. exists u'. rewrite Hnext. do 2 f_equal.
      change (seq 0 (S (S n))) with (0%nat :: seq 1 (S n)).
      rewrite <- seq_shift, map_cons, map_map. f_equal; [lia|].
      apply map_ext. intros i. lia.
Qed.

(** X12. Session ids are handed out in sequence: as long as the 64-bit
    counter does not wrap, [n] calls of [session_get_next_id] give
    [n] consecutive ids, all different, starting with the value of the
    counter; from the initial counter, 1, none of them is the reserved
    id 0. *)
Theorem session_ids_distinct (n : nat) (u : this_unit_t) :
  0 <= next_session_id u ->
  next_session_id u + Z.of_nat n <= 2 ^ 64 ->
  exists ids u',
    session_ids n u = Done (ids, u') /\
    NoDup ids /\
    (forall i : nat, (i < n)%nat -> ids !! i = Some (next_session_id u + Z.of_nat i)) /\
    (0 < next_session_id u -> 0 ∉ ids).
Proof.
  intros Hlo Hhi.
  destruct (session_ids_run n u Hlo Hhi) as (u' & Hrun).
  eexists _, u'. split; [exact Hrun|]. split; [|split].
  - apply NoDup_fmap_2_strong.
    + intros i j _ _ H. lia.
    + apply NoDup_seq.
  - intros i Hi. rewrite list_lookup_fmap, lookup_seq_lt by assumption. reflexivity.
  - intros Hpos Hin. apply list_elem_of_fmap in Hin. destruct Hin as (i & H0 & _). lia.
Qed.

Lemma session_ids_distinct_witness :
  exists ids u',
    session_ids 3 this_unit_init = Done (ids, u') /\
    NoDup ids /\
    (forall i : nat, (i < 3)%nat -> ids !! i = Some (1 + Z.of_nat i)) /\
    (0 < 1 -> 0 ∉ ids).
Proof.
  apply (session_ids_distinct 3 this_unit_init); simpl; lia.
Defined.

(** ** Delayed routing *)

Lemma on_session_done {A : Type} (m : Prog Session A) (w : Routing)
    (a : A) (s' : Session) :
  m (r_session w) = Done (a, s') ->
  on_session m w = Done (a, mk_routing s' (r_calls w)).
Proof. intros H. unfold on_session. rewrite H. reflexivity. Qed.

(** X13. The callback of a delayed routing consumes the buffer once
    and gives the reference of the task back.  When it is told to
    execute and the session is [STARTED], the buffer goes to the
    downstream [routeQuery], a hangup is triggered on the client DCB if
    that answers 0, and nothing is left to free; in every other case the
    buffer is freed unrouted.  Either way the session is released once
    and the callback answers false. *)
Theorem delayed_routing_cb_consumes (SS_DEBUG : bool)
    (down : option GWBUF -> Prog Session Z) (action : action_t)
    (buffer : option GWBUF) (w : Routing) :
  (action = EXECUTE -> m_state (r_session w) = STARTED ->
   forall rv s1 s2,
     down buffer (r_session w) = Done (rv, s1) ->
     (rv = 0 -> exists conn d, m_client_conn s1 = Some conn /\ client_dcb s1 = Some d) ->
     session_put_ref_nonnull SS_DEBUG s1 = Done (tt, s2) ->
     delayed_routing_cb SS_DEBUG down action (mk_task buffer) w
       = Done (false,
               mk_routing s2
                 (r_calls w ++ [CallRoute buffer]
                  ++ (if rv =? 0 then [CallHangup] else [])
                  ++ [CallFree None]))) /\
  (action <> EXECUTE \/ m_state (r_session w) <> STARTED ->
   forall s2,
     session_put_ref_nonnull SS_DEBUG (r_session w) = Done (tt, s2) ->
     delayed_routing_cb SS_DEBUG down action (mk_task buffer) w
       = Done (false, mk_routing s2 (r_calls w ++ [CallFree buffer]))).
Proof.
  split.
  - intros -> Hst rv s1 s2 Hdown Hdcb Hput.
    unfold delayed_routing_cb, DelayedRoutingTask_execute, DelayedRoutingTask_delete,
      call, on_session, client_connection_dcb, client_connection.
    run_prog. rewrite Hst. simpl. rewrite Hdown.
    destruct (rv =? 0) eqn:E; run_prog.
    + apply Z.eqb_eq in E. destruct (Hdcb E) as (conn & d & Hc & Hd).
      rewrite Hc. run_prog. rewrite Hd. run_prog. rewrite Hput.
      cbn [r_session r_calls app]. rewrite <- !app_assoc. reflexivity.
    + rewrite Hput. cbn [r_session r_calls app]. rewrite <- !app_assoc. reflexivity.
  - intros Hnot s2 Hput.
    unfold delayed_routing_cb, DelayedRoutingTask_execute, DelayedRoutingTask_delete,
      call, on_session.
    destruct action; run_prog.
    + destruct (State_eqb (m_state (r_session w)) STARTED) eqn:E.
      * apply State_eqb_eq in E. destruct Hnot as [H|H]; contradiction.
      * run_prog. rewrite Hput. reflexivity.
    + rewrite Hput. reflexivity.
Qed.

Lemma delayed_routing_cb_consumes_witness :
  delayed_routing_cb true refuse_all EXECUTE (mk_task (Some [Byte.x03]))
    (mk_routing (set_refcount 2 started_session) [])
  = Done (false,
          mk_routing started_session
            [CallRoute (Some [Byte.x03]); CallHangup; CallFree None]).
Proof.
  apply (proj1 (delayed_routing_cb_consumes true refuse_all EXECUTE (Some [Byte.x03])
                  (mk_routing (set_refcount 2 started_session) []))
           eq_refl eq_refl 0 (set_refcount 2 started_session) started_session).
  - reflexivity.
  - intros _. exists protocol0, client_dcb0. split; reflexivity.
  - reflexivity.
Defined.



(** * Properties of the smart router session *)

(** ** Creation: the master first *)

Lemma swap_first_perm {A : Type} (a b : A) (l : list A) (j : nat) :
  l !! j = Some b -> Permutation (b :: <[j := a]> l) (a :: l).
Proof.
  revert j. induction l as [|x l IH]; intros j Hj; [discriminate|].
  destruct j as [|j]; simpl in *.
  - injection Hj as ->. apply perm_swap.
  - transitivity (x :: b :: <[j := a]> l); [apply perm_swap|].
    transitivity (x :: a :: l); [|apply perm_swap].
    apply perm_skip. apply IH. assumption.
Qed.

Lemma create_loop_spec {T : Type} {PT : Smart.PacketTracker T}
    (pMaster : option Smart.Target) (es : list Smart.Endpoint) :
  forall (acc : list (Smart.Cluster T)) (master_pos i : Z),
    i = Z.of_nat (length acc) ->
    Z.of_nat (length acc + length es) <= INT_MAX ->
    master_at acc master_pos ->
    exists master_pos',
      Smart.create_loop pMaster es acc master_pos i
        = (acc ++ map (cluster_of pMaster) (connected es),
           master_pos') /\
      master_at
        (acc ++ map (cluster_of pMaster) (connected es))
        master_pos'.
Proof.
  induction es as [|e es IH]; intros acc master_pos i Hi Hlen Hinv.
  - exists master_pos. unfold connected. simpl. rewrite app_nil_r. split; [reflexivity | assumption].
  - cbn [Smart.create_loop]. unfold connected in *. rewrite filter_cons.
    destruct (Smart.ep_connects e) eqn:Econ.
    + rewrite decide_True by reflexivity.
      destruct (IH (acc ++ [cluster_of pMaster e])
                  (if bool_decide (Smart.ep_target e = pMaster) then i else master_pos)
                  (wrap_int (i + 1))) as (mp & Hrun & Hinv').
      * rewrite wrap_int_id.
        -- rewrite length_app. simpl. lia.
        -- unfold int_range, INT_MIN, INT_MAX in *. simpl length in Hlen. lia.
      * rewrite length_app. simpl length in *. lia.
      * destruct (bool_decide (Smart.ep_target e = pMaster)) eqn:Em.
        -- right. split; [lia|]. exists (cluster_of pMaster e). split.
           ++ rewrite Hi, Nat2Z.id. rewrite lookup_app_r by lia.
              rewrite Nat.sub_diag. reflexivity.
           ++ unfold cluster_of. simpl. assumption.
        -- destruct Hinv as [[-> Hall]|(Hpos & c & Hc & Hm)].
           ++ left. split; [reflexivity|]. apply Forall_app. split; [assumption|].
              constructor; [|constructor]. unfold cluster_of. simpl. assumption.
           ++ right. split; [assumption|]. exists c. split; [|assumption].
              apply lookup_app_l_Some. assumption.
      * exists mp. cbn [map]. rewrite <- app_assoc in Hrun, Hinv'.
        split; assumption.
    + rewrite decide_False by discriminate.
      apply IH; try assumption. simpl length in Hlen. lia.
Qed.

(** X15. [SmartRouterSession::create] tries to connect every endpoint,
    once and in order, and closes none.  A session is created exactly
    when some endpoint that connected has the master as its target; its
    clusters are then the connected endpoints, each flagged as master
    or not by its target and not replying, with a master cluster in
    first place. *)
Theorem create_puts_master_first {T : Type} {PT : Smart.PacketTracker T}
    (pMaster : option Smart.Target)
    (pEndpoints : list Smart.Endpoint) :
  Z.of_nat (length pEndpoints) <= INT_MAX ->
  exists result,
    Smart.create pMaster pEndpoints
      = Done (map (fun e => Smart.Connect (Smart.ep_id e)) pEndpoints
              ++ match result with Some _ => [] | None => [Smart.LogError] end,
              result) /\
    (result = None <->
       forall e, e ∈ pEndpoints -> Smart.ep_connects e = true ->
                 Smart.ep_target e <> pMaster) /\
    (forall clusters, result = Some clusters ->
       (exists c rest, clusters = c :: rest /\ Smart.is_master c = true) /\
       Permutation clusters
         (map (cluster_of pMaster) (connected pEndpoints))).
Proof.
  intros Hlen.
  destruct (create_loop_spec pMaster pEndpoints [] (-1) 0) as (mp & Hrun & Hinv).
  { reflexivity. }
  { simpl. lia. }
  { left. split; [reflexivity | constructor]. }
  simpl app in *.
  assert (Hnone : Forall (fun c => Smart.is_master c = false)
                    (map (cluster_of pMaster) (connected pEndpoints)) <->
                  forall e, e ∈ pEndpoints -> Smart.ep_connects e = true ->
                            Smart.ep_target e <> pMaster).
  { rewrite Forall_fmap, Forall_forall. unfold connected. split.
    - intros H e He Hc Ht. specialize (H e). simpl in H.
      rewrite bool_decide_eq_false in H. apply H; [|assumption].
      apply list_elem_of_filter. split; assumption.
    - intros H e He. apply list_elem_of_filter in He. destruct He as [Hc He].
      simpl. apply bool_decide_eq_false. apply H; assumption. }
  unfold Smart.create. rewrite Hrun.
  destruct Hinv as [[-> Hall]|(Hpos & c & Hc & Hm)].
  - exists None. simpl. split; [reflexivity|]. split.
    + split; [intros _; apply Hnone; assumption | reflexivity].
    + discriminate.
  - assert (Hsome : ~ (forall e, e ∈ pEndpoints -> Smart.ep_connects e = true ->
                                 Smart.ep_target e <> pMaster)).
    { intros H. apply Hnone in H. rewrite Forall_forall in H.
      rewrite (H c) in Hm; [discriminate|]. eapply list_elem_of_lookup_2. exact Hc. }
    assert (E1 : (mp =? -1) = false) by lia. rewrite E1. simpl negb.
    destruct (0 <? mp) eqn:E2.
    + unfold Smart.swap_with_first.
      assert (E3 : (mp <? 0) = false) by lia. rewrite E3.
      destruct (map (cluster_of pMaster) (connected pEndpoints)) as [|a l] eqn:El;
        [rewrite lookup_nil in Hc; discriminate|].
      simpl lookup at 1. cbv iota. rewrite Hc.
      exists (Some (<[Z.to_nat mp := a]> (<[0%nat := c]> (a :: l)))).
      rewrite app_nil_r. split; [reflexivity|]. split.
      * split; [discriminate | intros H; contradiction].
      * intros clusters [= <-].
        destruct (Z.to_nat mp) as [|j] eqn:Ej; [lia|]. simpl in *.
        split; [eexists _, _; split; [reflexivity | assumption]|].
        apply swap_first_perm. assumption.
    + assert (mp = 0) by lia. subst mp. simpl in Hc.
      exists (Some (map (cluster_of pMaster) (connected pEndpoints))).
      rewrite app_nil_r. split; [reflexivity|]. split.
      * split; [discriminate | intros H; contradiction].
      * intros clusters [= <-]. split; [|reflexivity].
        destruct (map (cluster_of pMaster) (connected pEndpoints)) as [|a l]; [discriminate|].
        injection Hc as ->. eexists _, _. split; [reflexivity | assumption].
Qed.

Lemma create_puts_master_first_witness :
  exists result : option (list (Smart.Cluster Counting)),
    Smart.create (Some 13%positive) [replica_endpoint; down_endpoint; master_endpoint]
      = Done (map (fun e => Smart.Connect (Smart.ep_id e))
                [replica_endpoint; down_endpoint; master_endpoint]
              ++ match result with Some _ => [] | None => [Smart.LogError] end,
              result) /\
    (result = None <->
       forall e, e ∈ [replica_endpoint; down_endpoint; master_endpoint] ->
                 Smart.ep_connects e = true ->
                 Smart.ep_target e <> Some 13%positive) /\
    (forall clusters, result = Some clusters ->
       (exists c rest, clusters = c :: rest /\ Smart.is_master c = true) /\
       Permutation clusters
         (map (cluster_of (Some 13%positive))
            (connected [replica_endpoint; down_endpoint; master_endpoint]))).
Proof.
  apply (create_puts_master_first (PT := counting_tracker) (Some 13%positive)
           [replica_endpoint; down_endpoint; master_endpoint]).
  unfold INT_MAX. simpl. lia.
Defined.

Example create_swaps_master_to_front :
  Smart.create (PT := counting_tracker) (Some 13%positive) [replica_endpoint; down_endpoint; master_endpoint]
  = Done ([Smart.Connect 1%positive; Smart.Connect 2%positive; Smart.Connect 3%positive],
          Some [Smart.mk_cluster master_endpoint true false (counting 0 0 false);
                Smart.mk_cluster replica_endpoint false false (counting 0 0 false)]).
Proof. reflexivity. Qed.

(** ** Writing to the clusters *)

Lemma write_to_all_loop_spec {T : Type} {PT : Smart.PacketTracker T}
    (pBuf : option GWBUF) :
  forall (todo done : list (Smart.Cluster T)) (success : bool) (s : Smart.t T),
    Smart.m_clusters s = done ++ todo ->
    Smart.write_to_all_loop pBuf todo (length done) success s
    = Done (success && forallb (fun c => takes c (gwbuf_clone pBuf)) todo,
            Smart.mk (Smart.m_mode s) (done ++ map (reset_for pBuf) todo)
              (Smart.m_pDelayed_packet s) (Smart.m_measurement s)
              (Smart.client_session s)
              (Smart.calls s ++ map (routed_to (gwbuf_clone pBuf)) todo)).
Proof.
  induction todo as [|a rest IH]; intros done success s Hcs.
  - simpl. rewrite andb_true_r. rewrite (app_nil_r done) in *.
    rewrite (app_nil_r (Smart.calls s)). rewrite <- Hcs. destruct s. reflexivity.
  - cbn [Smart.write_to_all_loop]. smart_run.
    rewrite Hcs.
    replace (<[length done := Smart.mk_cluster (Smart.pBackend a) (Smart.is_master a) false
                                (Smart.tracker_of_request pBuf)]> (done ++ a :: rest))
      with ((done ++ [reset_for pBuf a]) ++ rest).
    2:{ rewrite insert_app_r_alt by lia. rewrite Nat.sub_diag. simpl.
        rewrite <- app_assoc. reflexivity. }
    match goal with
    | |- Smart.write_to_all_loop _ _ _ ?b ?s1 = _ =>
        specialize (IH (done ++ [reset_for pBuf a]) b s1)
    end.
    rewrite length_app in IH. simpl length in IH. rewrite Nat.add_1_r in IH.
    rewrite IH by reflexivity. smart_fields. cbn [map forallb].
    rewrite <- !app_assoc. cbn [app].
    unfold takes at 2, reset_for at 2, routed_to at 2. smart_fields.
    destruct (Smart.ep_routes (Smart.pBackend a) (gwbuf_clone pBuf) =? 0);
      destruct success; reflexivity.
Qed.

Lemma write_to_all_run {T : Type} {PT : Smart.PacketTracker T}
    (pBuf : option GWBUF) (mode : Smart.Mode) (s : Smart.t T) :
  Smart.write_to_all pBuf mode s
  = Done (forallb (fun c => takes c (gwbuf_clone pBuf)) (Smart.m_clusters s),
          Smart.mk
            (if negb (bool_decide (Smart.m_clusters s = []))
                && Smart.expecting_response_packets (Smart.tracker_of_request pBuf)
             then mode else Smart.m_mode s)
            (map (reset_for pBuf) (Smart.m_clusters s))
            (Smart.m_pDelayed_packet s) (Smart.m_measurement s)
            (Smart.client_session s)
            (Smart.calls s ++ map (routed_to (gwbuf_clone pBuf)) (Smart.m_clusters s)
             ++ [Smart.Free pBuf])).
Proof.
  unfold Smart.write_to_all.
  unfold mbind at 1 2, Prog_bind, gets. cbn beta iota.
  pose proof (write_to_all_loop_spec pBuf (Smart.m_clusters s) [] true s eq_refl) as Hloop.
  cbn [length app andb] in Hloop. rewrite Hloop. smart_run.
  unfold Smart.session_expecting_response_packets. smart_fields.
  assert (Hex : forall l : list (Smart.Cluster T),
             existsb (fun c => Smart.expecting_response_packets (Smart.tracker c))
               (map (reset_for pBuf) l)
             = negb (bool_decide (l = []))
               && Smart.expecting_response_packets (Smart.tracker_of_request pBuf)).
  { induction l as [|c l IH]; [reflexivity|].
    rewrite bool_decide_eq_false_2 by discriminate. cbn [map existsb negb andb].
    rewrite IH. unfold reset_for at 1. smart_fields.
    destruct (Smart.expecting_response_packets (Smart.tracker_of_request pBuf));
      [reflexivity|]. rewrite andb_false_r. reflexivity. }
  rewrite Hex.
  destruct (negb (bool_decide (Smart.m_clusters s = []))
            && Smart.expecting_response_packets (Smart.tracker_of_request pBuf));
    smart_run; unfold Smart.set_mode, Smart.do_call; smart_fields;
    rewrite <- ?app_assoc; reflexivity.
Qed.

(** X16. [write_to_all] reaches every cluster, also after a backend
    has refused the buffer: each cluster gets a fresh tracker for the
    buffer and is taken off the reply, each backend is handed one clone,
    in order, and the buffer itself is freed once, after the last
    clone.  The result tells whether every backend took its clone, and
    the mode changes only if the new tracker expects a response. *)
Theorem write_to_all_reaches_every_cluster {T : Type} {PT : Smart.PacketTracker T}
    (pBuf : option GWBUF) (mode : Smart.Mode) (s : Smart.t T) :
  exists s',
    Smart.write_to_all pBuf mode s
      = Done (forallb (fun c => takes c (gwbuf_clone pBuf)) (Smart.m_clusters s), s') /\
    Smart.m_clusters s' = map (reset_for pBuf) (Smart.m_clusters s) /\
    Smart.calls s'
      = Smart.calls s ++ map (routed_to (gwbuf_clone pBuf)) (Smart.m_clusters s)
        ++ [Smart.Free pBuf] /\
    Smart.m_mode s'
      = (if negb (bool_decide (Smart.m_clusters s = []))
            && Smart.expecting_response_packets (Smart.tracker_of_request pBuf)
         then mode else Smart.m_mode s) /\
    Smart.m_pDelayed_packet s' = Smart.m_pDelayed_packet s /\
    Smart.client_session s' = Smart.client_session s.
Proof.
  rewrite write_to_all_run. eexists. split; [reflexivity|].
  smart_fields. repeat split; reflexivity.
Qed.

Lemma write_split_loop_all {T : Type} {PT : Smart.PacketTracker T}
    (pBuf : option GWBUF) :
  forall (todo done : list (Smart.Cluster T)) (s : Smart.t T),
    Smart.m_clusters s = done ++ todo ->
    Forall (fun c => wants_request c = true -> takes c (gwbuf_clone pBuf) = true) todo ->
    Smart.write_split_loop pBuf todo (length done) s
    = Done (true,
            Smart.mk (Smart.m_mode s)
              (done ++ map (fun c => if wants_request c then fed pBuf c else c) todo)
              (Smart.m_pDelayed_packet s) (Smart.m_measurement s)
              (Smart.client_session s)
              (Smart.calls s
               ++ map (routed_to (gwbuf_clone pBuf))
                    (filter (fun c => wants_request c = true) todo))).
Proof.
  induction todo as [|a rest IH]; intros done s Hcs Hall.
  - simpl. rewrite (app_nil_r done) in *.
    rewrite (app_nil_r (Smart.calls s)). rewrite <- Hcs. destruct s. reflexivity.
  - inversion Hall as [|? ? Ha Hrest]; subst.
    cbn [Smart.write_split_loop]. rewrite filter_cons. cbn [map].
    change (Smart.expecting_request_packets (Smart.tracker a)) with (wants_request a).
    destruct (wants_request a) eqn:Ew.
    + rewrite decide_True by reflexivity. specialize (Ha eq_refl).
      unfold takes in Ha. smart_run. rewrite Ha. cbn iota.
      rewrite Hcs.
      replace (<[length done := Smart.mk_cluster (Smart.pBackend a) (Smart.is_master a)
                                  (Smart.is_replying_to_client a)
                                  (Smart.update_request (Smart.tracker a) pBuf)]>
                 (done ++ a :: rest))
        with ((done ++ [fed pBuf a]) ++ rest).
      2:{ rewrite insert_app_r_alt by lia. rewrite Nat.sub_diag. simpl.
          rewrite <- app_assoc. reflexivity. }
      match goal with
      | |- Smart.write_split_loop _ _ _ ?s1 = _ =>
          specialize (IH (done ++ [fed pBuf a]) s1)
      end.
      rewrite length_app in IH. simpl length in IH. rewrite Nat.add_1_r in IH.
      rewrite IH by (reflexivity || assumption). smart_fields.
      rewrite <- !app_assoc. cbn [app map]. reflexivity.
    + rewrite decide_False by discriminate.
      specialize (IH (done ++ [a]) s).
      rewrite length_app in IH. simpl length in IH. rewrite Nat.add_1_r in IH.
      rewrite IH; [|rewrite <- app_assoc; assumption | assumption].
      rewrite <- !app_assoc. reflexivity.
Qed.

(** X17. When every backend that is sent the packet takes it,
    [write_split_packets] succeeds: exactly the clusters that expect
    request packets have the packet fed to their tracker and a clone
    routed to their backend, in order, the other clusters are left as
    they are, and the packet itself is freed once, at the end. *)
Theorem write_split_packets_feeds_waiting_clusters {T : Type}
    {PT : Smart.PacketTracker T} (pBuf : option GWBUF) (s : Smart.t T) :
  Forall (fun c => wants_request c = true -> takes c (gwbuf_clone pBuf) = true)
    (Smart.m_clusters s) ->
  exists s',
    Smart.write_split_packets pBuf s = Done (true, s') /\
    Smart.m_clusters s'
      = map (fun c => if wants_request c then fed pBuf c else c) (Smart.m_clusters s) /\
    Smart.calls s'
      = Smart.calls s
        ++ map (routed_to (gwbuf_clone pBuf))
             (filter (fun c => wants_request c = true) (Smart.m_clusters s))
        ++ [Smart.Free pBuf] /\
    Smart.m_mode s' = Smart.m_mode s.
Proof.
  intros Hall. unfold Smart.write_split_packets.
  unfold mbind at 1 2, Prog_bind, gets. cbn beta iota.
  pose proof (write_split_loop_all pBuf (Smart.m_clusters s) [] s eq_refl Hall) as Hloop.
  cbn [length app] in Hloop. rewrite Hloop. smart_run. eexists. split; [reflexivity|]. smart_fields.
  rewrite <- app_assoc. repeat split; reflexivity.
Qed.

Lemma write_split_packets_feeds_waiting_clusters_witness :
  exists s',
    Smart.write_split_packets (Some []) (mid_request [master_waiting; replica_served])
      = Done (true, s') /\
    Smart.m_clusters s'
      = [Smart.mk_cluster master_endpoint true false (counting 1 1 false); replica_served] /\
    Smart.calls s' = [Smart.Route 3%positive (Some []); Smart.Free (Some [])] /\
    Smart.m_mode s' = Smart.Idle.
Proof.
  assert (H : Forall (fun c => wants_request c = true ->
                              takes c (gwbuf_clone (Some [])) = true)
                (Smart.m_clusters (mid_request [master_waiting; replica_served]))).
  { apply (bool_decide_unpack _). vm_compute. exact I. }
  exact (write_split_packets_feeds_waiting_clusters (Some [])
           (mid_request [master_waiting; replica_served]) H).
Defined.

Lemma write_split_loop_refused {T : Type} {PT : Smart.PacketTracker T}
    (pBuf : option GWBUF) (c : Smart.Cluster T) (post : list (Smart.Cluster T)) :
  wants_request c = true ->
  takes c (gwbuf_clone pBuf) = false ->
  forall (pre done : list (Smart.Cluster T)) (s : Smart.t T),
    Smart.m_clusters s = done ++ pre ++ c :: post ->
    Forall (fun a => wants_request a = true -> takes a (gwbuf_clone pBuf) = true) pre ->
    Smart.write_split_loop pBuf (pre ++ c :: post) (length done) s
    = Done (false,
            Smart.mk (Smart.m_mode s)
              (done ++ map (fun a => if wants_request a then fed pBuf a else a) pre
               ++ fed pBuf c :: post)
              (Smart.m_pDelayed_packet s) (Smart.m_measurement s)
              (Smart.client_session s)
              (Smart.calls s
               ++ map (routed_to (gwbuf_clone pBuf))
                    (filter (fun a => wants_request a = true) pre)
               ++ [routed_to (gwbuf_clone pBuf) c])).
Proof.
  intros Hw Ht. induction pre as [|a rest IH]; intros done s Hcs Hall.
  - cbn [app Smart.write_split_loop map filter] in *.
    unfold wants_request in Hw. rewrite Hw. unfold takes in Ht.
    smart_run. rewrite Ht. cbn iota. rewrite Hcs.
    rewrite insert_app_r_alt by lia. rewrite Nat.sub_diag. reflexivity.
  - inversion Hall as [|? ? Ha Hrest]; subst.
    cbn [app Smart.write_split_loop map]. rewrite filter_cons.
    change (Smart.expecting_request_packets (Smart.tracker a)) with (wants_request a).
    destruct (wants_request a) eqn:Ew.
    + rewrite decide_True by reflexivity. specialize (Ha eq_refl).
      unfold takes in Ha. smart_run. rewrite Ha. cbn iota.
      rewrite Hcs.
      replace (<[length done := Smart.mk_cluster (Smart.pBackend a) (Smart.is_master a)
                                  (Smart.is_replying_to_client a)
                                  (Smart.update_request (Smart.tracker a) pBuf)]>
                 (done ++ a :: rest ++ c :: post))
        with ((done ++ [fed pBuf a]) ++ rest ++ c :: post).
      2:{ rewrite insert_app_r_alt by lia. rewrite Nat.sub_diag. simpl.
          rewrite <- app_assoc. reflexivity. }
      match goal with
      | |- Smart.write_split_loop _ _ _ ?s1 = _ =>
          specialize (IH (done ++ [fed pBuf a]) s1)
      end.
      rewrite length_app in IH. simpl length in IH. rewrite Nat.add_1_r in IH.
      rewrite IH by (reflexivity || assumption). smart_fields.
      rewrite <- !app_assoc. cbn [app map]. reflexivity.
    + rewrite decide_False by discriminate.
      specialize (IH (done ++ [a]) s).
      rewrite length_app in IH. simpl length in IH. rewrite Nat.add_1_r in IH.
      rewrite IH; [|rewrite <- app_assoc; assumption | assumption].
      rewrite <- !app_assoc. reflexivity.
Qed.

(** X18. [write_split_packets] stops at the first backend that refuses
    the packet and fails: that cluster has already had the packet fed
    to its tracker, the clusters after it are neither updated nor sent
    anything, even when they expect the packet, and the packet itself
    is still freed once. *)
Theorem write_split_packets_stops_at_refusal {T : Type} {PT : Smart.PacketTracker T}
    (pBuf : option GWBUF) (s : Smart.t T)
    (pre : list (Smart.Cluster T)) (c : Smart.Cluster T) (post : list (Smart.Cluster T)) :
  Smart.m_clusters s = pre ++ c :: post ->
  Forall (fun a => wants_request a = true -> takes a (gwbuf_clone pBuf) = true) pre ->
  wants_request c = true ->
  takes c (gwbuf_clone pBuf) = false ->
  exists s',
    Smart.write_split_packets pBuf s = Done (false, s') /\
    Smart.m_clusters s'
      = map (fun a => if wants_request a then fed pBuf a else a) pre
        ++ fed pBuf c :: post /\
    Smart.calls s'
      = Smart.calls s
        ++ map (routed_to (gwbuf_clone pBuf))
             (filter (fun a => wants_request a = true) pre)
        ++ [routed_to (gwbuf_clone pBuf) c; Smart.Free pBuf].
Proof.
  intros Hcs Hall Hw Ht. unfold Smart.write_split_packets.
  unfold mbind at 1 2, Prog_bind, gets. cbn beta iota. rewrite Hcs.
  pose proof (write_split_loop_refused pBuf c post Hw Ht pre [] s Hcs Hall) as Hloop.
  cbn [length app] in Hloop. rewrite Hloop. smart_run. eexists. split; [reflexivity|]. smart_fields.
  rewrite <- !app_assoc. cbn [app]. split; reflexivity.
Qed.

Lemma write_split_packets_stops_at_refusal_witness :
  exists s',
    Smart.write_split_packets (Some [])
      (mid_request [master_waiting; refusing_waiting; replica_waiting])
      = Done (false, s') /\
    Smart.m_clusters s'
      = [Smart.mk_cluster master_endpoint true false (counting 1 1 false);
         Smart.mk_cluster refusing_endpoint false false (counting 0 1 false);
         replica_waiting] /\
    Smart.calls s'
      = [Smart.Route 3%positive (Some []); Smart.Route 4%positive (Some []);
         Smart.Free (Some [])].
Proof.
  assert (H : Forall (fun c => wants_request c = true ->
                              takes c (gwbuf_clone (Some [])) = true)
                [master_waiting]).
  { apply (bool_decide_unpack _). vm_compute. exact I. }
  exact (write_split_packets_stops_at_refusal (Some [])
           (mid_request [master_waiting; refusing_waiting; replica_waiting])
           [master_waiting] refusing_waiting [replica_waiting]
           eq_refl H eq_refl eq_refl).
Defined.

(** ** Replies of the clusters *)

Lemma clientReply_forwards {T : Type} {PT : Smart.PacketTracker T}
    (SS_DEBUG : bool) (my : Smart.MySQL) (now : Z) (k : nat) (buf : GWBUF)
    (s : Smart.t T) (c : Smart.Cluster T) :
  Smart.m_clusters s !! k = Some c ->
  lost_connection my (Some buf) (heard (Some buf) c) = false ->
  Smart.clientReply SS_DEBUG my now k (Some buf) s
  = Smart.clientReply_forward SS_DEBUG now k (heard (Some buf) c)
      (first_response_packet s)
      (negb (Smart.expecting_response_packets (Smart.tracker (heard (Some buf) c))))
      (all_answered k (heard (Some buf) c) s) (Some buf)
      (Smart.set_clusters (<[k := heard (Some buf) c]> (Smart.m_clusters s)) s).
Proof.
  intros Hk Hlost.
  unfold all_answered, first_response_packet, lost_connection, heard in *.
  unfold Smart.clientReply.
  assert (Hpre : forall (m : Prog (Smart.t T) unit),
             (when SS_DEBUG (_ ← deref (Some buf); mret ());; m) s = m s).
  { intros m. destruct SS_DEBUG; reflexivity. }
  rewrite Hpre. clear Hpre. smart_run. rewrite Hk. smart_run.
  destruct (Smart.state (Smart.update_response (Smart.tracker c) (Some buf)));
    [rewrite Hlost; reflexivity | discriminate Hlost | reflexivity].
Qed.

(** X19. A response packet that does not tell of a lost connection is
    handed on exactly once by [clientReply]: it is forwarded to the
    client, held back as the delayed packet, or freed, and never two of
    these; a packet held back earlier stays held or is forwarded, once,
    and only the packet that came in is ever freed.  The packet is held
    back only when none is held already, which the code asserts; with
    the last packet of all clusters the session is idle again and holds
    nothing back. *)
Theorem clientReply_hands_each_packet_on_once {T : Type} {PT : Smart.PacketTracker T}
    (SS_DEBUG : bool) (my : Smart.MySQL) (now : Z) (k : nat) (buf : GWBUF)
    (s : Smart.t T) (c : Smart.Cluster T) :
  let pPacket := Some buf in
  let replying := Smart.is_replying_to_client c || first_response_packet s in
  let very_last := all_answered k (heard pPacket c) s in
  Smart.m_clusters s !! k = Some c ->
  lost_connection my pPacket (heard pPacket c) = false ->
  (very_last = false -> replying = true ->
   Smart.expecting_response_packets (Smart.tracker (heard pPacket c)) = false ->
   Smart.m_pDelayed_packet s = None) ->
  (SS_DEBUG = true -> very_last = true ->
   replying = true \/ Smart.m_pDelayed_packet s <> None) ->
  exists s' new,
    Smart.clientReply SS_DEBUG my now k pPacket s = Done (tt, s') /\
    Smart.calls s' = Smart.calls s ++ new /\
    Permutation (pPacket :: pending (Smart.m_pDelayed_packet s))
      (pending (Smart.m_pDelayed_packet s') ++ forwarded new ++ freed new) /\
    (freed new = [] \/ freed new = [pPacket]) /\
    (very_last = true ->
     Smart.m_mode s' = Smart.Idle /\ Smart.m_pDelayed_packet s' = None).
Proof.
  intros pPacket replying very_last Hk Hlost Hdelay Hassert.
  subst pPacket replying very_last.
  unfold all_answered, first_response_packet, lost_connection, heard in *.
  unfold Smart.clientReply.
  assert (Hpre : forall (m : Prog (Smart.t T) unit),
             (when SS_DEBUG (_ ← deref (Some buf); mret ());; m) s = m s).
  { intros m. destruct SS_DEBUG; reflexivity. }
  rewrite Hpre. clear Hpre. smart_run. rewrite Hk. smart_run.
  set (tr := Smart.update_response (Smart.tracker c) (Some buf)) in *.
  set (c' := Smart.mk_cluster (Smart.pBackend c) (Smart.is_master c)
               (Smart.is_replying_to_client c) tr) in *.
  set (s1 := Smart.set_clusters (<[k := c']> (Smart.m_clusters s)) s) in *.
  assert (Hfwd :
    exists s' new,
      Smart.clientReply_forward SS_DEBUG now k c'
        (Smart.Mode_eqb (Smart.m_mode s) Smart.Query
         || Smart.Mode_eqb (Smart.m_mode s) Smart.MeasureQuery)
        (negb (Smart.expecting_response_packets tr))
        (negb (Smart.session_expecting_response_packets s1)) (Some buf) s1
      = Done (tt, s') /\
      Smart.calls s' = Smart.calls s ++ new /\
      Permutation (Some buf :: pending (Smart.m_pDelayed_packet s))
        (pending (Smart.m_pDelayed_packet s') ++ forwarded new ++ freed new) /\
      (freed new = [] \/ freed new = [Some buf]) /\
      (negb (Smart.session_expecting_response_packets s1) = true ->
       Smart.m_mode s' = Smart.Idle /\ Smart.m_pDelayed_packet s' = None)).
  { clear Hlost Hk.
    change (Smart.m_mode s) with (Smart.m_mode s1) in Hdelay, Hassert |- *.
    change (Smart.m_pDelayed_packet s) with (Smart.m_pDelayed_packet s1) in Hdelay, Hassert |- *.
    change (Smart.calls s) with (Smart.calls s1) in Hdelay, Hassert |- *.
    change (Smart.is_replying_to_client c) with (Smart.is_replying_to_client c') in Hdelay, Hassert |- *.
    revert Hdelay Hassert.
    generalize (Smart.expecting_response_packets tr).
    generalize (Smart.session_expecting_response_packets s1).
    clearbody s1 c'. clear s c tr.
    intros sess_exp clus_exp Hdelay Hassert.
    unfold Smart.clientReply_forward.
    destruct s1 as [mode cs delayed meas client calls0]. smart_fields.
    destruct c' as [be ism rep tr]. smart_fields.
    destruct sess_exp; cbn [negb] in *.
    - (* some cluster still expects a response *)
      destruct rep, mode, clus_exp; cbn [negb orb Smart.Mode_eqb] in *;
        try (rewrite (Hdelay eq_refl eq_refl eq_refl) in *);
        smart_eval;
        (eexists _, _; split; [reflexivity|]; smart_fields;
         split; [rewrite <- ?app_assoc; cbn [app]; try reflexivity;
                 symmetry; apply app_nil_r|]);
        cbn [forwarded freed omap app pending];
        (split; [|split; [auto|discriminate]]);
        try reflexivity;
        destruct delayed; cbn [pending app]; try reflexivity; apply perm_swap.
    - (* the last packet of all clusters *)
      destruct SS_DEBUG.
      + destruct (Hassert eq_refl eq_refl) as [Hr|Hd].
        * destruct delayed, mode, rep; try discriminate Hr;
            cbn [negb orb Smart.Mode_eqb] in *;
        smart_eval;
            (eexists _, _; split; [reflexivity|]; smart_fields;
             split; [rewrite <- ?app_assoc; cbn [app]; reflexivity|]);
            cbn [forwarded freed omap app pending];
            (split; [try reflexivity; apply perm_swap
                    | split; [auto | intros _; split; reflexivity]]).
        * destruct delayed; [|contradiction].
          destruct mode, rep;
            cbn [negb orb Smart.Mode_eqb] in *;
        smart_eval;
            (eexists _, _; split; [reflexivity|]; smart_fields;
             split; [rewrite <- ?app_assoc; cbn [app]; reflexivity|]);
            cbn [forwarded freed omap app pending];
            (split; [try reflexivity; apply perm_swap
                    | split; [auto | intros _; split; reflexivity]]).
      + destruct delayed, mode, rep;
          cbn [negb orb Smart.Mode_eqb] in *;
        smart_eval;
          (eexists _, _; split; [reflexivity|]; smart_fields;
           split; [rewrite <- ?app_assoc; cbn [app]; reflexivity|]);
          cbn [forwarded freed omap app pending];
          (split; [try reflexivity; apply perm_swap
                  | split; [auto | intros _; split; reflexivity]]). }
  destruct (Smart.state tr) eqn:Est.
  - rewrite Hlost. exact Hfwd.
  - discriminate Hlost.
  - exact Hfwd.
Qed.

Lemma clientReply_hands_each_packet_on_once_witness :
  exists s' new,
    Smart.clientReply true my0 0 0 (Some []) collecting = Done (tt, s') /\
    Smart.calls s' = Smart.calls collecting ++ new /\
    Permutation (Some [] :: pending (Smart.m_pDelayed_packet collecting))
      (pending (Smart.m_pDelayed_packet s') ++ forwarded new ++ freed new) /\
    (freed new = [] \/ freed new = [Some []]) /\
    (all_answered 0 (heard (Some []) (Smart.mk_cluster master_endpoint true true
                                        (counting 0 1 false))) collecting = true ->
     Smart.m_mode s' = Smart.Idle /\ Smart.m_pDelayed_packet s' = None).
Proof.
  apply (clientReply_hands_each_packet_on_once true my0 0 0 [] collecting
           (Smart.mk_cluster master_endpoint true true (counting 0 1 false))).
  - reflexivity.
  - reflexivity.
  - intros _ _ _. reflexivity.
  - intros _ H. vm_compute in H. discriminate H.
Defined.

Example last_packet_is_held_back :
  Smart.clientReply true my0 0 0 (Some [Byte.x07]) collecting
  = Done (tt,
          Smart.mk Smart.CollectResults
            [Smart.mk_cluster master_endpoint true true (counting 0 0 false);
             Smart.mk_cluster replica_endpoint false false (counting 0 1 false)]
            (Some [Byte.x07]) (Smart.mk_measurement 0 "") started_session []).
Proof. reflexivity. Qed.

(** X20. When the tracker of a cluster tells that the connection is
    lost, [clientReply] terminates the client session and returns: the
    session is stopping and its DCB closed without an error written to
    the client, and the packet is neither forwarded, held back nor
    freed; the mode and a packet held back earlier stay as they are. *)
Theorem clientReply_lost_connection {T : Type} {PT : Smart.PacketTracker T}
    (SS_DEBUG : bool) (my : Smart.MySQL) (now : Z) (k : nat) (buf : GWBUF)
    (s : Smart.t T) (c : Smart.Cluster T) (conn : ClientProtocol) (d : DCB.t) :
  Smart.m_clusters s !! k = Some c ->
  lost_connection my (Some buf) (heard (Some buf) c) = true ->
  m_state (Smart.client_session s) = STARTED ->
  m_client_conn (Smart.client_session s) = Some conn ->
  client_dcb (Smart.client_session s) = Some d ->
  (SS_DEBUG = true -> DCB.is_closed d = false) ->
  exists s',
    Smart.clientReply SS_DEBUG my now k (Some buf) s = Done (tt, s') /\
    m_state (Smart.client_session s') = STOPPING /\
    client_dcb (Smart.client_session s') = Some (DCB.close d) /\
    trace (Smart.client_session s') = trace (Smart.client_session s) ++ [EvDcbClose] /\
    Smart.calls s' = Smart.calls s ++ [Smart.LogError] /\
    Smart.m_pDelayed_packet s' = Smart.m_pDelayed_packet s /\
    Smart.m_mode s' = Smart.m_mode s /\
    Smart.m_clusters s' = <[k := heard (Some buf) c]> (Smart.m_clusters s).
Proof.
  intros Hk Hlost Hst Hconn Hd Hopen.
  unfold lost_connection, heard in *. unfold Smart.clientReply.
  assert (Hpre : forall (m : Prog (Smart.t T) unit),
             (when SS_DEBUG (_ ← deref (Some buf); mret ());; m) s = m s).
  { intros m. destruct SS_DEBUG; reflexivity. }
  rewrite Hpre. clear Hpre. smart_run. rewrite Hk. smart_run.
  assert (Hterm :
    forall s1 : Smart.t T,
      Smart.client_session s1 = Smart.client_session s ->
      Smart.on_client (terminate SS_DEBUG None) s1
      = Done (tt, Smart.set_client_session
                    (terminated None d (Smart.client_session s)) s1)).
  { intros s1 Hs1. unfold Smart.on_client. rewrite Hs1.
    rewrite (terminate_started SS_DEBUG None _ conn d Hst Hconn Hd Hopen).
    reflexivity. }
  destruct (Smart.state (Smart.update_response (Smart.tracker c) (Some buf)));
    [rewrite Hlost | | discriminate Hlost];
    (rewrite Hterm by reflexivity; eexists; split; [reflexivity|];
     smart_fields; unfold terminated; fields; repeat split; reflexivity).
Qed.

Lemma clientReply_lost_connection_witness :
  exists s',
    Smart.clientReply true my0 0 0 (Some []) at_rest = Done (tt, s') /\
    m_state (Smart.client_session s') = STOPPING /\
    client_dcb (Smart.client_session s') = Some (DCB.close client_dcb0) /\
    trace (Smart.client_session s') = trace (Smart.client_session at_rest) ++ [EvDcbClose] /\
    Smart.calls s' = Smart.calls at_rest ++ [Smart.LogError] /\
    Smart.m_pDelayed_packet s' = Smart.m_pDelayed_packet at_rest /\
    Smart.m_mode s' = Smart.m_mode at_rest /\
    Smart.m_clusters s'
      = <[0%nat := heard (Some []) (Smart.mk_cluster master_endpoint true false
                                      (counting 0 0 false))]>
          (Smart.m_clusters at_rest).
Proof.
  exact (clientReply_lost_connection true my0 0 0 [] at_rest
           (Smart.mk_cluster master_endpoint true false (counting 0 0 false))
           protocol0 client_dcb0 eq_refl eq_refl eq_refl eq_refl eq_refl
           (fun _ => eq_refl)).
Defined.

(** X21. [SmartRouterSession::handleError] always answers false.  On a
    started client session it terminates the session with a clone of
    the error packet: the clone is written to the client, then the DCB
    is closed and the session is stopping.  On a client session that
    is not started it only logs. *)
Theorem smart_handleError_terminates {T : Type} {PT : Smart.PacketTracker T}
    (SS_DEBUG : bool) (buf : GWBUF) (s : Smart.t T) :
  (m_state (Smart.client_session s) <> STARTED ->
   Smart.handleError SS_DEBUG (Some buf) s
   = Done (false, Smart.do_call Smart.LogError s)) /\
  (forall conn d,
     m_state (Smart.client_session s) = STARTED ->
     m_client_conn (Smart.client_session s) = Some conn ->
     client_dcb (Smart.client_session s) = Some d ->
     (SS_DEBUG = true -> DCB.is_closed d = false) ->
     exists s',
       Smart.handleError SS_DEBUG (Some buf) s = Done (false, s') /\
       m_state (Smart.client_session s') = STOPPING /\
       client_dcb (Smart.client_session s') = Some (DCB.close d) /\
       trace (Smart.client_session s')
         = trace (Smart.client_session s) ++ [EvWrite (Some buf); EvDcbClose] /\
       Smart.calls s' = Smart.calls s ++ [Smart.LogError] /\
       Smart.m_mode s' = Smart.m_mode s /\
       Smart.m_clusters s' = Smart.m_clusters s).
Proof.
  split.
  - intros Hst. unfold Smart.handleError. smart_run. unfold Smart.on_client.
    smart_fields. rewrite (terminate_not_started SS_DEBUG _ _ Hst).
    destruct s. reflexivity.
  - intros conn d Hst Hconn Hd Hopen. unfold Smart.handleError. smart_run.
    unfold Smart.on_client. smart_fields.
    rewrite (terminate_started SS_DEBUG _ _ conn d Hst Hconn Hd Hopen).
    eexists. split; [reflexivity|]. smart_fields. unfold terminated, gwbuf_clone.
    fields. rewrite <- !app_assoc. repeat split; reflexivity.
Qed.

Lemma smart_handleError_terminates_witness :
  exists s',
    Smart.handleError true (Some [Byte.xff]) at_rest = Done (false, s') /\
    m_state (Smart.client_session s') = STOPPING /\
    client_dcb (Smart.client_session s') = Some (DCB.close client_dcb0) /\
    trace (Smart.client_session s')
      = trace (Smart.client_session at_rest) ++ [EvWrite (Some [Byte.xff]); EvDcbClose] /\
    Smart.calls s' = Smart.calls at_rest ++ [Smart.LogError] /\
    Smart.m_mode s' = Smart.m_mode at_rest /\
    Smart.m_clusters s' = Smart.m_clusters at_rest.
Proof.
  exact (proj2 (smart_handleError_terminates true [Byte.xff] at_rest)
           protocol0 client_dcb0 eq_refl eq_refl eq_refl (fun _ => eq_refl)).
Defined.

(** ** A query and its answer *)

Lemma no_response_expected {T : Type} {PT : Smart.PacketTracker T}
    (cs : list (Smart.Cluster T)) :
  Forall (fun a => Smart.expecting_response_packets (Smart.tracker a) = false) cs ->
  existsb (fun a => Smart.expecting_response_packets (Smart.tracker a)) cs = false.
Proof.
  induction 1 as [|a cs Ha _ IH]; [reflexivity|].
  simpl. rewrite Ha, IH. reflexivity.
Qed.

Lemma response_expected_at {T : Type} {PT : Smart.PacketTracker T}
    (cs : list (Smart.Cluster T)) (k : nat) (c : Smart.Cluster T) :
  (k < length cs)%nat ->
  Smart.expecting_response_packets (Smart.tracker c) = true ->
  existsb (fun a => Smart.expecting_response_packets (Smart.tracker a)) (<[k := c]> cs)
  = true.
Proof.
  intros Hk Hc. apply existsb_exists. exists c. split; [|assumption].
  apply list_elem_of_In. eapply list_elem_of_lookup_2.
  apply list_lookup_insert_eq. assumption.
Qed.

(** X22. A query for the master on a session at rest, followed by the
    one packet that answers it: [routeQuery] hands the buffer itself to
    the master alone and the session is in the mode Query; [clientReply]
    then forwards the packet to the client and the session is idle
    again, with nothing held back and nothing freed. *)
Theorem query_to_master_round_trip {T : Type} {PT : Smart.PacketTracker T}
    (SS_DEBUG : bool) (my : Smart.MySQL) (now now' : Z) (q : Smart.Classified)
    (pBuf : option GWBUF) (buf : GWBUF) (s : Smart.t T)
    (c : Smart.Cluster T) (rest : list (Smart.Cluster T)) :
  let asked := Smart.tracker_of_request pBuf in
  let answered := Smart.update_response asked (Some buf) in
  Smart.m_mode s = Smart.Idle ->
  Smart.m_pDelayed_packet s = None ->
  Smart.m_clusters s = c :: rest ->
  Smart.is_master c = true ->
  Smart.session_expecting_request_packets s = false ->
  Forall (fun a => Smart.expecting_response_packets (Smart.tracker a) = false) rest ->
  Smart.c_target_is_all q = false ->
  Smart.c_target_is_master q || Smart.c_trx_is_active q = true ->
  Smart.expecting_response_packets asked = true ->
  Smart.expecting_response_packets answered = false ->
  Smart.state answered = Smart.OtherState ->
  exists s1 s2,
    Smart.routeQuery SS_DEBUG now q pBuf s = Done (takes c pBuf, s1) /\
    Smart.m_mode s1 = Smart.Query /\
    Smart.clientReply SS_DEBUG my now' 0 (Some buf) s1 = Done (tt, s2) /\
    Smart.m_mode s2 = Smart.Idle /\
    Smart.m_pDelayed_packet s2 = None /\
    Smart.calls s2
      = Smart.calls s ++ [routed_to pBuf c; Smart.Reply (Some buf)] /\
    Smart.m_clusters s2
      = Smart.mk_cluster (Smart.pBackend c) true true answered :: rest.
Proof.
  intros asked answered Hmode Hdel Hcs Hm Hreq Hrest Hall Hmaster Hasked Hans Hstate.
  set (s1 := Smart.mk Smart.Query
               (Smart.mk_cluster (Smart.pBackend c) true false asked :: rest)
               None (Smart.mk_measurement now (Smart.c_canonical q))
               (Smart.client_session s) (Smart.calls s ++ [routed_to pBuf c])).
  assert (Hroute : Smart.routeQuery SS_DEBUG now q pBuf s = Done (takes c pBuf, s1)).
  { unfold Smart.routeQuery. smart_run. rewrite Hreq, Hmode.
    cbn [Smart.Mode_eqb negb]. smart_run. rewrite Hall, Hmaster.
    unfold Smart.write_to_master. smart_run. rewrite Hcs.
    rewrite bool_decide_eq_false_2 by discriminate. smart_eval.
    cbn [lookup list_lookup]. smart_eval. rewrite Hm. smart_eval.
    fold asked. rewrite Hasked. smart_eval. smart_flat. rewrite Hdel. reflexivity. }
  exists s1. eexists. split; [exact Hroute|]. split; [reflexivity|].
  rewrite (clientReply_forwards SS_DEBUG my now' 0 buf s1
             (Smart.mk_cluster (Smart.pBackend c) true false asked) eq_refl)
    by (unfold lost_connection, heard; smart_fields; fold asked answered;
        rewrite Hstate; reflexivity).
  subst s1.
  unfold all_answered, first_response_packet, heard.
  unfold Smart.session_expecting_response_packets. smart_flat.
  fold asked answered.
  cbn [insert list_insert existsb Smart.tracker Smart.Mode_eqb orb].
  rewrite Hans, (no_response_expected rest Hrest).
  unfold Smart.clientReply_forward. smart_eval.
  cbn [insert list_insert]. smart_eval. smart_flat.
  split; [reflexivity|]. smart_fields.
  rewrite <- !app_assoc. repeat split; reflexivity.
Qed.

Lemma query_to_master_round_trip_witness :
  exists s1 s2,
    Smart.routeQuery true 5 for_master (Some [Byte.x03]) at_rest_pair
      = Done (takes (Smart.mk_cluster master_endpoint true false (counting 0 0 false))
                (Some [Byte.x03]), s1) /\
    Smart.m_mode s1 = Smart.Query /\
    Smart.clientReply true my0 9 0 (Some [Byte.x00]) s1 = Done (tt, s2) /\
    Smart.m_mode s2 = Smart.Idle /\
    Smart.m_pDelayed_packet s2 = None /\
    Smart.calls s2
      = Smart.calls at_rest_pair
        ++ [routed_to (Some [Byte.x03])
              (Smart.mk_cluster master_endpoint true false (counting 0 0 false));
            Smart.Reply (Some [Byte.x00])] /\
    Smart.m_clusters s2
      = [Smart.mk_cluster master_endpoint true true (counting 0 0 false);
         Smart.mk_cluster replica_endpoint false false (counting 0 0 false)].
Proof.
  assert (H : Forall (fun a : Smart.Cluster Counting =>
                        Smart.expecting_response_packets (Smart.tracker a) = false)
                [Smart.mk_cluster replica_endpoint false false (counting 0 0 false)]).
  { repeat constructor. }
  exact (query_to_master_round_trip true my0 5 9 for_master (Some [Byte.x03]) [Byte.x00]
           at_rest_pair
           (Smart.mk_cluster master_endpoint true false (counting 0 0 false))
           [Smart.mk_cluster replica_endpoint false false (counting 0 0 false)]
           eq_refl eq_refl eq_refl eq_refl eq_refl H eq_refl eq_refl eq_refl eq_refl
           eq_refl).
Defined.

(** X23. A read that the router has no measurement for is sent to
    every cluster, and the first cluster to answer is measured: on its
    first response packet [clientReply] records the canonical form of
    the query with the target of that cluster and the time since
    [routeQuery], asks for the queries of the other clusters to be
    killed, takes that cluster for the reply and forwards the packet. *)
Theorem first_answer_is_measured {T : Type} {PT : Smart.PacketTracker T}
    (SS_DEBUG : bool) (my : Smart.MySQL) (now now' : Z) (q : Smart.Classified)
    (pBuf : option GWBUF) (buf : GWBUF) (s : Smart.t T) (k : nat) (c : Smart.Cluster T) :
  let asked := Smart.tracker_of_request pBuf in
  let answered := Smart.update_response asked (Some buf) in
  Smart.m_mode s = Smart.Idle ->
  Smart.session_expecting_request_packets s = false ->
  Smart.m_clusters s !! k = Some c ->
  Smart.c_target_is_all q = false ->
  Smart.c_target_is_master q || Smart.c_trx_is_active q = false ->
  Smart.c_perf q = None ->
  Smart.c_is_SQL q = true ->
  Smart.expecting_response_packets asked = true ->
  Smart.expecting_response_packets answered = true ->
  Smart.state answered = Smart.OtherState ->
  exists s1 s2,
    Smart.routeQuery SS_DEBUG now q pBuf s
      = Done (forallb (fun a => takes a (gwbuf_clone pBuf)) (Smart.m_clusters s), s1) /\
    Smart.m_mode s1 = Smart.MeasureQuery /\
    Smart.clientReply SS_DEBUG my now' k (Some buf) s1 = Done (tt, s2) /\
    Smart.m_mode s2 = Smart.CollectResults /\
    Smart.calls s2
      = Smart.calls s
        ++ map (routed_to (gwbuf_clone pBuf)) (Smart.m_clusters s)
        ++ [Smart.Free pBuf;
            Smart.PerfUpdate (Smart.c_canonical q) (Smart.ep_target (Smart.pBackend c))
              (now' - now);
            Smart.KillAllOthers;
            Smart.Reply (Some buf)] /\
    Smart.m_clusters s2
      = <[k := Smart.mk_cluster (Smart.pBackend c) (Smart.is_master c) true answered]>
          (map (reset_for pBuf) (Smart.m_clusters s)) /\
    Smart.m_pDelayed_packet s2 = Smart.m_pDelayed_packet s.
Proof.
  intros asked answered Hmode Hreq Hk Hall Hmaster Hperf Hsql Hasked Hans Hstate.
  assert (Hne : Smart.m_clusters s <> []).
  { intros E. rewrite E in Hk. discriminate Hk. }
  set (s1 := Smart.mk Smart.MeasureQuery
               (map (reset_for pBuf) (Smart.m_clusters s))
               (Smart.m_pDelayed_packet s)
               (Smart.mk_measurement now (Smart.c_canonical q))
               (Smart.client_session s)
               (Smart.calls s ++ map (routed_to (gwbuf_clone pBuf)) (Smart.m_clusters s)
                ++ [Smart.Free pBuf])).
  assert (Hroute :
    Smart.routeQuery SS_DEBUG now q pBuf s
    = Done (forallb (fun a => takes a (gwbuf_clone pBuf)) (Smart.m_clusters s), s1)).
  { unfold Smart.routeQuery. smart_run. rewrite Hreq, Hmode.
    cbn [Smart.Mode_eqb negb]. smart_run. rewrite Hall, Hmaster, Hperf, Hsql.
    rewrite write_to_all_run. smart_flat. fold asked. rewrite Hasked.
    rewrite bool_decide_eq_false_2 by assumption. reflexivity. }
  assert (Hk1 : Smart.m_clusters s1 !! k = Some (reset_for pBuf c)).
  { subst s1. smart_fields. rewrite list_lookup_fmap, Hk. reflexivity. }
  exists s1. eexists. split; [exact Hroute|]. split; [reflexivity|].
  rewrite (clientReply_forwards SS_DEBUG my now' k buf s1 (reset_for pBuf c) Hk1)
    by (unfold lost_connection, heard, reset_for; smart_fields; fold asked answered;
        rewrite Hstate; reflexivity).
  assert (Hlast : all_answered k (heard (Some buf) (reset_for pBuf c)) s1 = false).
  { unfold all_answered, Smart.session_expecting_response_packets. smart_flat.
    rewrite response_expected_at; [reflexivity | | assumption].
    eapply lookup_lt_Some. exact Hk1. }
  rewrite Hlast. unfold first_response_packet, heard, reset_for. subst s1. smart_flat.
  fold asked answered. rewrite Hans.
  unfold Smart.clientReply_forward. smart_eval. smart_flat.
  rewrite list_insert_insert_eq.
  split; [reflexivity|]. smart_fields.
  rewrite <- !app_assoc. cbn [app]. repeat split; reflexivity.
Qed.

Lemma first_answer_is_measured_witness :
  exists s1 s2,
    Smart.routeQuery true 5 unmeasured (Some [Byte.x03]) at_rest_streaming
      = Done (forallb (fun a => takes a (gwbuf_clone (Some [Byte.x03])))
                (Smart.m_clusters at_rest_streaming), s1) /\
    Smart.m_mode s1 = Smart.MeasureQuery /\
    Smart.clientReply true my0 9 1 (Some [Byte.x00]) s1 = Done (tt, s2) /\
    Smart.m_mode s2 = Smart.CollectResults /\
    Smart.calls s2
      = Smart.calls at_rest_streaming
        ++ map (routed_to (gwbuf_clone (Some [Byte.x03])))
             (Smart.m_clusters at_rest_streaming)
        ++ [Smart.Free (Some [Byte.x03]);
            Smart.PerfUpdate "select ?" (Some 11%positive) (9 - 5);
            Smart.KillAllOthers;
            Smart.Reply (Some [Byte.x00])] /\
    Smart.m_clusters s2
      = <[1%nat := Smart.mk_cluster replica_endpoint false true tt]>
          (map (reset_for (Some [Byte.x03])) (Smart.m_clusters at_rest_streaming)) /\
    Smart.m_pDelayed_packet s2 = Smart.m_pDelayed_packet at_rest_streaming.
Proof.
  exact (first_answer_is_measured true my0 5 9 unmeasured (Some [Byte.x03]) [Byte.x00]
           at_rest_streaming 1 (Smart.mk_cluster replica_endpoint false false tt)
           eq_refl eq_refl eq_refl eq_refl eq_refl eq_refl eq_refl eq_refl eq_refl
           eq_refl).
Defined.

(** * Properties of the Avro client session *)

(** ** The file and the GTID of a request *)

Lemma find_first_of_none (s : string) (c : ascii) :
  Avro.find_first_of s c = None <-> count_char c s = 0%nat.
Proof.
  induction s as [|a rest IH]; simpl; [tauto|].
  destruct (Ascii.eqb a c); simpl.
  - split; [discriminate | lia].
  - destruct (Avro.find_first_of rest c); simpl in *.
    + split; [discriminate|]. intros H. apply IH in H. discriminate.
    + split; [intros _; apply IH; reflexivity | reflexivity].
Qed.

Lemma find_last_of_none (s : string) (c : ascii) :
  Avro.find_last_of s c = None <-> count_char c s = 0%nat.
Proof.
  induction s as [|a rest IH]; simpl; [tauto|].
  destruct (Avro.find_last_of rest c).
  - split; [discriminate|]. intros H.
    assert (count_char c rest = 0%nat) as H0 by lia. apply IH in H0. discriminate.
  - assert (count_char c rest = 0%nat) as -> by (apply IH; reflexivity).
    destruct (Ascii.eqb a c); simpl; split; (discriminate || reflexivity || lia).
Qed.

Lemma first_dot_is_last_dot (s : string) (c : ascii) :
  Avro.find_first_of s c = Avro.find_last_of s c <-> (count_char c s <= 1)%nat.
Proof.
  induction s as [|a rest IH]; simpl; [split; [lia | reflexivity]|].
  destruct (Ascii.eqb a c); simpl.
  - destruct (Avro.find_last_of rest c) eqn:El.
    + split; [intros [= <-]|].
      intros H. assert (count_char c rest = 0%nat) as H0 by lia.
      apply find_last_of_none in H0. congruence.
    + apply find_last_of_none in El. rewrite El. split; [lia | reflexivity].
  - destruct (Avro.find_first_of rest c) eqn:Ef, (Avro.find_last_of rest c) eqn:El;
      simpl; rewrite <- IH; split; congruence.
Qed.

Lemma exact_version_iff (s : string) :
  negb (is_null (Avro.find_first_of s ".")) && negb (is_null (Avro.find_last_of s "."))
  && negb (bool_decide (Avro.find_first_of s "." = Avro.find_last_of s "."))
  = (2 <=? count_char "." s)%nat.
Proof.
  pose proof (find_first_of_none s ".") as Hf.
  pose proof (find_last_of_none s ".") as Hl.
  pose proof (first_dot_is_last_dot s ".") as Hfl.
  destruct (2 <=? count_char "." s)%nat eqn:E.
  - apply Nat.leb_le in E.
    destruct (Avro.find_first_of s ".") eqn:Ef; [|apply proj1 in Hf; specialize (Hf eq_refl); lia].
    destruct (Avro.find_last_of s ".") eqn:El; [|apply proj1 in Hl; specialize (Hl eq_refl); lia].
    simpl. rewrite bool_decide_eq_false_2; [reflexivity|].
    intros H. apply Hfl in H. lia.
  - apply Nat.leb_gt in E.
    destruct (Avro.find_first_of s ".") eqn:Ef; [|reflexivity].
    destruct (Avro.find_last_of s ".") eqn:El; [|reflexivity].
    simpl. rewrite bool_decide_eq_true_2; [reflexivity|].
    apply Hfl. lia.
Qed.

Lemma find_first_of_split (s : string) (c : ascii) (pos : nat) :
  Avro.find_first_of s c = Some pos ->
  (pos < String.length s)%nat /\
  s = Avro.string_take pos s +:+ String c (Avro.string_drop (S pos) s) /\
  count_char c (Avro.string_take pos s) = 0%nat.
Proof.
  revert pos. induction s as [|a rest IH]; intros pos; simpl; [discriminate|].
  destruct (Ascii.eqb a c) eqn:E.
  - intros [= <-]. apply Ascii.eqb_eq in E. subst a. simpl.
    split; [lia|]. split; reflexivity.
  - destruct (Avro.find_first_of rest c) as [p|]; simpl; [|discriminate].
    intros [= <-]. destruct (IH p eq_refl) as (Hlt & Hs & Hc).
    cbn [Avro.string_take String.append String.length count_char].
    rewrite E. split; [lia|]. split; [|assumption].
    change (String a rest
            = String a (Avro.string_take p rest
                        +:+ String c (Avro.string_drop (S p) rest))).
    f_equal. exact Hs.
Qed.

Lemma string_drop_0 (s : string) : Avro.string_drop 0 s = s.
Proof. destruct s; reflexivity. Qed.

(** X24. [get_avrofile_and_gtid] never throws and cuts the trimmed
    request at its first space: what stands before it names the file
    and what follows is the GTID, which is empty when there is no
    space.  For an empty request the file name is empty; otherwise the
    name gets the suffix [.avro] when it holds two dots or more, and
    [.000001.avro] when it holds fewer, so that it is never empty. *)
Theorem get_avrofile_and_gtid_splits (ltrim : string -> string) (file : string) :
  exists base gtid,
    Avro.get_avrofile_and_gtid ltrim file
      = Some (if String.eqb (ltrim file) EmptyString then EmptyString
              else base +:+ (if (2 <=? count_char "." base)%nat
                             then ".avro" else ".000001.avro"),
              gtid) /\
    count_char " " base = 0%nat /\
    (ltrim file = base +:+ " " +:+ gtid \/ (ltrim file = base /\ gtid = EmptyString)).
Proof.
  unfold Avro.get_avrofile_and_gtid.
  set (f := ltrim file).
  destruct (Avro.find_first_of f " ") as [pos|] eqn:Epos.
  - destruct (find_first_of_split f " " pos Epos) as (Hlt & Hsplit & Hcount).
    exists (Avro.string_take pos f), (Avro.string_drop (S pos) f).
    unfold Avro.substr. rewrite string_drop_0.
    assert (E0 : (String.length f <? 0)%nat = false) by (apply Nat.ltb_ge; lia).
    assert (E1 : (String.length f <? pos + 1)%nat = false) by (apply Nat.ltb_ge; lia).
    rewrite E0, E1. cbn [mbind option_bind mret option_ret].
    rewrite exact_version_iff. rewrite Nat.add_1_r.
    split; [|split; [assumption | left; exact Hsplit]].
    destruct (String.eqb f EmptyString) eqn:Ee.
    + apply String.eqb_eq in Ee. rewrite Ee in Epos. discriminate.
    + destruct (2 <=? count_char "." (Avro.string_take pos f))%nat; reflexivity.
  - exists f, EmptyString. rewrite exact_version_iff.
    split; [|split; [apply find_first_of_none; assumption | right; split; reflexivity]].
    destruct (String.eqb f EmptyString) eqn:Ee.
    + apply String.eqb_eq in Ee. rewrite Ee. reflexivity.
    + destruct (2 <=? count_char "." f)%nat; reflexivity.
Qed.

Example versioned_file_and_gtid :
  Avro.get_avrofile_and_gtid skip_blanks "test.t1.000002 0-1-2"
  = Some ("test.t1.000002.avro", "0-1-2")%string.
Proof. reflexivity. Qed.

Example first_file_without_gtid :
  Avro.get_avrofile_and_gtid skip_blanks "test.t1"
  = Some ("test.t1.000001.avro", "")%string.
Proof. reflexivity. Qed.

(** ** The GTID of a request *)

Lemma strtol_digits_numbers (s : string) :
  forall acc : Z,
    numbers s (Some acc)
    = (Avro.strtol_digits acc s).1 :: numbers (Avro.strtol_digits acc s).2 None /\
    (String.length (Avro.strtol_digits acc s).2 <= String.length s)%nat.
Proof.
  induction s as [|c rest IH]; intros acc.
  - simpl. split; [reflexivity | lia].
  - cbn [numbers Avro.strtol_digits]. destruct (Avro.isdigit c) eqn:Ed.
    + destruct (IH (acc * 10 + (Z.of_N (N_of_ascii c) - 48))) as [Hn Hl].
      split; [exact Hn | simpl String.length; lia].
    + cbn [fst snd numbers]. rewrite Ed. split; [reflexivity | lia].
Qed.

Lemma extract_loop_stores {G : Type} {GP : Avro.GtidPos G} (fuel : nat) :
  forall (s : string) (read : nat) (g : G),
    (String.length s < fuel)%nat ->
    (read <= 3)%nat ->
    Avro.extract_loop fuel s (Z.of_nat read) g
    = Some (store_numbers read (map as_long (numbers s None)) g).
Proof.
  induction fuel as [|fuel IH]; intros s read g Hfuel Hread; [lia|].
  destruct s as [|c rest]; [reflexivity|].
  cbn [Avro.extract_loop numbers]. simpl String.length in Hfuel.
  destruct (Avro.isdigit c) eqn:Ed; cbn [negb].
  - unfold Avro.strtol. cbn [Avro.strtol_digits]. rewrite Ed.
    change (0 * 10 + (Z.of_N (N_of_ascii c) - 48)) with (Z.of_N (N_of_ascii c) - 48).
    destruct (strtol_digits_numbers rest (Z.of_N (N_of_ascii c) - 48)) as [Hn Hl].
    rewrite Hn.
    destruct (Avro.strtol_digits (Z.of_N (N_of_ascii c) - 48) rest) as [n end_].
    cbn [fst snd map store_numbers] in *.
    assert (Hwrap : forall r : nat, (r <= 2)%nat ->
              wrap_int (Z.of_nat r + 1) = Z.of_nat (S r)).
    { intros r Hr. rewrite wrap_int_id; [lia|].
      unfold int_range, INT_MIN, INT_MAX. lia. }
    destruct read as [|[|[|read]]].
    + rewrite Hwrap by lia. cbn [Z.of_nat Z.eqb]. apply IH; lia.
    + rewrite Hwrap by lia. cbn [Z.of_nat Pos.of_succ_nat Z.eqb Pos.eqb]. apply IH; lia.
    + rewrite Hwrap by lia.
      cbn [Z.of_nat Pos.of_succ_nat Pos.succ Z.eqb Pos.eqb]. apply IH; lia.
    + assert (read = 0%nat) as -> by lia. reflexivity.
  - apply IH; lia.
Qed.

(** X25. [extract_gtid_request] reads the numbers written in the
    request, whatever stands between them: the first becomes the
    domain, the second the server id and the third the sequence, each
    as the [long] that [strtol] makes of it ([LONG_MAX] when it does
    not fit), and a field for which there is no number is left as it
    was.  A fourth number makes the behaviour undefined: no case of the
    switch sets [end] for it, and the loop goes on from the
    uninitialised [end]. *)
Theorem extract_gtid_request_reads_three_numbers {G : Type} {GP : Avro.GtidPos G}
    (g : G) (start : string) :
  Avro.extract_gtid_request g start
  = match map as_long (numbers start None) with
    | [] => Done g
    | [d] => Done (Avro.set_domain d g)
    | [d; s] => Done (Avro.set_server_id s (Avro.set_domain d g))
    | [d; s; n] => Done (Avro.set_seq n (Avro.set_server_id s (Avro.set_domain d g)))
    | _ => Undefined
    end.
Proof.
  unfold Avro.extract_gtid_request.
  rewrite (extract_loop_stores (S (String.length start)) start 0 g) by lia.
  destruct (map as_long (numbers start None)) as [|a [|b [|c [|d l]]]]; reflexivity.
Qed.

Example gtid_of_three_numbers :
  Avro.extract_gtid_request (mk_gtid 7 7 7) "0-1-2" = Done (mk_gtid 0 1 2).
Proof. reflexivity. Qed.

Example gtid_of_one_number :
  Avro.extract_gtid_request (mk_gtid 7 7 7) "gtid 5" = Done (mk_gtid 5 7 7).
Proof. reflexivity. Qed.

Example gtid_of_four_numbers :
  Avro.extract_gtid_request (mk_gtid 7 7 7) "0-1-2-3" = Undefined.
Proof. reflexivity. Qed.

Example gtid_number_beyond_long :
  Avro.extract_gtid_request (mk_gtid 7 7 7) "9223372036854775808"
  = Done (mk_gtid Avro.LONG_MAX 7 7).
Proof. reflexivity. Qed.

(** ** Routing the messages of the client *)

Lemma routeQuery_errored {G : Type} {GP : Avro.GtidPos G}
    (do_registration : option GWBUF -> Prog (Avro.t G) Z)
    (process_command : option GWBUF -> Prog (Avro.t G) unit)
    (queue : option GWBUF) (s : Avro.t G) :
  Avro.state s = Avro.AVRO_CLIENT_ERRORED ->
  Avro.routeQuery do_registration process_command queue s = Done (0, s).
Proof.
  intros Hst. unfold Avro.routeQuery.
  unfold gets at 1. unfold mbind at 1, Prog_bind. cbn beta iota.
  rewrite Hst. reflexivity.
Qed.

(** X26. A registration that fails is final.  [routeQuery] answers 0
    for it, tells the client, closes the DCB, frees the message and
    leaves the session errored; from then on [routeQuery] answers 0 to
    every message and does nothing else: the session stays as it is,
    and the messages are not freed. *)
Theorem failed_registration_is_final {G : Type} {GP : Avro.GtidPos G}
    (do_registration : option GWBUF -> Prog (Avro.t G) Z)
    (process_command : option GWBUF -> Prog (Avro.t G) unit)
    (queue : option GWBUF) (s s1 : Avro.t G) :
  Avro.state s = Avro.AVRO_CLIENT_UNREGISTERED ->
  do_registration queue s = Done (0, s1) ->
  exists s2,
    Avro.routeQuery do_registration process_command queue s = Done (0, s2) /\
    Avro.state s2 = Avro.AVRO_CLIENT_ERRORED /\
    Avro.dcb s2 = DCB.close (Avro.dcb s1) /\
    Avro.calls s2
      = Avro.calls s1
        ++ [Avro.Printf ("ERR, code 12, msg: Registration failed" +:+ Avro.nl);
            Avro.Free queue] /\
    forall queues : list (option GWBUF),
      route_all do_registration process_command queues s2
      = Done (map (fun _ => 0) queues, s2).
Proof.
  intros Hst Hreg. unfold Avro.routeQuery.
  unfold gets at 1. unfold mbind at 1, Prog_bind. cbn beta iota.
  rewrite Hst. cbn [Z.eqb Avro.AVRO_CLIENT_ERRORED Avro.AVRO_CLIENT_UNREGISTERED].
  unfold mbind at 1, Prog_bind. unfold mbind at 1, Prog_bind. rewrite Hreg.
  avro_run. eexists. split; [reflexivity|]. avro_fields.
  split; [reflexivity|]. split; [reflexivity|].
  split; [rewrite <- app_assoc; reflexivity|].
  induction queues as [|q rest IH]; [reflexivity|].
  cbn [route_all map]. unfold mbind at 1, Prog_bind.
  rewrite routeQuery_errored by reflexivity.
  unfold mbind at 1, Prog_bind. rewrite IH. reflexivity.
Qed.

Lemma failed_registration_is_final_witness :
  exists s2,
    Avro.routeQuery no_registration no_command (Some [Byte.x52]) unregistered
      = Done (0, s2) /\
    Avro.state s2 = Avro.AVRO_CLIENT_ERRORED /\
    Avro.dcb s2 = DCB.close (Avro.dcb unregistered) /\
    Avro.calls s2
      = Avro.calls unregistered
        ++ [Avro.Printf ("ERR, code 12, msg: Registration failed" +:+ Avro.nl);
            Avro.Free (Some [Byte.x52])] /\
    forall queues : list (option GWBUF),
      route_all no_registration no_command queues s2
      = Done (map (fun _ => 0) queues, s2).
Proof.
  exact (failed_registration_is_final no_registration no_command (Some [Byte.x52])
           unregistered unregistered eq_refl eq_refl).
Defined.

(** ** A request for data *)










